(** * World Bank infographic script (22077669.py): model and properties

    The script reads a World Bank CSV export with pandas, reshapes it
    ([process_world_bank_data]) and draws four charts from the reshaped
    table.  This file embeds the pandas operations the script calls, the
    script's functions statement by statement, and proves properties of
    the reshaping and of the data preparation of the four chart builders.

    Conventions of the model.
    - Text is a sequence of 8-bit characters ([string]), read as Latin-1;
      the labels of the World Bank export are ASCII.
    - A float64 is modelled by the rational it denotes ([Q]); the missing
      value NaN is a value of its own.  Rounding is not modelled: where a
      property depends on it, it is stated for every accuracy of the
      arithmetic.
    - Python objects that are mutated in place (data frames) live in a
      heap and are named by their location; every pandas call that returns
      a new frame allocates.
    - Integers are unbounded ([Z]); [pd.to_numeric] reads them up to the
      largest unsigned 64-bit integer.
    - An exception is modelled by its class and the leading words of its
      message.
    - The calls on the plotting surfaces are recorded, in order, on a
      canvas: the plotting call with its data, the cosmetic calls by name.
      The pie is the one plotting call that refuses data the builders can
      hand it; its checks are modelled.
    - [float(s)] is a parameter of the script: nothing is assumed of which
      strings spell a number.  The worked runs take plain decimal
      literals. *)

From Stdlib Require Import String Ascii List ZArith QArith Qround Bool Lia Lqa Permutation Sorted.
From stdpp Require Import base option list.
Import ListNotations.

Open Scope string_scope.
Open Scope list_scope.

(** ** Cell values, exceptions *)

Inductive value : Type :=
| VNaN
| VStr (s : string)
| VInt (z : Z)
| VFloat (q : Q).

Inductive error : Type :=
| FileNotFoundError (path : string)
| EmptyDataError
| ParserError (msg : string)
| KeyError (labels : list string)
| IndexError
| ValueError (msg : string).

Inductive result (A : Type) : Type :=
| Ok (a : A)
| Err (e : error).
Arguments Ok {A} a.
Arguments Err {A} e.

#[global] Instance result_ret : MRet result := fun A a => Ok a.
#[global] Instance result_bind : MBind result :=
  fun A B f m => match m with Ok a => f a | Err e => Err e end.

Fixpoint mapM {A B : Type} (f : A -> result B) (l : list A) : result (list B) :=
  match l with
  | [] => Ok []
  | x :: t =>
      match f x with
      | Ok y => match mapM f t with Ok ys => Ok (y :: ys) | Err e => Err e end
      | Err e => Err e
      end
  end.

(** ** Strings *)

(** [col.split(' ')[0]]: the text before the first space. *)
Fixpoint split_first (s : string) : string :=
  match s with
  | EmptyString => EmptyString
  | String c t => if Ascii.eqb c " " then EmptyString else String c (split_first t)
  end.

(** ASCII white space as [str.split()] sees it. *)
Definition is_whitespace (c : ascii) : bool :=
  let n := nat_of_ascii c in
  Nat.eqb n 32 || (Nat.leb 9 n && Nat.leb n 13) || (Nat.leb 28 n && Nat.leb n 31).

Fixpoint skip_whitespace (s : string) : string :=
  match s with
  | EmptyString => EmptyString
  | String c t => if is_whitespace c then skip_whitespace t else s
  end.

Fixpoint take_token (s : string) : string :=
  match s with
  | EmptyString => EmptyString
  | String c t => if is_whitespace c then EmptyString else String c (take_token t)
  end.

(** The first whitespace-delimited token of a header, in the words of the
    specification; there is none in a blank header. *)
Definition first_token (s : string) : option string :=
  match skip_whitespace s with
  | EmptyString => None
  | t => Some (take_token t)
  end.

Definition is_digit (c : ascii) : bool :=
  let n := nat_of_ascii c in Nat.leb 48 n && Nat.leb n 57.

Fixpoint all_digits (s : string) : bool :=
  match s with
  | EmptyString => true
  | String c t => is_digit c && all_digits t
  end.

(** The text [pd.to_numeric], [int] and [float] read as a natural number:
    non-empty, ASCII digits only. *)
Definition ascii_digits (s : string) : bool :=
  match s with
  | EmptyString => false
  | _ => all_digits s
  end.

(** The characters of Latin-1 that Unicode gives a numeric value: the
    digits, the superscripts one, two and three and the fractions one
    quarter, one half and three quarters. *)
Definition is_numeric_char (c : ascii) : bool :=
  let n := nat_of_ascii c in
  is_digit c || Nat.eqb n 178 || Nat.eqb n 179 || Nat.eqb n 185
  || Nat.eqb n 188 || Nat.eqb n 189 || Nat.eqb n 190.

Fixpoint all_numeric (s : string) : bool :=
  match s with
  | EmptyString => true
  | String c t => is_numeric_char c && all_numeric t
  end.

(** [str.isnumeric()]: non-empty, numeric characters only.  A superscript
    or a fraction passes, and no parser of numbers reads it. *)
Definition isnumeric (s : string) : bool :=
  match s with
  | EmptyString => false
  | _ => all_numeric s
  end.

Fixpoint digits_value (acc : Z) (s : string) : Z :=
  match s with
  | EmptyString => acc
  | String c t => digits_value (10 * acc + (Z.of_nat (nat_of_ascii c) - 48)) t
  end.

Definition unable_to_parse : string := "Unable to parse string".
Definition out_of_range : string := "Integer out of range".

(** A label that [pd.to_numeric] reads as an integer: ASCII digits that
    spell a number an unsigned 64-bit integer holds. *)
Definition readable (s : string) : bool :=
  ascii_digits s && (digits_value 0 s <? 2 ^ 64)%Z.

(** [pd.to_numeric] on one label.  The script applies it to labels that
    passed [isnumeric]: of those it parses the ones made of ASCII digits,
    up to the largest unsigned 64-bit integer; other spellings of numbers
    do not reach it. *)
Definition to_numeric (s : string) : result Z :=
  if ascii_digits s then
    if (digits_value 0 s <? 2 ^ 64)%Z then Ok (digits_value 0 s)
    else Err (ValueError out_of_range)
  else Err (ValueError unable_to_parse).

(** [int(s)]: an optional sign and digits. *)
Definition int_of_string (s : string) : option Z :=
  match s with
  | String "-" t => if ascii_digits t then Some (- digits_value 0 t)%Z else None
  | String "+" t => if ascii_digits t then Some (digits_value 0 t) else None
  | _ => if ascii_digits s then Some (digits_value 0 s) else None
  end.

(** A plain decimal literal: optional sign, digits, optional fraction.
    It serves as the float parser of the worked examples. *)
Fixpoint fraction_value (num den : Z) (s : string) : Z * Z :=
  match s with
  | EmptyString => (num, den)
  | String c t => fraction_value (10 * num + (Z.of_nat (nat_of_ascii c) - 48)) (10 * den) t
  end.

Fixpoint split_at_dot (s : string) : string * option string :=
  match s with
  | EmptyString => (EmptyString, None)
  | String c t =>
      if Ascii.eqb c "." then (EmptyString, Some t)
      else let '(a, b) := split_at_dot t in (String c a, b)
  end.

Definition unsigned_decimal (s : string) : option Q :=
  match split_at_dot s with
  | (a, None) => if ascii_digits a then Some (inject_Z (digits_value 0 a)) else None
  | (a, Some b) =>
      if ascii_digits a && ascii_digits b then
        let '(n, d) := fraction_value (digits_value 0 a) 1 b in
        Some (Qmake n (Z.to_pos d))
      else None
  end.

Definition decimal_literal (s : string) : option Q :=
  match s with
  | String "-" t => option_map Qopp (unsigned_decimal t)
  | String "+" t => unsigned_decimal t
  | _ => unsigned_decimal s
  end.

(** ** Data frames *)

(** A frame has column labels and rows; a row carries its index label and
    its cells.  [I] is the type of index labels, [C] of column labels. *)
Record Frame (I C : Type) : Type := mkFrame {
  columns : list C;
  rows : list (I * list value)
}.
Arguments mkFrame {I C} columns rows.
Arguments columns {I C} f.
Arguments rows {I C} f.

Abbreviation DataFrame := (Frame Z string).
Abbreviation TransposedTable := (Frame Z value).

Definition index {I C} (f : Frame I C) : list I := map fst (rows f).
Definition nrows {I C} (f : Frame I C) : nat := length (rows f).
Definition ncols {I C} (f : Frame I C) : nat := length (columns f).

(** The cell of a row in column position [j]; a cell that is absent reads
    as missing. *)
Definition cell {I} (j : nat) (r : I * list value) : value := nth j (snd r) VNaN.

Definition pad (n : nat) (cells : list value) : list value :=
  map (fun j => nth j cells VNaN) (seq 0 n).

Definition mem (s : string) (l : list string) : bool := existsb (String.eqb s) l.

Fixpoint get_loc (label : string) (cols : list string) : option nat :=
  match cols with
  | [] => None
  | c :: cs => if String.eqb c label then Some 0 else option_map S (get_loc label cs)
  end.

(** Positional selection by a boolean mask. *)
Fixpoint select {A : Type} (mask : list bool) (l : list A) : list A :=
  match mask, l with
  | b :: m, x :: t => if b then x :: select m t else select m t
  | _, _ => []
  end.

Definition range_index (cells : list (list value)) : list (Z * list value) :=
  combine (map Z.of_nat (seq 0 (length cells))) cells.

(** ** The pandas operations of the script *)

Module pd.

(** [df.iloc[:-k]] for [k > 0]: a slice, so the stop is clamped at 0. *)
Definition iloc_stop_neg {I C} (k : nat) (f : Frame I C) : Frame I C :=
  mkFrame (columns f) (firstn (length (rows f) - k) (rows f)).

(** [df.iloc[k:]]. *)
Definition iloc_start {I C} (k : nat) (f : Frame I C) : Frame I C :=
  mkFrame (columns f) (skipn k (rows f)).

(** [df.iloc[0]]: a single position must exist. *)
Definition iloc_row0 {I C} (f : Frame I C) : result (list value) :=
  match rows f with
  | [] => Err IndexError
  | r :: _ => Ok (pad (ncols f) (snd r))
  end.

(** [df.drop(columns=labels)]: every label must be a column; all columns
    carrying one of the labels go. *)
Definition drop {I} (labels : list string) (f : Frame I string) : result (Frame I string) :=
  match List.filter (fun l => negb (mem l (columns f))) labels with
  | [] =>
      let keep := map (fun c => negb (mem c labels)) (columns f) in
      Ok (mkFrame (select keep (columns f))
                  (map (fun r => (fst r, select keep (pad (ncols f) (snd r)))) (rows f)))
  | missing => Err (KeyError missing)
  end.

(** [df.columns = new]. *)
Definition set_columns {I C C'} (new : list C') (f : Frame I C) : result (Frame I C') :=
  if Nat.eqb (length new) (ncols f) then Ok (mkFrame new (rows f))
  else Err (ValueError "Length mismatch").

(** [df.index = new]. *)
Definition set_index {I I' C} (new : list I') (f : Frame I C) : result (Frame I' C) :=
  if Nat.eqb (length new) (nrows f) then Ok (mkFrame (columns f) (combine new (map snd (rows f))))
  else Err (ValueError "Length mismatch").

(** [df.T]. *)
Definition T {I C} (f : Frame I C) : Frame C I :=
  mkFrame (index f)
          (map (fun jc => (snd jc, map (cell (fst jc)) (rows f)))
               (combine (seq 0 (ncols f)) (columns f))).

(** [df[mask]] with a boolean array: the rows where the mask holds. *)
Definition getitem_bool {I C} (mask : list bool) (f : Frame I C) : Frame I C :=
  mkFrame (columns f) (select mask (rows f)).

(** [df[label] = vals]: overwrites every column carrying the label, or
    appends a new column. *)
Definition setitem {I C} (is_key : C -> bool) (key : C) (vals : list value)
    (f : Frame I C) : result (Frame I C) :=
  if Nat.eqb (length vals) (nrows f) then
    if existsb is_key (columns f) then
      Ok (mkFrame (columns f)
            (map (fun rv => (fst (fst rv),
                             map (fun co => if is_key (fst co) then snd rv else snd co)
                                 (combine (columns f) (pad (ncols f) (snd (fst rv))))))
                 (combine (rows f) vals)))
    else
      Ok (mkFrame (columns f ++ [key])
            (map (fun rv => (fst (fst rv), pad (ncols f) (snd (fst rv)) ++ [snd rv]))
                 (combine (rows f) vals)))
  else Err (ValueError "Length of values does not match length of index").

Definition is_label (s : string) (c : value) : bool :=
  match c with
  | VStr t => String.eqb t s
  | _ => false
  end.

(** [df[label]] on a table with string labels, for a label that heads at
    most one column: the position of the label is that of its column.
    (On a label that heads several columns pandas selects them all, and
    what follows differs from one operation to the next: the filter and
    [sort_values] raise, [melt] refuses a repeated id variable and melts
    every column of a repeated value variable, [dropna] tests them all.
    The operations below stand for pandas on frames whose labels are
    [distinct]; the properties of the builders assume such frames.) *)
Definition getitem {I} (label : string) (f : Frame I string) : result (list value) :=
  match get_loc label (columns f) with
  | Some j => Ok (map (cell j) (rows f))
  | None => Err (KeyError [label])
  end.

(** [series == lit] for a string literal. *)
Definition eq_scalar (lit : string) (v : value) : bool :=
  match v with
  | VStr s => String.eqb s lit
  | _ => false
  end.

(** [df[df[col] == lit]]. *)
Definition filter_eq {I} (col lit : string) (f : Frame I string) : result (Frame I string) :=
  series ← getitem col f;
  mret (getitem_bool (map (eq_scalar lit) series) f).

Definition cell_of {I} (f : Frame I string) (label : string) (r : I * list value) : value :=
  match get_loc label (columns f) with
  | Some j => cell j r
  | None => VNaN
  end.

(** [pd.melt(df, id_vars, value_vars, var_name, value_name)]: one block of
    rows per value column, in the order of [value_vars]; a fresh index.
    It stands for pandas on a frame with distinct labels none of which is
    [value_name] (recent versions of pandas refuse such a name). *)
Definition melt (id_vars value_vars : list string) (var_name value_name : string)
    (f : DataFrame) : result DataFrame :=
  match List.filter (fun l => negb (mem l (columns f))) (id_vars ++ value_vars) with
  | [] =>
      Ok (mkFrame (id_vars ++ [var_name; value_name])
            (range_index
               (flat_map (fun v => map (fun r => map (fun i => cell_of f i r) id_vars
                                                   ++ [VStr v; cell_of f v r])
                                       (rows f))
                         value_vars)))
  | missing => Err (KeyError missing)
  end.

Definition isna (v : value) : bool :=
  match v with
  | VNaN => true
  | _ => false
  end.

(** [df.dropna(subset=labels)]: rows with a missing cell in one of the
    columns go. *)
Definition dropna {I} (subset : list string) (f : Frame I string) : result (Frame I string) :=
  match List.filter (fun l => negb (mem l (columns f))) subset with
  | [] =>
      Ok (mkFrame (columns f)
            (List.filter (fun r => negb (existsb (fun l => isna (cell_of f l r)) subset)) (rows f)))
  | missing => Err (KeyError missing)
  end.

(** [df.head(n)]. *)
Definition head {I C} (n : nat) (f : Frame I C) : Frame I C :=
  mkFrame (columns f) (firstn n (rows f)).

(** The sort key of a cell: its number; missing values have none and sort
    last. *)
Definition float_key (v : value) : option Q :=
  match v with
  | VFloat q => Some q
  | VInt z => Some (inject_Z z)
  | _ => None
  end.

(** [a] may stand before [b] in descending order. *)
Definition key_ge (a b : option Q) : bool :=
  match a, b with
  | Some x, Some y => Qle_bool y x
  | Some _, None => true
  | None, Some _ => false
  | None, None => true
  end.

Fixpoint insert_desc {A : Type} (key : A -> option Q) (x : A) (l : list A) : list A :=
  match l with
  | [] => [x]
  | y :: t => if key_ge (key x) (key y) then x :: y :: t else y :: insert_desc key x t
  end.

Fixpoint sort_desc {A : Type} (key : A -> option Q) (l : list A) : list A :=
  match l with
  | [] => []
  | x :: t => insert_desc key x (sort_desc key t)
  end.

(** [df.sort_values(by=label, ascending=False)], for a label that heads
    one column.  pandas does not fix the order of rows with equal keys; the
    model keeps their order, and the properties of the pie do not depend
    on it. *)
Definition sort_values_desc {I} (by_ : string) (f : Frame I string) : result (Frame I string) :=
  match get_loc by_ (columns f) with
  | Some j => Ok (mkFrame (columns f) (sort_desc (fun r => float_key (cell j r)) (rows f)))
  | None => Err (KeyError [by_])
  end.

(** [series.astype(int)] on one cell. *)
Definition to_int (v : value) : result value :=
  match v with
  | VInt z => Ok (VInt z)
  | VFloat q => Ok (VInt (Z.quot (Qnum q) (Zpos (Qden q))))
  | VStr s =>
      match int_of_string s with
      | Some z => Ok (VInt z)
      | None => Err (ValueError "invalid literal for int()")
      end
  | VNaN => Err (ValueError "cannot convert float NaN to integer")
  end.

End pd.

Definition could_not_convert : string := "could not convert string to float".
Definition negative_wedge : string := "Wedge sizes 'x' must be non negative values".
Definition nan_angle : string := "cannot convert float NaN to integer".
Definition all_zero : string := "All wedge sizes are zero".

(** ** The pie of matplotlib *)

Definition Qsum (l : list Q) : Q := fold_right Qplus 0%Q l.

Definition is_negative (v : value) : bool :=
  match pd.float_key v with
  | Some q => negb (Qle_bool 0 q)
  | None => false
  end.

Fixpoint all_floats (x : list value) : option (list Q) :=
  match x with
  | [] => Some []
  | v :: t =>
      match pd.float_key v, all_floats t with
      | Some q, Some qs => Some (q :: qs)
      | _, _ => None
      end
  end.


(** [Axes.pie] casts the sizes to float32, refuses a negative size and
    sizes whose sum is zero (no size at all included), normalises the
    sizes by their sum and hands [100 * fraction] to [autopct].  The model
    keeps the sizes exact: it stands for the call on sizes that are
    [float32_safe]; rounding is not modelled.  A size that is no number
    does not reach the call from the builder, which drops the missing
    values. *)
Definition pie_percentages (x : list value) : result (list value) :=
  if existsb is_negative x then Err (ValueError negative_wedge)
  else
    match all_floats x with
    | Some qs =>
        let sx := Qsum qs in
        if Qeq_bool sx 0 then Err (ValueError all_zero)
        else Ok (map (fun q => VFloat (100 * (q / sx))) qs)
    | None => Err (ValueError nan_angle)
    end.

(** [autopct='%1.1f%%']: the number printed on a wedge, the percentage
    rounded to one decimal, a tie going to the even digit. *)
Definition one_decimal (q : Q) : Q :=
  let t := (q * 10)%Q in
  let n := Qfloor t in
  let r := (t - inject_Z n)%Q in
  let down := (inject_Z n * (1 # 10))%Q in
  let up := ((inject_Z n + 1) * (1 # 10))%Q in
  if Qle_bool r (1 # 2) then
    if Qeq_bool r (1 # 2) then (if Z.even n then down else up) else down
  else up.

(** Every number of [xs] is within [d] of the number of [ys] at its place:
    computed percentages and the exact ones, printed labels and the
    percentages they round. *)
Definition near (d : Q) (xs ys : list Q) : Prop :=
  Forall2 (fun x y => (y - d <= x <= y + d)%Q) xs ys.

(** ** The interpreter state *)

Inductive DrawCall : Type :=
| Barplot (data : DataFrame) (x y hue : string)
| Lineplot (data : DataFrame) (x y hue : string)
| Pie (x pct : list value)
| Histplot (data : DataFrame) (x : string) (bins : nat)
| Legend (title : string) (labels : option (list value))
| Decorate (what : string).

(** [files] holds the CSV files that parse, by path, each with the table
    [read_csv] returns for it: the types of its cells are those pandas
    infers from all the rows of the file, the footer included.
    [unreadable] holds the files that exist and do not parse, each with the
    exception [read_csv] raises on it. *)
Record World : Type := mkWorld {
  files : list (string * DataFrame);   (* CSV files that parse, by path *)
  unreadable : list (string * error);  (* files that do not parse *)
  heap : list DataFrame;               (* frames, by location *)
  canvas : list (nat * DrawCall);      (* calls received by each Axes *)
  saved : list string                  (* image files written *)
}.

Definition loc := nat.

(** Statements run in a world and may raise. *)
Definition M (A : Type) : Type := World -> World * result A.

#[global] Instance M_ret : MRet M := fun A a w => (w, Ok a).
#[global] Instance M_bind : MBind M :=
  fun A B f m w =>
    match m w with
    | (w', Ok a) => f a w'
    | (w', Err e) => (w', Err e)
    end.

Definition lift {A} (r : result A) : M A := fun w => (w, r).

Definition set_heap (h : list DataFrame) (w : World) : World :=
  mkWorld (files w) (unreadable w) h (canvas w) (saved w).

Definition new (f : DataFrame) : M loc :=
  fun w => (set_heap (heap w ++ [f]) w, Ok (length (heap w))).

Definition get (l : loc) : M DataFrame :=
  fun w =>
    match heap w !! l with
    | Some f => (w, Ok f)
    | None => (w, Err (ValueError "no such object"))
    end.

Definition put (l : loc) (f : DataFrame) : M unit :=
  fun w => (set_heap (<[l := f]> (heap w)) w, Ok tt).

Definition draw (ax : nat) (c : DrawCall) : M unit :=
  fun w => (mkWorld (files w) (unreadable w) (heap w) (canvas w ++ [(ax, c)]) (saved w), Ok tt).

Definition savefig (name : string) : M unit :=
  fun w => (mkWorld (files w) (unreadable w) (heap w) (canvas w) (saved w ++ [name]), Ok tt).

Fixpoint lookup_file (path : string) (fs : list (string * DataFrame)) : option DataFrame :=
  match fs with
  | [] => None
  | (p, f) :: t => if String.eqb p path then Some f else lookup_file path t
  end.

Fixpoint lookup_error (path : string) (es : list (string * error)) : option error :=
  match es with
  | [] => None
  | (p, e) :: t => if String.eqb p path then Some e else lookup_error path t
  end.

(** [pd.read_csv(path)]: a fresh frame; on a file that does not parse the
    exception of the parser ([EmptyDataError], [ParserError]); on a
    missing file [FileNotFoundError]. *)
Definition read_csv (path : string) : M loc :=
  fun w =>
    match lookup_file path (files w) with
    | Some f => new f w
    | None =>
        match lookup_error path (unreadable w) with
        | Some e => (w, Err e)
        | None => (w, Err (FileNotFoundError path))
        end
    end.

(** A pandas call on the frame at [l] that returns a new frame. *)
Definition call (op : DataFrame -> result DataFrame) (l : loc) : M loc :=
  f ← get l; r ← lift (op f); new r.

(** A pandas call that changes the frame at [l] in place. *)
Definition call_inplace (op : DataFrame -> result DataFrame) (l : loc) : M unit :=
  f ← get l; r ← lift (op f); put l r.

(** [df[label]] on the frame at [l]. *)
Definition column (l : loc) (label : string) : M (list value) :=
  f ← get l; lift (pd.getitem label f).

(** ** The script *)

Definition dropped_columns : list string :=
  ["Country Code"; "Series Code";
   "2001 [YR2001]"; "2002 [YR2002]";
   "2003 [YR2003]"; "2004 [YR2004]";
   "2005 [YR2005]"; "2006 [YR2006]";
   "2007 [YR2007]";
   "2008 [YR2008]"; "2009 [YR2009]";
   "2010 [YR2010]"; "2011 [YR2011]";
   "2012 [YR2012]"].

(** Lines 27-32: the transposed companion.  Its frames are fresh objects
    that nothing else refers to; it is returned by value. *)
Definition transposed_companion (world_bank_data : DataFrame) : result TransposedTable :=
  let transpose := pd.T world_bank_data in
  header ← pd.iloc_row0 transpose;
  transpose ← pd.set_columns header transpose;
  let transpose := pd.iloc_start 1 transpose in
  let transpose := pd.getitem_bool (map isnumeric (index transpose)) transpose in
  numeric ← mapM to_numeric (index transpose);
  transpose ← pd.set_index numeric transpose;
  pd.setitem (pd.is_label "Years") (VStr "Years") (map VInt (index transpose)) transpose.

(** Lines 17-34. *)
Definition process_world_bank_data (population_data : string) : M (loc * TransposedTable) :=
  raw ← read_csv population_data;
  world_bank_data ← call (fun f => Ok (pd.iloc_stop_neg 5 f)) raw;
  call_inplace (pd.drop dropped_columns) world_bank_data;;
  call_inplace (fun f => pd.set_columns (map split_first (columns f)) f) world_bank_data;;
  wide ← get world_bank_data;
  transpose ← lift (transposed_companion wide);
  mret (world_bank_data, transpose).

Definition years : list string := ["2015"; "2016"; "2017"; "2018"; "2019"].

Definition urban_growth : string := "Urban population growth (annual %)".
Definition largest_city : string := "Population in the largest city (% of urban population)".
Definition rural_population : string := "Rural population".

Section Script.

(** [float(s)] on text: the number a string spells, if it spells one. *)
Variable float_of_string : string -> option Q.

(** [series.astype(float)] on one cell. *)
Definition to_float (v : value) : result value :=
  match v with
  | VNaN => Ok VNaN
  | VFloat q => Ok (VFloat q)
  | VInt z => Ok (VFloat (inject_Z z))
  | VStr s =>
      match float_of_string s with
      | Some q => Ok (VFloat q)
      | None => Err (ValueError could_not_convert)
      end
  end.

(** [df[label] = df[label].astype(float)] and the same with [int], on the
    frame at [l]. *)
Definition astype_column (conv : value -> result value) (l : loc) (label : string) : M unit :=
  series ← column l label;
  converted ← lift (mapM conv series);
  call_inplace (pd.setitem (String.eqb label) label converted) l.

(** Lines 47-67. *)
Definition barplot_urban_growth_data (ax : nat) (world_bank_data : loc) : M unit :=
  urban_growth_data ← call (pd.filter_eq "Series" urban_growth) world_bank_data;
  urban_growth_data_melted ←
    call (pd.melt ["Country"] years "Year" "Urban Population Growth (Annual %)") urban_growth_data;
  astype_column to_float urban_growth_data_melted "Urban Population Growth (Annual %)";;
  astype_column pd.to_int urban_growth_data_melted "Year";;
  data ← get urban_growth_data_melted;
  draw ax (Barplot data "Country" "Urban Population Growth (Annual %)" "Year");;
  draw ax (Decorate "set_title");;
  draw ax (Decorate "set_xlabel");;
  draw ax (Decorate "set_ylabel");;
  draw ax (Decorate "set_xticklabels");;
  draw ax (Legend "Year" None).

(** Lines 80-104. *)
Definition lineplot_urban_growth_data (ax : nat) (world_bank_data : loc) : M unit :=
  urban_growth_data ← call (pd.filter_eq "Series" urban_growth) world_bank_data;
  urban_growth_data_melted ←
    call (pd.melt ["Country"] years "Year" "Urban Population Growth (Annual %)") urban_growth_data;
  astype_column to_float urban_growth_data_melted "Urban Population Growth (Annual %)";;
  astype_column pd.to_int urban_growth_data_melted "Year";;
  data ← get urban_growth_data_melted;
  draw ax (Lineplot data "Year" "Urban Population Growth (Annual %)" "Country");;
  draw ax (Decorate "set_title");;
  draw ax (Decorate "set_xlabel");;
  draw ax (Decorate "set_xticks");;
  draw ax (Decorate "set_ylabel");;
  draw ax (Legend "Country" None).

(** Lines 116-135. *)
Definition pie_chart_largest_city_population (ax : nat) (world_bank_data : loc) : M unit :=
  largest_city_data ← call (pd.filter_eq "Series" largest_city) world_bank_data;
  let year := "2019" in
  largest_city_data ← call (pd.dropna [year]) largest_city_data;
  astype_column to_float largest_city_data year;;
  largest_city_data ← call (pd.sort_values_desc year) largest_city_data;
  top_countries ← call (fun f => Ok (pd.head 6 f)) largest_city_data;
  x ← column top_countries year;
  pct ← lift (pie_percentages x);
  draw ax (Pie x pct);;
  draw ax (Decorate "axis");;
  labels ← column top_countries "Country";
  draw ax (Legend "Country" (Some labels));;
  draw ax (Decorate "set_title").

(** Lines 147-163. *)
Definition histogram_rural_population (ax : nat) (world_bank_data : loc) : M unit :=
  rural_population_data ← call (pd.filter_eq "Series" rural_population) world_bank_data;
  rural_population_data_melted ←
    call (pd.melt ["Country"] years "Year" "Rural Population") rural_population_data;
  astype_column to_float rural_population_data_melted "Rural Population";;
  astype_column pd.to_int rural_population_data_melted "Year";;
  data ← get rural_population_data_melted;
  draw ax (Histplot data "Rural Population" 20);;
  draw ax (Decorate "set_title");;
  draw ax (Decorate "set_xlabel");;
  draw ax (Decorate "set_ylabel").

Definition population_data_path : string := "world_population_data.csv".

(** Lines 167-216: the script itself; the four Axes of the 2x2 grid are
    numbered 0 to 3, and 4 stands for the figure. *)
Definition main : M unit :=
  r ← process_world_bank_data population_data_path;
  let world_bank_data := fst r in
  barplot_urban_growth_data 0 world_bank_data;;
  lineplot_urban_growth_data 1 world_bank_data;;
  pie_chart_largest_city_population 2 world_bank_data;;
  histogram_rural_population 3 world_bank_data;;
  draw 4 (Decorate "suptitle");;
  draw 4 (Decorate "figtext");;
  savefig "22077669.png";;
  draw 4 (Decorate "show").

(** * Definitions for the properties *)

(** ** Columns and headers *)

(** The labels of [labels] that are no column: the ones [drop], [melt] and
    [dropna] complain about. *)
Definition missing (labels cols : list string) : list string :=
  List.filter (fun l => negb (mem l cols)) labels.

(** The columns that [drop] keeps. *)
Definition retained (labels cols : list string) : list string :=
  List.filter (fun c => negb (mem c labels)) cols.

(** Lines 17-26 as a function of the parsed table. *)
Definition wide_table (raw : DataFrame) : result DataFrame :=
  d ← pd.drop dropped_columns (pd.iloc_stop_neg 5 raw);
  mret (mkFrame (map split_first (columns d)) (rows d)).

(** Every label of [labels] is a column of [f]. *)
Definition has_columns {I : Type} (labels : list string) (f : Frame I string) : bool :=
  forallb (fun c => mem c (columns f)) labels.

(** No label occurs twice: what [read_csv] guarantees of the header. *)
Fixpoint distinct (l : list string) : bool :=
  match l with
  | [] => true
  | x :: t => negb (mem x t) && distinct t
  end.

(** Some column is not on the list of columns to drop. *)
Definition keeps_a_column (f : DataFrame) : bool :=
  existsb (fun c => negb (mem c dropped_columns)) (columns f).

(** A year header of the World Bank export: ["2015 [YR2015]"]. *)
Definition year_header (y : string) : string := y ++ " [YR" ++ y ++ "]".

(** ** Worked tables *)

Definition example_header : list string :=
  ["Country Name"; "Country Code"; "Series Name"; "Series Code";
   "2001 [YR2001]"; "2002 [YR2002]"; "2003 [YR2003]"; "2004 [YR2004]";
   "2005 [YR2005]"; "2006 [YR2006]"; "2007 [YR2007]"; "2008 [YR2008]";
   "2009 [YR2009]"; "2010 [YR2010]"; "2011 [YR2011]"; "2012 [YR2012]";
   "2015 [YR2015]"; "2016 [YR2016]"; "2017 [YR2017]"; "2018 [YR2018]";
   "2019 [YR2019]"].

Definition example_row (i : Z) (country series : string) (measures : list value)
  : Z * list value :=
  (i, [VStr country; VStr "XXX"; VStr series; VStr "SP.XXX"] ++ repeat VNaN 12 ++ measures).

Definition footer_row (n : nat) (i : Z) : Z * list value := (i, repeat VNaN n).

(** A small export as [read_csv] returns it: three series of country A,
    two more countries, and the five footer rows.  The measures are
    numbers, so the year columns are columns of floats. *)
Definition example_csv : DataFrame :=
  mkFrame example_header
    [ example_row 0 "A" urban_growth
        [VFloat (3 # 2); VFloat 2; VFloat (5 # 2); VFloat 3; VFloat (7 # 2)];
      example_row 1 "A" largest_city
        [VFloat 31; VFloat 31; VFloat (61 # 2); VFloat 30; VFloat (61 # 2)];
      example_row 2 "B" largest_city [VFloat 20; VFloat 20; VFloat 20; VFloat 20; VNaN];
      example_row 3 "C" largest_city [VFloat 41; VFloat 41; VFloat 40; VFloat 40; VFloat 40];
      example_row 4 "A" rural_population
        [VFloat 100; VFloat 101; VFloat 102; VFloat 103; VFloat 104];
      footer_row 21 5; footer_row 21 6; footer_row 21 7; footer_row 21 8; footer_row 21 9 ].

(** A table that has the fourteen columns to drop and no other. *)
Definition fourteen_columns_csv : DataFrame :=
  mkFrame dropped_columns
    [ footer_row 14 0; footer_row 14 1; footer_row 14 2; footer_row 14 3; footer_row 14 4;
      footer_row 14 5 ].

(** A table of three rows. *)
Definition three_rows_csv : DataFrame :=
  mkFrame example_header
    [ example_row 0 "A" urban_growth
        [VFloat (3 # 2); VFloat 2; VFloat (5 # 2); VFloat 3; VFloat (7 # 2)];
      footer_row 21 1; footer_row 21 2 ].

(** The same export without its "Series Code" column. *)
Definition no_series_code_csv : DataFrame :=
  mkFrame (List.filter (fun c => negb (String.eqb c "Series Code")) example_header)
    [ footer_row 20 0; footer_row 20 1; footer_row 20 2; footer_row 20 3; footer_row 20 4 ].

Definition world_with (csv : DataFrame) : World :=
  mkWorld [(population_data_path, csv)] [] [] [] [].

(** ** The builders, stage by stage *)

(** The tables handed to seaborn, in the order of the calls. *)
Definition plotted_data (c : list (nat * DrawCall)) : list DataFrame :=
  flat_map (fun call => match snd call with
                        | Barplot data _ _ _ => [data]
                        | Lineplot data _ _ _ => [data]
                        | Histplot data _ _ => [data]
                        | _ => []
                        end) c.

Definition set_canvas (c : list (nat * DrawCall)) (w : World) : World :=
  mkWorld (files w) (unreadable w) (heap w) c (saved w).

(** [df[label] = df[label].astype(...)] as a function of the frame. *)
Definition astype (conv : value -> result value) (label : string) (f : DataFrame)
  : result DataFrame :=
  series ← pd.getitem label f;
  converted ← mapM conv series;
  pd.setitem (String.eqb label) label converted f.

(** The data preparation of the bar chart, the line chart and the
    histogram (lines 47-57, 80-90 and 147-156) as a function of the
    WideTable. *)
Definition long_table (series value_name : string) (df : DataFrame) : result DataFrame :=
  filtered ← pd.filter_eq "Series" series df;
  melted ← pd.melt ["Country"] years "Year" value_name filtered;
  melted ← astype to_float value_name melted;
  astype pd.to_int "Year" melted.

(** The same statements, run on the heap. *)
Definition melted_data (series value_name : string) (world_bank_data : loc) : M DataFrame :=
  data ← call (pd.filter_eq "Series" series) world_bank_data;
  data_melted ← call (pd.melt ["Country"] years "Year" value_name) data;
  astype_column to_float data_melted value_name;;
  astype_column pd.to_int data_melted "Year";;
  get data_melted.

Definition barplot_draw (ax : nat) (data : DataFrame) : M unit :=
  draw ax (Barplot data "Country" "Urban Population Growth (Annual %)" "Year");;
  draw ax (Decorate "set_title");;
  draw ax (Decorate "set_xlabel");;
  draw ax (Decorate "set_ylabel");;
  draw ax (Decorate "set_xticklabels");;
  draw ax (Legend "Year" None).

Definition lineplot_draw (ax : nat) (data : DataFrame) : M unit :=
  draw ax (Lineplot data "Year" "Urban Population Growth (Annual %)" "Country");;
  draw ax (Decorate "set_title");;
  draw ax (Decorate "set_xlabel");;
  draw ax (Decorate "set_xticks");;
  draw ax (Decorate "set_ylabel");;
  draw ax (Legend "Country" None).

Definition histogram_draw (ax : nat) (data : DataFrame) : M unit :=
  draw ax (Histplot data "Rural Population" 20);;
  draw ax (Decorate "set_title");;
  draw ax (Decorate "set_xlabel");;
  draw ax (Decorate "set_ylabel").

(** The data preparation of the pie chart (lines 116-124) as a function of
    the WideTable: the frame after [dropna], the frame that is sorted and
    the six rows kept. *)
Definition largest_city_kept (df : DataFrame) : result DataFrame :=
  filtered ← pd.filter_eq "Series" largest_city df;
  pd.dropna ["2019"] filtered.

Definition top_countries_table (df : DataFrame) : result DataFrame :=
  kept ← largest_city_kept df;
  coerced ← astype to_float "2019" kept;
  sorted ← pd.sort_values_desc "2019" coerced;
  mret (pd.head 6 sorted).

(** Lines 126-128: the wedge sizes and the percentages of the pie. *)
Definition pie_wedges (top_countries : DataFrame) : result (list value * list value) :=
  x ← pd.getitem "2019" top_countries;
  pct ← pie_percentages x;
  mret (x, pct).

Definition top_countries_data (world_bank_data : loc) : M loc :=
  largest_city_data ← call (pd.filter_eq "Series" largest_city) world_bank_data;
  largest_city_data ← call (pd.dropna ["2019"]) largest_city_data;
  astype_column to_float largest_city_data "2019";;
  largest_city_data ← call (pd.sort_values_desc "2019") largest_city_data;
  call (fun f => Ok (pd.head 6 f)) largest_city_data.

Definition pie_draw (ax : nat) (top_countries : loc) : M unit :=
  x ← column top_countries "2019";
  pct ← lift (pie_percentages x);
  draw ax (Pie x pct);;
  draw ax (Decorate "axis");;
  labels ← column top_countries "Country";
  draw ax (Legend "Country" (Some labels));;
  draw ax (Decorate "set_title").

Definition barplot_calls (ax : nat) (data : DataFrame) : list (nat * DrawCall) :=
  [(ax, Barplot data "Country" "Urban Population Growth (Annual %)" "Year");
   (ax, Decorate "set_title"); (ax, Decorate "set_xlabel"); (ax, Decorate "set_ylabel");
   (ax, Decorate "set_xticklabels"); (ax, Legend "Year" None)].

Definition lineplot_calls (ax : nat) (data : DataFrame) : list (nat * DrawCall) :=
  [(ax, Lineplot data "Year" "Urban Population Growth (Annual %)" "Country");
   (ax, Decorate "set_title"); (ax, Decorate "set_xlabel"); (ax, Decorate "set_xticks");
   (ax, Decorate "set_ylabel"); (ax, Legend "Country" None)].

Definition histogram_calls (ax : nat) (data : DataFrame) : list (nat * DrawCall) :=
  [(ax, Histplot data "Rural Population" 20);
   (ax, Decorate "set_title"); (ax, Decorate "set_xlabel"); (ax, Decorate "set_ylabel")].

(** ** The rows of the pie *)

(** The rows of a table whose cell in column [col] is the text [lit]. *)
Definition rows_where {I : Type} (col lit : string) (f : Frame I string)
  : list (I * list value) :=
  List.filter (fun r => pd.eq_scalar lit (pd.cell_of f col r)) (rows f).

(** The rows of the largest-city series, and those of them that have a
    2019 value. *)
Definition largest_city_rows (df : DataFrame) : list (Z * list value) :=
  rows_where "Series" largest_city df.

Definition non_missing_2019 (df : DataFrame) : list (Z * list value) :=
  List.filter (fun r => negb (pd.isna (pd.cell_of df "2019" r))) (largest_city_rows df).

(** A cell that [astype(float)] refuses: text that spells no number. *)
Definition not_a_number (v : value) : bool :=
  match v with
  | VStr s => match float_of_string s with Some _ => false | None => true end
  | _ => false
  end.

(** The float a cell is coerced to. *)
Definition coerce (v : value) : value :=
  match to_float v with
  | Ok v' => v'
  | Err _ => VNaN
  end.

(** A row after [df[label] = ...]: the cells under [label] are replaced. *)
Definition with_cell (cols : list string) (label : string) (v : value) (r : Z * list value)
  : Z * list value :=
  (fst r, map (fun co : string * value => if String.eqb label (fst co) then v else snd co)
              (combine cols (pad (length cols) (snd r)))).

Definition coerced_rows (label : string) (f : DataFrame) : list (Z * list value) :=
  map (fun r => with_cell (columns f) label (coerce (pd.cell_of f label r)) r) (rows f).

(** Some largest-city row with a 2019 value holds text that is no number. *)
Definition offending (df : DataFrame) : bool :=
  existsb (fun r => not_a_number (pd.cell_of df "2019" r)) (non_missing_2019 df).


(** ** Worked WideTables *)

Definition wide_row (i : Z) (country series : string) (v2019 : value) : Z * list value :=
  (i, [VStr country; VStr series; VStr "1"; VStr "1"; VStr "1"; VStr "1"; v2019]).

Definition wide_header : list string :=
  ["Country"; "Series"; "2015"; "2016"; "2017"; "2018"; "2019"].

(** Country B reports ".." for 2019 and country C reports nothing. *)
Definition dots_table : DataFrame :=
  mkFrame wide_header
    [ wide_row 0 "A" largest_city (VStr "30.5");
      wide_row 1 "B" largest_city (VStr "..");
      wide_row 2 "C" largest_city VNaN;
      wide_row 3 "A" urban_growth (VStr "1.5") ].


(** Eight countries, seven of them with a 2019 value, no two values
    equal. *)
Definition eight_countries_table : DataFrame :=
  mkFrame wide_header
    [ wide_row 0 "A" largest_city (VStr "30.5");
      wide_row 1 "B" largest_city (VStr "21");
      wide_row 2 "C" largest_city (VStr "44");
      wide_row 3 "D" largest_city VNaN;
      wide_row 4 "E" largest_city (VStr "12.25");
      wide_row 5 "F" largest_city (VStr "28.5");
      wide_row 6 "G" largest_city (VStr "18");
      wide_row 7 "H" largest_city (VStr "25");
      wide_row 8 "A" rural_population (VStr "1000") ].




Definition heap_with (df : DataFrame) : World := mkWorld [] [] [df] [] [].

(** ** The candidates of the pie *)




(** ** The script as a function of the parsed table *)

(** What a builder draws and how it ends. *)
Definition chart : Type := list (nat * DrawCall) * result unit.

(** One chart after another: the second is drawn when the first ended
    well. *)
Definition then_chart (a b : chart) : chart :=
  match snd a with
  | Ok _ => (fst a ++ fst b, snd b)
  | Err _ => a
  end.

Definition melted_chart (series value_name : string)
    (plot : DataFrame -> list (nat * DrawCall)) (df : DataFrame) : chart :=
  match long_table series value_name df with
  | Ok data => (plot data, Ok tt)
  | Err e => ([], Err e)
  end.

Definition barplot_chart (ax : nat) : DataFrame -> chart :=
  melted_chart urban_growth "Urban Population Growth (Annual %)" (barplot_calls ax).

Definition lineplot_chart (ax : nat) : DataFrame -> chart :=
  melted_chart urban_growth "Urban Population Growth (Annual %)" (lineplot_calls ax).

Definition histogram_chart (ax : nat) : DataFrame -> chart :=
  melted_chart rural_population "Rural Population" (histogram_calls ax).

Definition pie_calls (ax : nat) (x pct labels : list value) : list (nat * DrawCall) :=
  [(ax, Pie x pct); (ax, Decorate "axis");
   (ax, Legend "Country" (Some labels)); (ax, Decorate "set_title")].

(** The pie is drawn before the legend asks for the countries. *)
Definition pie_chart (ax : nat) (df : DataFrame) : chart :=
  match top_countries_table df with
  | Err e => ([], Err e)
  | Ok top =>
      match pie_wedges top with
      | Err e => ([], Err e)
      | Ok (x, pct) =>
          match pd.getitem "Country" top with
          | Err e => ([(ax, Pie x pct); (ax, Decorate "axis")], Err e)
          | Ok labels => (pie_calls ax x pct labels, Ok tt)
          end
      end
  end.

Definition figure_calls : list (nat * DrawCall) :=
  [(4, Decorate "suptitle"); (4, Decorate "figtext"); (4, Decorate "show")].

(** Lines 167-216 as a function of the parsed table. *)
Definition infographic (raw : DataFrame) : chart :=
  match wide_table raw with
  | Err e => ([], Err e)
  | Ok wide =>
      match transposed_companion wide with
      | Err e => ([], Err e)
      | Ok _ =>
          then_chart (barplot_chart 0 wide)
            (then_chart (lineplot_chart 1 wide)
               (then_chart (pie_chart 2 wide)
                  (then_chart (histogram_chart 3 wide) (figure_calls, Ok tt))))
      end
  end.

(** A statement that runs as a chart: it appends the calls of the chart to
    the canvas, leaves new frames on the heap and ends as the chart does. *)
Definition traced (w : World) (out : World * result unit) (c : chart) : Prop :=
  exists ext,
    out = (set_canvas (canvas w ++ fst c) (set_heap (heap w ++ ext) w), snd c).

Definition image_file : string := "22077669.png".

(** The image is written when the whole figure was drawn. *)
Definition written (c : chart) : list string :=
  match snd c with
  | Ok _ => [image_file]
  | Err _ => []
  end.

(** A run of the script from [w]: new frames, the calls of the chart, the
    image if the chart ended well. *)
Definition runs_as (w : World) (out : World * result unit) (c : chart) : Prop :=
  exists ext,
    out = (mkWorld (files w) (unreadable w) (heap w ++ ext) (canvas w ++ fst c) (saved w ++ written c),
           snd c).

(** ** The long table in closed form *)

(** The integer a year label is coerced to by [astype(int)]. *)
Definition year_value (y : string) : value :=
  match pd.to_int (VStr y) with
  | Ok v => v
  | Err _ => VNaN
  end.

(** The cells of the long table of a series: for each of the five years,
    in their order, one row per row of the series, in the order of the
    WideTable: country, year, measure as a float. *)
Definition long_cells (series : string) (df : DataFrame) : list (list value) :=
  flat_map (fun y => map (fun r => [pd.cell_of df "Country" r; year_value y;
                                    coerce (pd.cell_of df y r)])
                         (rows_where "Series" series df))
           years.

(** Some measure of the series, in one of the five years, is text that
    spells no number. *)
Definition text_measure (series : string) (df : DataFrame) : bool :=
  existsb (fun y => existsb (fun r => not_a_number (pd.cell_of df y r))
                            (rows_where "Series" series df))
          years.

(** How the data preparation of a melting builder ends. *)
Definition melted_outcome (series : string) (df : DataFrame) : result unit :=
  if mem "Series" (columns df) then
    match missing ("Country" :: years) (columns df) with
    | [] => if text_measure series df then Err (ValueError could_not_convert) else Ok tt
    | m => Err (KeyError m)
    end
  else Err (KeyError ["Series"]).

(** The long table of a series without rows. *)
Definition empty_long_table (value_name : string) : DataFrame :=
  mkFrame ["Country"; "Year"; value_name] [].

(** The long table of a series, when the data preparation ends well. *)
Definition long_form (series value_name : string) (df : DataFrame) : DataFrame :=
  mkFrame ["Country"; "Year"; value_name] (range_index (long_cells series df)).

(** What a run added to the canvas is drawn on the Axes [ax]. *)
Definition draws_on (ax : nat) (w w' : World) : Prop :=
  exists calls, canvas w' = canvas w ++ calls /\ Forall (fun c => fst c = ax) calls.

(** A run that kept the files, the images written and every frame of the
    heap, and drew on [ax] only. *)
Definition confined (ax : nat) (w w' : World) : Prop :=
  files w' = files w /\ saved w' = saved w
  /\ (exists ext, heap w' = heap w ++ ext)
  /\ draws_on ax w w'.

(** ** Outcomes and headers *)

(** A label that line 31 can take: one that fails the test of line 30, or
    one that [pd.to_numeric] reads. *)
Definition parses (s : string) : bool := implb (isnumeric s) (readable s).

(** Every header of the parsed table that is kept, after the first, gives a
    label that line 31 can take. *)
Definition headers_parse (raw : DataFrame) : bool :=
  forallb (fun h => parses (split_first h)) (tl (retained dropped_columns (columns raw))).

(** The exception a statement ended with, if it raised. *)
Definition raised {A : Type} (r : result A) : option error :=
  match r with
  | Ok _ => None
  | Err e => Some e
  end.

Fixpoint has_space (s : string) : bool :=
  match s with
  | EmptyString => false
  | String c t => Ascii.eqb c " " || has_space t
  end.

(** The labels of a WideTable as line 26 leaves them, cut at the first
    space, when no two of them are equal.  (Two headers of the file may
    begin alike and give one label twice; and [melt] refuses a frame that
    has a column named like the measure, which a label without a space is
    not.) *)
Definition wide_labels (df : DataFrame) : bool :=
  distinct (columns df) && forallb (fun c => negb (has_space c)) (columns df).

(** The Axes of the calls of a finished figure, in the order of the calls:
    six on the bar chart, six on the line chart, four on the pie, four on
    the histogram, three on the figure. *)
Definition panels : list nat :=
  repeat 0 6 ++ repeat 1 6 ++ repeat 2 4 ++ repeat 3 4 ++ repeat 4 3.

(** ** The reshaped tables, cell by cell *)

(** The columns of the parsed table that are not on the list to drop, each
    with its position, in the order of the table. *)
Definition kept_columns (raw : DataFrame) : list (nat * string) :=
  List.filter (fun jc => negb (mem (snd jc) dropped_columns))
              (combine (seq 0 (ncols raw)) (columns raw)).

(** The columns of the WideTable after the first whose label passes
    [str.isnumeric] (digits, when the routine returns), each with its
    position. *)
Definition year_columns (wide : DataFrame) : list (nat * string) :=
  List.filter (fun jc => isnumeric (snd jc))
              (tl (combine (seq 0 (ncols wide)) (columns wide))).

(** ** More worked tables *)

(** The superscript two, a character that passes [str.isnumeric] and that
    no parser of numbers reads. *)
Definition superscript_two : string := String (ascii_of_nat 178) EmptyString.

(** An export with a column headed by a superscript. *)
Definition superscript_header_csv : DataFrame :=
  mkFrame (["Country Name"] ++ dropped_columns
           ++ ["2015 [YR2015]"; (superscript_two ++ " [note]")%string])
    [ footer_row 17 0; footer_row 17 1; footer_row 17 2; footer_row 17 3; footer_row 17 4;
      footer_row 17 5 ].

(** An export with a column headed by a negative number. *)
Definition signed_header_csv : DataFrame :=
  mkFrame (["Country Name"] ++ dropped_columns ++ ["2015 [YR2015]"; "-5 [YR-5]"])
    [ footer_row 17 0; footer_row 17 1; footer_row 17 2; footer_row 17 3; footer_row 17 4;
      footer_row 17 5 ].

Definition example_footer : list (Z * list value) :=
  [ footer_row 21 5; footer_row 21 6; footer_row 21 7; footer_row 21 8; footer_row 21 9 ].

(** The rows of an export whose measures are numbers, and two footers
    for it: blank rows, or the notes of the World Bank in the first column.
    With either footer [read_csv] types the columns alike (the first is
    text, the year columns are floats, missing in the footer), so that the
    two tables differ in their last five rows only. *)
Definition float_body : list (Z * list value) :=
  [ example_row 0 "A" urban_growth
      [VFloat (3 # 2); VFloat 2; VFloat (5 # 2); VFloat 3; VFloat (7 # 2)];
    example_row 1 "A" largest_city
      [VFloat 31; VFloat 31; VFloat (61 # 2); VFloat 30; VFloat (61 # 2)];
    example_row 2 "B" largest_city [VFloat 20; VFloat 20; VFloat 20; VFloat 20; VNaN];
    example_row 3 "A" rural_population
      [VFloat 100; VFloat 101; VFloat 102; VFloat 103; VFloat 104] ].

Definition note_row (i : Z) (note : string) : Z * list value :=
  (i, VStr note :: repeat VNaN 20).

Definition blank_footer : list (Z * list value) :=
  [ footer_row 21 4; footer_row 21 5; footer_row 21 6; footer_row 21 7; footer_row 21 8 ].

Definition notes_footer : list (Z * list value) :=
  [ footer_row 21 4; footer_row 21 5; footer_row 21 6;
    note_row 7 "Data from database: World Development Indicators";
    note_row 8 "Last Updated: 12/18/2023" ].

(** A WideTable with two countries in each of the three series. *)
Definition three_series_table : DataFrame :=
  mkFrame wide_header
    [ wide_row 0 "A" urban_growth (VStr "1.5");
      wide_row 1 "B" urban_growth (VStr "2.5");
      wide_row 2 "A" largest_city (VStr "30.5");
      wide_row 3 "B" largest_city (VStr "21");
      wide_row 4 "A" rural_population (VStr "1000");
      wide_row 5 "B" rural_population (VStr "2000") ].

(** An export whose urban-growth series reports ".." for 2016: the column
    of that year is a column of text. *)
Definition dots_csv : DataFrame :=
  mkFrame example_header
    (example_row 0 "A" urban_growth
       [VFloat (3 # 2); VStr ".."; VFloat (5 # 2); VFloat 3; VFloat (7 # 2)]
     :: example_footer).

(** A WideTable without rows. *)
Definition empty_wide_table : DataFrame := mkFrame wide_header [].

(** Four countries, three of them with a 2019 value. *)
Definition four_countries_table : DataFrame :=
  mkFrame wide_header
    [ wide_row 0 "A" largest_city (VStr "30.5");
      wide_row 1 "B" largest_city (VStr "21");
      wide_row 2 "C" largest_city VNaN;
      wide_row 3 "D" largest_city (VStr "44") ].

(** A table that has no "Country" column. *)
Definition no_country_table : DataFrame :=
  mkFrame ["Series"; "2019"]
    [ (0%Z, [VStr largest_city; VStr "30.5"]);
      (1%Z, [VStr largest_city; VStr "21"]) ].

(** * Properties *)

(** ** Lists, masks and labels *)

Lemma mem_In (s : string) (l : list string) : mem s l = true <-> In s l.
Proof.
  unfold mem. rewrite existsb_exists. split.
  - intros [x [Hx He]]. apply String.eqb_eq in He. now subst.
  - intros H. exists s. split; [assumption | apply String.eqb_refl].
Qed.

Lemma mem_false (s : string) (l : list string) : mem s l = false <-> ~ In s l.
Proof.
  rewrite <- mem_In. destruct (mem s l); split; congruence.
Qed.

Lemma select_map {A : Type} (p : A -> bool) (l : list A) :
  select (map p l) l = List.filter p l.
Proof.
  induction l as [|x l IH]; simpl; [reflexivity|].
  destruct (p x); now rewrite IH.
Qed.

Lemma select_map_fst {A B : Type} (p : A -> bool) (l : list (A * B)) :
  select (map p (map fst l)) l = List.filter (fun r => p (fst r)) l.
Proof.
  rewrite map_map. apply (select_map (fun r => p (fst r))).
Qed.

Lemma pad_length (n : nat) (cells : list value) : length (pad n cells) = n.
Proof. unfold pad. now rewrite length_map, length_seq. Qed.

Lemma pad_nth (n j : nat) (cells : list value) :
  j < n -> nth j (pad n cells) VNaN = nth j cells VNaN.
Proof.
  intros Hj. unfold pad.
  rewrite (nth_indep _ VNaN (nth 0 cells VNaN)) by now rewrite length_map, length_seq.
  rewrite (map_nth (fun j => nth j cells VNaN) (seq 0 n) 0 j).
  now rewrite seq_nth.
Qed.

Lemma combine_map_self {A B : Type} (h : A -> B) (l : list A) :
  combine l (map h l) = map (fun x => (x, h x)) l.
Proof. induction l as [|x l IH]; simpl; [reflexivity | now rewrite IH]. Qed.

Lemma missing_In (labels cols : list string) (c : string) :
  In c (missing labels cols) <-> In c labels /\ ~ In c cols.
Proof.
  unfold missing. rewrite filter_In, negb_true_iff, mem_false. reflexivity.
Qed.

Lemma missing_nil (labels cols : list string) :
  missing labels cols = [] <-> (forall c, In c labels -> In c cols).
Proof.
  split.
  - intros Hnil c Hc.
    destruct (mem c cols) eqn:Hm; [now apply mem_In|].
    assert (Hin : In c (missing labels cols)).
    { apply missing_In. split; [assumption | now apply mem_false]. }
    rewrite Hnil in Hin. destruct Hin.
  - intros Hall. destruct (missing labels cols) as [|c m] eqn:Hm; [reflexivity|].
    assert (Hin : In c (missing labels cols)) by (rewrite Hm; now left).
    apply missing_In in Hin. destruct Hin as [Hc Hn]. now apply Hall in Hc.
Qed.

Lemma retained_length (labels cols : list string) :
  List.NoDup cols -> List.NoDup labels -> (forall c, In c labels -> In c cols) ->
  length (retained labels cols) = length cols - length labels.
Proof.
  intros Hcols Hlabels Hall.
  pose proof (List.filter_length (fun c => mem c labels) cols) as Hsplit.
  assert (Hperm : Permutation (List.filter (fun c => mem c labels) cols) labels).
  { apply Permutation.NoDup_Permutation.
    - apply List.NoDup_filter; exact Hcols.
    - assumption.
    - intros c. rewrite filter_In, mem_In. split.
      + intros [_ Hc]. exact Hc.
      + intros Hc. split; [now apply Hall | exact Hc]. }
  apply Permutation_length in Hperm. unfold retained. cbv beta in Hsplit. lia.
Qed.

Lemma drop_ok {I : Type} (labels : list string) (f : Frame I string) :
  (forall c, In c labels -> In c (columns f)) ->
  exists d, pd.drop labels f = Ok d
            /\ columns d = retained labels (columns f)
            /\ nrows d = nrows f.
Proof.
  intros Hall. apply missing_nil in Hall. unfold missing in Hall.
  unfold pd.drop. rewrite Hall. eexists. split; [reflexivity|]. split.
  - simpl. apply (select_map (fun c => negb (mem c labels))).
  - unfold nrows. simpl. now rewrite length_map.
Qed.

Lemma drop_missing {I : Type} (labels : list string) (f : Frame I string) (c : string) :
  In c labels -> ~ In c (columns f) ->
  exists m, pd.drop labels f = Err (KeyError m) /\ In c m.
Proof.
  intros Hc Hn.
  assert (Hin : In c (missing labels (columns f))) by (apply missing_In; tauto).
  unfold missing in Hin. unfold pd.drop.
  destruct (List.filter _ labels) as [|m0 m] eqn:Hm; [destruct Hin|].
  exists (m0 :: m). now split.
Qed.

(** ** Running statements *)

Lemma bind_run {A B : Type} (m : M A) (k : A -> M B) (w : World) :
  (m ≫= k) w = match m w with
               | (w', Ok a) => k a w'
               | (w', Err e) => (w', Err e)
               end.
Proof. reflexivity. Qed.

Lemma heap_set_heap (h : list DataFrame) (w : World) : heap (set_heap h w) = h.
Proof. reflexivity. Qed.

Lemma set_heap_set_heap (h h' : list DataFrame) (w : World) :
  set_heap h (set_heap h' w) = set_heap h w.
Proof. reflexivity. Qed.

Lemma lookup_new (h : list DataFrame) (f : DataFrame) : (h ++ [f]) !! length h = Some f.
Proof. now apply list_lookup_middle. Qed.

Lemma get_run (l : loc) (w : World) (f : DataFrame) :
  heap w !! l = Some f -> get l w = (w, Ok f).
Proof. intros H. unfold get. now rewrite H. Qed.

Lemma call_run (op : DataFrame -> result DataFrame) (l : loc) (w : World) (f : DataFrame) :
  heap w !! l = Some f ->
  call op l w = match op f with
                | Ok r => (set_heap (heap w ++ [r]) w, Ok (length (heap w)))
                | Err e => (w, Err e)
                end.
Proof.
  intros H. unfold call. rewrite bind_run, (get_run _ _ _ H), bind_run.
  unfold lift. now destruct (op f).
Qed.

Lemma call_inplace_run (op : DataFrame -> result DataFrame) (l : loc) (w : World)
    (f : DataFrame) :
  heap w !! l = Some f ->
  call_inplace op l w = match op f with
                        | Ok r => (set_heap (<[l := r]> (heap w)) w, Ok tt)
                        | Err e => (w, Err e)
                        end.
Proof.
  intros H. unfold call_inplace. rewrite bind_run, (get_run _ _ _ H), bind_run.
  unfold lift. now destruct (op f).
Qed.

Lemma insert_new (h : list DataFrame) (f g : DataFrame) :
  <[length h := g]> (h ++ [f]) = h ++ [g].
Proof.
  rewrite insert_app_r_alt by lia. now rewrite Nat.sub_diag.
Qed.

Lemma lookup_second (h : list DataFrame) (f g : DataFrame) :
  (h ++ [f; g]) !! S (length h) = Some g.
Proof.
  change (h ++ [f; g]) with (h ++ [f] ++ [g]). rewrite app_assoc.
  replace (S (length h)) with (length (h ++ [f])) by (rewrite length_app; simpl; lia).
  apply lookup_new.
Qed.

Lemma insert_second (h : list DataFrame) (f g g' : DataFrame) :
  <[S (length h) := g']> (h ++ [f; g]) = h ++ [f; g'].
Proof.
  rewrite insert_app_r_alt by lia.
  replace (S (length h) - length h) with 1 by lia. reflexivity.
Qed.

Lemma process_run (path : string) (w : World) (raw : DataFrame) :
  lookup_file path (files w) = Some raw ->
  process_world_bank_data path w =
    match wide_table raw with
    | Err e => (set_heap (heap w ++ [raw; pd.iloc_stop_neg 5 raw]) w, Err e)
    | Ok wide =>
        (set_heap (heap w ++ [raw; wide]) w,
         match transposed_companion wide with
         | Ok t => Ok (S (length (heap w)), t)
         | Err e => Err e
         end)
    end.
Proof.
  intros Hfile. unfold process_world_bank_data, wide_table.
  rewrite bind_run. unfold read_csv. rewrite Hfile. unfold new at 1.
  rewrite bind_run.
  rewrite (call_run _ _ _ raw) by (rewrite heap_set_heap; apply lookup_new).
  rewrite heap_set_heap, set_heap_set_heap, length_app. simpl length.
  replace (length (heap w) + 1) with (S (length (heap w))) by lia.
  rewrite <- app_assoc. simpl app.
  rewrite bind_run.
  rewrite (call_inplace_run _ _ _ (pd.iloc_stop_neg 5 raw))
    by (rewrite heap_set_heap; apply lookup_second).
  destruct (pd.drop dropped_columns (pd.iloc_stop_neg 5 raw)) as [d|e]; [|reflexivity].
  rewrite heap_set_heap, set_heap_set_heap, insert_second.
  rewrite bind_run.
  rewrite (call_inplace_run _ _ _ d) by (rewrite heap_set_heap; apply lookup_second).
  unfold pd.set_columns, ncols. rewrite length_map, Nat.eqb_refl.
  rewrite heap_set_heap, set_heap_set_heap, insert_second.
  rewrite bind_run.
  rewrite (get_run _ _ (mkFrame (map split_first (columns d)) (rows d)))
    by (rewrite heap_set_heap; apply lookup_second).
  rewrite bind_run. unfold lift. simpl.
  now destruct (transposed_companion _).
Qed.

(** ** The transposed companion *)

Lemma mapM_to_numeric (l : list string) :
  forallb readable l = true -> mapM to_numeric l = Ok (map (digits_value 0) l).
Proof.
  induction l as [|s l IH]; cbn [mapM forallb map]; [reflexivity|].
  intros H. apply andb_true_iff in H. destruct H as [Hs Hl].
  unfold readable in Hs. apply andb_true_iff in Hs. destruct Hs as [Hd Hr].
  unfold to_numeric at 1. rewrite Hd, Hr. now rewrite (IH Hl).
Qed.

Lemma mapM_to_numeric_fails (l : list string) :
  forallb readable l = false -> exists msg, mapM to_numeric l = Err (ValueError msg).
Proof.
  induction l as [|s l IH]; cbn [mapM forallb]; [discriminate|].
  intros H. unfold to_numeric at 1. unfold readable at 1 in H.
  destruct (ascii_digits s); [|now eexists].
  destruct (digits_value 0 s <? 2 ^ 64)%Z; [|now eexists].
  cbn [andb] in H. destruct (IH H) as [msg ->]. now eexists.
Qed.

Lemma forallb_filter_parses (l : list string) :
  forallb readable (List.filter isnumeric l) = forallb parses l.
Proof.
  induction l as [|s l IH]; cbn [List.filter forallb]; [reflexivity|].
  unfold parses at 1. destruct (isnumeric s); cbn [forallb implb]; now rewrite IH.
Qed.

Lemma readable_ascii_digits (l : list string) :
  forallb readable l = true -> forallb ascii_digits l = true.
Proof.
  induction l as [|s l IH]; cbn [forallb]; [reflexivity|].
  intros H. apply andb_true_iff in H. destruct H as [Hs Hl].
  unfold readable in Hs. apply andb_true_iff in Hs. destruct Hs as [-> _]. now apply IH.
Qed.

Lemma map_fst_filter {A B : Type} (p : A -> bool) (l : list (A * B)) :
  map fst (List.filter (fun r => p (fst r)) l) = List.filter p (map fst l).
Proof.
  induction l as [|r l IH]; simpl; [reflexivity|].
  destruct (p (fst r)); simpl; now rewrite IH.
Qed.

Lemma map_fst_combine {A B : Type} (l : list A) (k : list B) :
  length l = length k -> map fst (combine l k) = l.
Proof.
  revert k. induction l as [|x l IH]; intros [|y k] H; simpl in *; try discriminate;
    [reflexivity|]. f_equal. apply IH. lia.
Qed.

Lemma map_snd_combine {A B : Type} (l : list A) (k : list B) :
  length l = length k -> map snd (combine l k) = k.
Proof.
  revert k. induction l as [|x l IH]; intros [|y k] H; simpl in *; try discriminate;
    [reflexivity|]. f_equal. apply IH. lia.
Qed.

Lemma nth_overwrite (is_key : value -> bool) (v : value) (cols : list value)
    (cells : list value) (j : nat) (c : value) :
  nth_error cols j = Some c -> is_key c = true -> length cells = length cols ->
  nth j (map (fun co : value * value => if is_key (fst co) then v else snd co)
             (combine cols cells)) VNaN = v.
Proof.
  revert cells j. induction cols as [|c0 cols IH]; intros cells j Hj Hk Hlen.
  - destruct j; discriminate.
  - destruct cells as [|x cells]; [discriminate|].
    destruct j as [|j]; simpl in *.
    + injection Hj as ->. now rewrite Hk.
    + apply IH; [assumption | assumption | lia].
Qed.

(** Writing the index into the column [key]: afterwards every column that
    carries the label holds, in each row, the index label of the row. *)
Lemma setitem_index {I : Type} (is_key : value -> bool) (key : value) (g : I -> value)
    (f : Frame I value) :
  is_key key = true ->
  exists t,
    pd.setitem is_key key (map g (index f)) f = Ok t
    /\ index t = index f
    /\ existsb is_key (columns t) = true
    /\ (forall r j c, In r (rows t) -> nth_error (columns t) j = Some c ->
                      is_key c = true -> cell j r = g (fst r)).
Proof.
  intros Hkey. unfold pd.setitem, index, nrows.
  rewrite !length_map, Nat.eqb_refl.
  rewrite map_map, (combine_map_self (fun r => g (fst r))).
  destruct (existsb is_key (columns f)) eqn:Hex; eexists; (split; [reflexivity|]);
    simpl; rewrite !map_map; simpl.
  - split; [reflexivity|]. split; [assumption|].
    intros r j c Hr Hj Hc. apply in_map_iff in Hr. destruct Hr as [r0 [<- _]].
    unfold cell. simpl. apply (nth_overwrite is_key _ _ _ _ c Hj Hc).
    apply pad_length.
  - split; [reflexivity|]. split.
    { rewrite existsb_app. simpl. rewrite Hkey. now rewrite orb_true_r. }
    intros r j c Hr Hj Hc. apply in_map_iff in Hr. destruct Hr as [r0 [<- _]].
    unfold cell. simpl.
    assert (Hjn : j = ncols f).
    { destruct (Nat.lt_ge_cases j (ncols f)) as [Hlt|Hge].
      - rewrite nth_error_app1 in Hj by exact Hlt.
        assert (Hcin : In c (columns f)) by (eapply nth_error_In; eassumption).
        assert (Hex' : existsb is_key (columns f) = true)
          by (apply existsb_exists; exists c; now split).
        congruence.
      - assert (Hlt : j < length (columns f ++ [key]))
          by (apply nth_error_Some; congruence).
        rewrite length_app in Hlt. simpl in Hlt.
        unfold ncols in *. lia. }
    subst j. rewrite <- (pad_length (ncols f) (snd r0)) at 1.
    now rewrite nth_middle.
Qed.

Lemma transposed_companion_empty (wide : DataFrame) :
  columns wide = [] -> transposed_companion wide = Err IndexError.
Proof.
  intros H. unfold transposed_companion, pd.iloc_row0, pd.T, ncols. now rewrite H.
Qed.

Lemma T_rows (wide : DataFrame) (c0 : string) (cs : list string) :
  columns wide = c0 :: cs ->
  rows (pd.T wide) =
    (c0, map (cell 0) (rows wide))
    :: map (fun jc : nat * string => (snd jc, map (cell (fst jc)) (rows wide)))
           (combine (seq 1 (length cs)) cs).
Proof.
  intros H. unfold pd.T, ncols. now rewrite H.
Qed.

Lemma transposed_companion_fails (wide : DataFrame) (c0 : string) (cs : list string) :
  columns wide = c0 :: cs ->
  forallb parses cs = false ->
  exists msg, transposed_companion wide = Err (ValueError msg).
Proof.
  intros Hcols Hparse. unfold transposed_companion.
  pose proof (T_rows wide c0 cs Hcols) as Hrows.
  set (body := map _ (combine (seq 1 (length cs)) cs)) in Hrows.
  assert (Hbody : map fst body = cs).
  { unfold body. rewrite map_map. simpl.
    apply map_snd_combine. now rewrite length_seq. }
  unfold pd.iloc_row0. rewrite Hrows. cbn [mbind result_bind].
  unfold pd.set_columns. rewrite pad_length, Nat.eqb_refl. cbn [mbind result_bind].
  unfold pd.iloc_start. cbn [rows columns]. rewrite Hrows. cbn [skipn].
  unfold pd.getitem_bool, index at 1 2 3 4. cbn [rows columns].
  change (skipn 0 body) with body.
  rewrite select_map_fst, map_fst_filter, Hbody.
  rewrite <- forallb_filter_parses in Hparse.
  destruct (mapM_to_numeric_fails _ Hparse) as [msg ->]. now exists msg.
Qed.

Lemma transposed_companion_ok (wide : DataFrame) (c0 : string) (cs : list string) :
  columns wide = c0 :: cs ->
  forallb parses cs = true ->
  exists t,
    transposed_companion wide = Ok t
    /\ index t = map (digits_value 0) (List.filter isnumeric cs)
    /\ existsb (pd.is_label "Years") (columns t) = true
    /\ (forall r j c, In r (rows t) -> nth_error (columns t) j = Some c ->
                      pd.is_label "Years" c = true -> cell j r = VInt (fst r)).
Proof.
  intros Hcols Hparse. unfold transposed_companion.
  pose proof (T_rows wide c0 cs Hcols) as Hrows.
  set (body := map _ (combine (seq 1 (length cs)) cs)) in Hrows.
  assert (Hbody : map fst body = cs).
  { unfold body. rewrite map_map. simpl.
    apply map_snd_combine. now rewrite length_seq. }
  unfold pd.iloc_row0. rewrite Hrows. cbn [mbind result_bind].
  unfold pd.set_columns. rewrite pad_length, Nat.eqb_refl. cbn [mbind result_bind].
  unfold pd.iloc_start. cbn [rows columns]. rewrite Hrows. cbn [skipn].
  unfold pd.getitem_bool, index at 1 2 3 4. cbn [rows columns].
  change (skipn 0 body) with body.
  rewrite select_map_fst, map_fst_filter, Hbody.
  rewrite mapM_to_numeric by now rewrite forallb_filter_parses.
  cbn [mbind result_bind].
  unfold pd.set_index, nrows. cbn [rows columns].
  assert (Hlen : length (map (digits_value 0) (List.filter isnumeric cs))
                 = length (List.filter (fun r : string * list value => isnumeric (fst r)) body)).
  { rewrite length_map, <- Hbody, <- map_fst_filter. now rewrite length_map. }
  rewrite Hlen, Nat.eqb_refl. cbn [mbind result_bind].
  match goal with
  | |- context [pd.setitem _ _ _ ?f] =>
      destruct (setitem_index (pd.is_label "Years") (VStr "Years") VInt f eq_refl)
        as [t [Ht [Hidx [Hex Hyears]]]]
  end.
  exists t. split; [exact Ht|]. split; [|split; assumption].
  rewrite Hidx. unfold index. cbn [rows].
  apply map_fst_combine. rewrite Hlen. now rewrite length_map.
Qed.

(** ** The reshaped table *)

Lemma has_columns_In {I : Type} (labels : list string) (f : Frame I string) :
  has_columns labels f = true <-> (forall c, In c labels -> In c (columns f)).
Proof.
  unfold has_columns. rewrite forallb_forall.
  split; intros H c Hc; apply mem_In; auto.
Qed.

Lemma distinct_NoDup (l : list string) : distinct l = true -> List.NoDup l.
Proof.
  induction l as [|x l IH]; simpl; intros H; [constructor|].
  apply andb_true_iff in H. destruct H as [Hx Hl].
  constructor; [|now apply IH].
  apply negb_true_iff in Hx. now apply mem_false.
Qed.

Lemma keeps_a_column_retained (f : DataFrame) :
  keeps_a_column f = true ->
  exists c0 cs, retained dropped_columns (columns f) = c0 :: cs.
Proof.
  unfold keeps_a_column. rewrite existsb_exists. intros [c [Hc Hk]].
  assert (Hin : In c (retained dropped_columns (columns f)))
    by (apply filter_In; now split).
  destruct (retained dropped_columns (columns f)) as [|c0 cs]; [destruct Hin|].
  now exists c0, cs.
Qed.

Lemma iloc_stop_neg_nrows {I C : Type} (k : nat) (f : Frame I C) :
  nrows (pd.iloc_stop_neg k f) = nrows f - k.
Proof.
  unfold nrows, pd.iloc_stop_neg. simpl. rewrite length_firstn. lia.
Qed.

Lemma wide_table_inv (raw wide : DataFrame) :
  wide_table raw = Ok wide ->
  columns wide = map split_first (retained dropped_columns (columns raw))
  /\ nrows wide = nrows raw - 5.
Proof.
  unfold wide_table. intros H.
  destruct (pd.drop dropped_columns (pd.iloc_stop_neg 5 raw)) as [d|e] eqn:Hd;
    [|discriminate].
  cbn in H. injection H as <-.
  unfold pd.drop in Hd.
  destruct (List.filter _ dropped_columns); [|discriminate].
  injection Hd as <-. split.
  - cbn [columns]. f_equal. apply (select_map (fun c => negb (mem c dropped_columns))).
  - unfold nrows. cbn [rows]. rewrite length_map, length_firstn. lia.
Qed.

Lemma wide_table_ok (raw : DataFrame) :
  has_columns dropped_columns raw = true ->
  exists wide, wide_table raw = Ok wide.
Proof.
  intros H. pose proof (proj1 (has_columns_In _ _) H) as Hin.
  destruct (drop_ok dropped_columns (pd.iloc_stop_neg 5 raw) Hin) as [d [Hd _]].
  unfold wide_table. rewrite Hd. now eexists.
Qed.

Lemma wide_table_missing (raw : DataFrame) (c : string) :
  In c dropped_columns -> ~ In c (columns raw) ->
  exists m, wide_table raw = Err (KeyError m) /\ In c m.
Proof.
  intros Hc Hn.
  destruct (drop_missing dropped_columns (pd.iloc_stop_neg 5 raw) c Hc Hn) as [m [Hm Hin]].
  exists m. unfold wide_table. rewrite Hm. now split.
Qed.

(** What a successful run of [process_world_bank_data] leaves behind. *)
Lemma process_inv (path : string) (w w' : World) (raw wide : DataFrame) (l : loc)
    (t : TransposedTable) :
  lookup_file path (files w) = Some raw ->
  process_world_bank_data path w = (w', Ok (l, t)) ->
  heap w' !! l = Some wide ->
  wide_table raw = Ok wide /\ transposed_companion wide = Ok t.
Proof.
  intros Hfile Hrun Hl. rewrite (process_run _ _ _ Hfile) in Hrun.
  destruct (wide_table raw) as [wide'|e]; [|discriminate].
  destruct (transposed_companion wide') as [t'|e] eqn:Ht; [|discriminate].
  injection Hrun as <- <- <-.
  rewrite heap_set_heap, lookup_second in Hl. injection Hl as <-. now split.
Qed.

Lemma forallb_map_comp {A B : Type} (p : B -> bool) (g : A -> B) (l : list A) :
  forallb p (map g l) = forallb (fun x => p (g x)) l.
Proof. induction l as [|x l IH]; cbn; [reflexivity | now rewrite IH]. Qed.

(** The labels after the first of a WideTable that has one. *)
Lemma headers_parse_labels (raw wide : DataFrame) (c0 : string) (cs : list string) :
  wide_table raw = Ok wide ->
  columns wide = c0 :: cs ->
  forallb parses cs = headers_parse raw.
Proof.
  intros Hwide Hc. destruct (wide_table_inv raw wide Hwide) as [Hc' _].
  rewrite Hc' in Hc. unfold headers_parse.
  destruct (retained dropped_columns (columns raw)) as [|h hs]; [discriminate|].
  cbn [map tl] in *. injection Hc as _ <-. apply forallb_map_comp.
Qed.

Lemma process_ok (path : string) (w : World) (raw : DataFrame) :
  lookup_file path (files w) = Some raw ->
  has_columns dropped_columns raw = true ->
  keeps_a_column raw = true ->
  headers_parse raw = true ->
  exists w' l t wide,
    process_world_bank_data path w = (w', Ok (l, t))
    /\ heap w' !! l = Some wide
    /\ wide_table raw = Ok wide.
Proof.
  intros Hfile Hcols Hkeep Hparse.
  destruct (wide_table_ok raw Hcols) as [wide Hwide].
  destruct (wide_table_inv raw wide Hwide) as [Hc _].
  destruct (keeps_a_column_retained raw Hkeep) as [c0 [cs Hret]].
  rewrite Hret in Hc. cbn [map] in Hc.
  rewrite <- (headers_parse_labels raw wide _ _ Hwide Hc) in Hparse.
  destruct (transposed_companion_ok wide _ _ Hc Hparse) as [t [Ht _]].
  exists (set_heap (heap w ++ [raw; wide]) w), (S (length (heap w))), t, wide.
  rewrite (process_run _ _ _ Hfile), Hwide, Ht.
  split; [reflexivity|]. split; [|reflexivity].
  rewrite heap_set_heap. apply lookup_second.
Qed.

Lemma dropped_columns_distinct : List.NoDup dropped_columns.
Proof. now apply distinct_NoDup. Qed.

Lemma dropped_columns_length : length dropped_columns = 14.
Proof. reflexivity. Qed.

(** ** Headers *)

Lemma numeric_not_space (c : ascii) : is_numeric_char c = true -> Ascii.eqb c " " = false.
Proof.
  destruct c as [[] [] [] [] [] [] [] []]; intros H; try reflexivity; discriminate H.
Qed.

Lemma numeric_not_whitespace (c : ascii) : is_numeric_char c = true -> is_whitespace c = false.
Proof.
  destruct c as [[] [] [] [] [] [] [] []]; intros H; try reflexivity; discriminate H.
Qed.

Lemma split_first_numeric (y rest : string) :
  all_numeric y = true -> split_first (y ++ String " " rest) = y.
Proof.
  induction y as [|c y IH]; cbn [all_numeric append split_first]; intros H; [reflexivity|].
  apply andb_true_iff in H. destruct H as [Hc Hy].
  rewrite (numeric_not_space c Hc). now rewrite IH.
Qed.

Lemma take_token_numeric (y rest : string) :
  all_numeric y = true -> take_token (y ++ String " " rest) = y.
Proof.
  induction y as [|c y IH]; cbn [all_numeric append take_token]; intros H; [reflexivity|].
  apply andb_true_iff in H. destruct H as [Hc Hy].
  rewrite (numeric_not_whitespace c Hc). now rewrite IH.
Qed.

Lemma isnumeric_all_numeric (y : string) : isnumeric y = true -> all_numeric y = true.
Proof. destruct y; [discriminate | trivial]. Qed.

(** On a year header both readings of "first token" give the year. *)
Lemma year_header_token (y : string) :
  isnumeric y = true ->
  split_first (year_header y) = y /\ first_token (year_header y) = Some y.
Proof.
  intros H. pose proof (isnumeric_all_numeric y H) as Hd.
  unfold year_header. change (" [YR" ++ y ++ "]")%string with (String " " ("[YR" ++ y ++ "]")%string).
  split; [now apply split_first_numeric|].
  unfold first_token.
  destruct y as [|c y]; [discriminate|].
  cbn [all_numeric] in Hd. apply andb_true_iff in Hd. destruct Hd as [Hc Hy].
  cbn [append skip_whitespace]. rewrite (numeric_not_whitespace c Hc).
  cbn [take_token]. rewrite (numeric_not_whitespace c Hc).
  now rewrite (take_token_numeric y _ Hy).
Qed.

(** The two readings part on other white space: a tab is no space. *)
Example tab_is_no_space :
  split_first "2015	[YR2015]" = "2015	[YR2015]"
  /\ first_token "2015	[YR2015]" = Some "2015".
Proof. split; reflexivity. Qed.

Lemma is_label_eq (s : string) (c : value) : pd.is_label s c = true <-> c = VStr s.
Proof.
  destruct c; simpl; split; intros H; try discriminate.
  - apply String.eqb_eq in H. now subst.
  - injection H as ->. apply String.eqb_refl.
Qed.

(** ** The reshaping routine *)

(** C1 (as amended): when the parsed table has distinct column names, at
    least five rows, the fourteen columns that are dropped and at least one
    column besides them, and every kept header after the first whose first
    word passes [str.isnumeric] is made of ASCII digits (so that
    [pd.to_numeric] reads it), [process_world_bank_data] returns a WideTable
    with five rows and fourteen columns fewer than the parsed table. *)
Theorem process_world_bank_data_shape (path : string) (w : World) (raw : DataFrame) :
  lookup_file path (files w) = Some raw ->
  distinct (columns raw) = true ->
  has_columns dropped_columns raw = true ->
  keeps_a_column raw = true ->
  headers_parse raw = true ->
  5 <= nrows raw ->
  exists w' l t wide,
    process_world_bank_data path w = (w', Ok (l, t))
    /\ heap w' !! l = Some wide
    /\ nrows wide + 5 = nrows raw
    /\ ncols wide + 14 = ncols raw.
Proof.
  intros Hfile Hdistinct Hcols Hkeep Hparse Hrows.
  destruct (process_ok path w raw Hfile Hcols Hkeep Hparse)
    as [w' [l [t [wide [Hrun [Hl Hwide]]]]]].
  exists w', l, t, wide. split; [assumption|]. split; [assumption|].
  destruct (wide_table_inv raw wide Hwide) as [Hc Hn]. split; [lia|].
  unfold ncols. rewrite Hc, length_map.
  pose proof (proj1 (has_columns_In _ _) Hcols) as Hin.
  rewrite (retained_length dropped_columns (columns raw)
             (distinct_NoDup _ Hdistinct) dropped_columns_distinct Hin).
  assert (Hle : length dropped_columns <= length (columns raw)).
  { apply NoDup_incl_length; [apply dropped_columns_distinct | exact Hin]. }
  rewrite dropped_columns_length in *. lia.
Qed.

Lemma process_world_bank_data_shape_witness :
  exists w' l t wide,
    process_world_bank_data population_data_path (world_with example_csv) = (w', Ok (l, t))
    /\ heap w' !! l = Some wide
    /\ nrows wide + 5 = nrows example_csv
    /\ ncols wide + 14 = ncols example_csv.
Proof.
  apply (process_world_bank_data_shape population_data_path (world_with example_csv)
           example_csv);
    [reflexivity | reflexivity | reflexivity | reflexivity | reflexivity | ].
  vm_compute. lia.
Defined.

(** C1, as stated, fails on a table that has the fourteen columns and no
    other: nothing is left to head the transposed companion, [iloc[0]]
    raises and no WideTable is returned. *)
Lemma process_fourteen_columns_fails :
  distinct (columns fourteen_columns_csv) = true
  /\ has_columns dropped_columns fourteen_columns_csv = true
  /\ 5 <= nrows fourteen_columns_csv
  /\ snd (process_world_bank_data population_data_path (world_with fourteen_columns_csv))
     = Err IndexError.
Proof.
  split; [reflexivity|]. split; [reflexivity|]. split; [vm_compute; lia|]. reflexivity.
Qed.

(** A header whose first word is a superscript passes the test of line 30
    and is refused by [pd.to_numeric] on line 31: the routine raises and
    returns no WideTable, for a table of any number of rows. *)
Example process_superscript_header_fails :
  distinct (columns superscript_header_csv) = true
  /\ has_columns dropped_columns superscript_header_csv = true
  /\ keeps_a_column superscript_header_csv = true
  /\ headers_parse superscript_header_csv = false
  /\ snd (process_world_bank_data population_data_path (world_with superscript_header_csv))
     = Err (ValueError unable_to_parse).
Proof. repeat split. Qed.

(** C3 (as amended): on a table of fewer than five rows (with the fourteen
    columns and one more, and kept headers that [pd.to_numeric] reads where
    they pass [str.isnumeric]) the slice [iloc[:-5]] is empty and
    [process_world_bank_data] returns a WideTable without rows. *)
Theorem process_world_bank_data_short (path : string) (w : World) (raw : DataFrame) :
  lookup_file path (files w) = Some raw ->
  has_columns dropped_columns raw = true ->
  keeps_a_column raw = true ->
  headers_parse raw = true ->
  nrows raw < 5 ->
  exists w' l t wide,
    process_world_bank_data path w = (w', Ok (l, t))
    /\ heap w' !! l = Some wide
    /\ nrows wide = 0.
Proof.
  intros Hfile Hcols Hkeep Hparse Hrows.
  destruct (process_ok path w raw Hfile Hcols Hkeep Hparse)
    as [w' [l [t [wide [Hrun [Hl Hwide]]]]]].
  exists w', l, t, wide. split; [assumption|]. split; [assumption|].
  destruct (wide_table_inv raw wide Hwide) as [_ Hn]. lia.
Qed.

Lemma process_world_bank_data_short_witness :
  exists w' l t wide,
    process_world_bank_data population_data_path (world_with three_rows_csv) = (w', Ok (l, t))
    /\ heap w' !! l = Some wide
    /\ nrows wide = 0.
Proof.
  apply (process_world_bank_data_short population_data_path (world_with three_rows_csv)
           three_rows_csv); [reflexivity | reflexivity | reflexivity | reflexivity | ].
  vm_compute. lia.
Defined.

(** C3, as stated, fails: on a table of three rows the routine raises
    nothing and returns a WideTable (of no rows). *)
Lemma process_three_rows_returns :
  nrows three_rows_csv = 3
  /\ exists l t,
       snd (process_world_bank_data population_data_path (world_with three_rows_csv))
       = Ok (l, t).
Proof.
  split; [reflexivity|]. eexists. eexists. vm_compute. reflexivity.
Qed.

(** C4: every retained year column of the WideTable is headed by the first
    whitespace-delimited token of the header it had in the parsed table. *)
Theorem wide_table_year_headers (path : string) (w w' : World) (raw wide : DataFrame)
    (l : loc) (t : TransposedTable) :
  lookup_file path (files w) = Some raw ->
  process_world_bank_data path w = (w', Ok (l, t)) ->
  heap w' !! l = Some wide ->
  Forall2 (fun raw_header wide_header =>
             forall y, isnumeric y = true -> raw_header = year_header y ->
                       first_token raw_header = Some wide_header)
          (retained dropped_columns (columns raw)) (columns wide).
Proof.
  intros Hfile Hrun Hl.
  destruct (process_inv _ _ _ _ _ _ _ Hfile Hrun Hl) as [Hwide _].
  destruct (wide_table_inv raw wide Hwide) as [Hc _]. rewrite Hc. clear.
  induction (retained dropped_columns (columns raw)) as [|h hs IH]; simpl; constructor.
  - intros y Hy ->. destruct (year_header_token y Hy) as [-> ->]. reflexivity.
  - exact IH.
Qed.

Lemma wide_table_year_headers_witness :
  exists wide : DataFrame,
    columns wide = ["Country"; "Series"; "2015"; "2016"; "2017"; "2018"; "2019"]
    /\ Forall2 (fun raw_header wide_header =>
                  forall y, isnumeric y = true -> raw_header = year_header y ->
                            first_token raw_header = Some wide_header)
               (retained dropped_columns (columns example_csv)) (columns wide).
Proof.
  eexists. split; [|eapply (wide_table_year_headers population_data_path
                             (world_with example_csv) _ example_csv _ _ _ eq_refl)].
  2: vm_compute; reflexivity.
  2: vm_compute; reflexivity.
  reflexivity.
Defined.

Lemma int_of_ascii_digits (s : string) :
  ascii_digits s = true -> int_of_string s = Some (digits_value 0 s).
Proof.
  destruct s as [|c s]; [discriminate|]. intros H.
  assert (Hc : is_digit c = true).
  { cbn [ascii_digits all_digits] in H. now apply andb_true_iff in H. }
  destruct c as [[] [] [] [] [] [] [] []]; try discriminate Hc;
    cbv beta iota delta [int_of_string]; now rewrite H.
Qed.

Lemma map_int_of_ascii_digits (l : list string) :
  forallb ascii_digits l = true ->
  map int_of_string l = map Some (map (digits_value 0) l).
Proof.
  induction l as [|s l IH]; cbn [forallb map]; [reflexivity|].
  intros H. apply andb_true_iff in H. destruct H as [Hs Hl].
  now rewrite (int_of_ascii_digits s Hs), (IH Hl).
Qed.

(** C5 (as amended): the index of the TransposedTable is made of the
    column labels of the WideTable after the first that pass
    [str.isnumeric], in their order.  When the routine returns each of them
    consists of ASCII digits and spells a number below 2^64, and its index
    entry is that number, the one [int] reads from the label.  The table
    has a column "Years", and in every row that column holds the index
    label of the row. *)
Theorem transposed_table_index (path : string) (w w' : World) (raw wide : DataFrame)
    (l : loc) (t : TransposedTable) :
  lookup_file path (files w) = Some raw ->
  process_world_bank_data path w = (w', Ok (l, t)) ->
  heap w' !! l = Some wide ->
  let labels := List.filter isnumeric (tl (columns wide)) in
  index t = map (digits_value 0) labels
  /\ forallb readable labels = true
  /\ map int_of_string labels = map Some (index t)
  /\ In (VStr "Years") (columns t)
  /\ (forall r j, In r (rows t) -> nth_error (columns t) j = Some (VStr "Years") ->
                  cell j r = VInt (fst r)).
Proof.
  intros Hfile Hrun Hl. cbv zeta.
  destruct (process_inv _ _ _ _ _ _ _ Hfile Hrun Hl) as [_ Ht].
  destruct (columns wide) as [|c0 cs] eqn:Hc.
  { rewrite (transposed_companion_empty wide Hc) in Ht. discriminate. }
  destruct (forallb parses cs) eqn:Hparse;
    [|destruct (transposed_companion_fails wide c0 cs Hc Hparse) as [msg Hmsg];
      rewrite Hmsg in Ht; discriminate].
  destruct (transposed_companion_ok wide c0 cs Hc Hparse) as [t' [Ht' [Hidx [Hex Hyears]]]].
  rewrite Ht in Ht'. injection Ht' as <-. cbn [tl].
  assert (Hdigits : forallb readable (List.filter isnumeric cs) = true)
    by now rewrite forallb_filter_parses.
  split; [exact Hidx|]. split; [exact Hdigits|]. split; [|split].
  - rewrite Hidx. apply map_int_of_ascii_digits. now apply readable_ascii_digits.
  - apply existsb_exists in Hex. destruct Hex as [c [Hin Hlabel]].
    apply is_label_eq in Hlabel. now subst.
  - intros r j Hr Hj. apply (Hyears r j (VStr "Years") Hr Hj). now apply is_label_eq.
Qed.

Lemma transposed_table_index_witness :
  exists (wide : DataFrame) (t : TransposedTable),
    (columns wide = ["Country"; "Series"; "2015"; "2016"; "2017"; "2018"; "2019"]
     /\ index t = [2015; 2016; 2017; 2018; 2019]%Z)
    /\ let labels := List.filter isnumeric (tl (columns wide)) in
       index t = map (digits_value 0) labels
       /\ forallb readable labels = true
       /\ map int_of_string labels = map Some (index t)
       /\ In (VStr "Years") (columns t)
       /\ (forall r j, In r (rows t) -> nth_error (columns t) j = Some (VStr "Years") ->
                       cell j r = VInt (fst r)).
Proof.
  eexists. eexists.
  split; [|eapply (transposed_table_index population_data_path
                     (world_with example_csv) _ example_csv _ _ _ eq_refl)].
  2: vm_compute; reflexivity.
  2: vm_compute; reflexivity.
  split; reflexivity.
Defined.

(** C5, as stated, fails in both directions.  The label "-5" is
    integer-parseable ([int] reads -5 from it) and the index leaves it out,
    because it does not pass [str.isnumeric].  A superscript two passes
    [str.isnumeric] and is not integer-parseable: no index is built, the
    routine raises on it. *)
Lemma transposed_index_not_the_parseable_labels :
  int_of_string "-5" = Some (-5)%Z
  /\ match wide_table signed_header_csv with
     | Ok wide => columns wide = ["Country"; "2015"; "-5"]
     | Err _ => False
     end
  /\ match snd (process_world_bank_data population_data_path (world_with signed_header_csv))
     with
     | Ok (_, t) => index t = [2015%Z]
     | Err _ => False
     end
  /\ isnumeric superscript_two = true
  /\ int_of_string superscript_two = None
  /\ snd (process_world_bank_data population_data_path (world_with superscript_header_csv))
     = Err (ValueError unable_to_parse).
Proof. repeat split. Qed.

(** Labels with a sign are numbers to [int] and not to [str.isnumeric]:
    the index keeps labels of digits only. *)
Example signed_label_not_kept :
  int_of_string "-5" = Some (-5)%Z /\ isnumeric "-5" = false.
Proof. split; reflexivity. Qed.

(** ** The chart builders *)

Lemma astype_column_run (conv : value -> result value) (l : loc) (label : string)
    (w : World) (f : DataFrame) :
  heap w !! l = Some f ->
  astype_column conv l label w =
    match astype conv label f with
    | Ok r => (set_heap (<[l := r]> (heap w)) w, Ok tt)
    | Err e => (w, Err e)
    end.
Proof.
  intros H. unfold astype_column, astype, column.
  rewrite !bind_run, (get_run _ _ _ H). unfold lift.
  destruct (pd.getitem label f) as [series|e]; [|reflexivity].
  rewrite bind_run. cbn [mbind result_bind].
  destruct (mapM conv series) as [converted|e]; [|reflexivity].
  now rewrite (call_inplace_run _ _ _ f H).
Qed.

Lemma melted_data_run (series value_name : string) (l : loc) (w : World) (df : DataFrame) :
  heap w !! l = Some df ->
  exists ext,
    melted_data series value_name l w
    = (set_heap (heap w ++ ext) w, long_table series value_name df).
Proof.
  intros H. unfold melted_data, long_table.
  rewrite bind_run, (call_run _ _ _ df H).
  destruct (pd.filter_eq "Series" series df) as [filtered|e];
    [|exists []; rewrite app_nil_r; now destruct w].
  cbn [mbind result_bind]. rewrite bind_run.
  rewrite (call_run _ _ _ filtered) by (rewrite heap_set_heap; apply lookup_new).
  destruct (pd.melt _ _ _ _ filtered) as [melted|e]; [|now exists [filtered]].
  rewrite heap_set_heap, set_heap_set_heap.
  cbn [mbind result_bind]. rewrite <- app_assoc. cbn [app].
  rewrite length_app. cbn [length]. rewrite Nat.add_1_r.
  rewrite bind_run.
  rewrite (astype_column_run _ _ _ _ melted) by (rewrite heap_set_heap; apply lookup_second).
  destruct (astype to_float value_name melted) as [melted1|e];
    [|now exists [filtered; melted]].
  rewrite heap_set_heap, set_heap_set_heap, insert_second.
  cbn [mbind result_bind]. rewrite bind_run.
  rewrite (astype_column_run _ _ _ _ melted1) by (rewrite heap_set_heap; apply lookup_second).
  destruct (astype pd.to_int "Year" melted1) as [melted2|e];
    [|now exists [filtered; melted1]].
  rewrite heap_set_heap, set_heap_set_heap, insert_second.
  exists [filtered; melted2].
  now rewrite (get_run _ _ melted2) by (rewrite heap_set_heap; apply lookup_second).
Qed.

Lemma draw_run (ax : nat) (c : DrawCall) (w : World) :
  draw ax c w = (set_canvas (canvas w ++ [(ax, c)]) w, Ok tt).
Proof. reflexivity. Qed.

(** One statement of two programs that begin alike: case on its outcome. *)
Ltac same_step :=
  rewrite ?bind_run;
  match goal with
  | |- context [call ?op ?l ?w] => destruct (call op l w) as [? [?|?]]
  | |- context [astype_column ?c ?l ?s ?w] => destruct (astype_column c l s w) as [? [[]|?]]
  | |- context [get ?l ?w] => destruct (get l w) as [? [?|?]]
  end;
  try reflexivity.

Lemma barplot_split (ax : nat) (l : loc) (w : World) :
  barplot_urban_growth_data ax l w
  = (melted_data urban_growth "Urban Population Growth (Annual %)" l ≫= barplot_draw ax) w.
Proof.
  unfold barplot_urban_growth_data, melted_data, barplot_draw.
  do 5 same_step.
Qed.

Lemma lineplot_split (ax : nat) (l : loc) (w : World) :
  lineplot_urban_growth_data ax l w
  = (melted_data urban_growth "Urban Population Growth (Annual %)" l ≫= lineplot_draw ax) w.
Proof.
  unfold lineplot_urban_growth_data, melted_data, lineplot_draw.
  do 5 same_step.
Qed.

Lemma histogram_split (ax : nat) (l : loc) (w : World) :
  histogram_rural_population ax l w
  = (melted_data rural_population "Rural Population" l ≫= histogram_draw ax) w.
Proof.
  unfold histogram_rural_population, melted_data, histogram_draw.
  do 5 same_step.
Qed.

Lemma pie_split (ax : nat) (l : loc) (w : World) :
  pie_chart_largest_city_population ax l w
  = (top_countries_data l ≫= pie_draw ax) w.
Proof.
  unfold pie_chart_largest_city_population, top_countries_data, pie_draw.
  do 5 same_step.
Qed.

Lemma column_run (l : loc) (label : string) (w : World) (f : DataFrame) :
  heap w !! l = Some f -> column l label w = (w, pd.getitem label f).
Proof.
  intros H. unfold column. now rewrite bind_run, (get_run _ _ _ H).
Qed.

Lemma lookup_third (h : list DataFrame) (f g k : DataFrame) :
  (h ++ [f; g; k]) !! S (S (length h)) = Some k.
Proof.
  change (h ++ [f; g; k]) with (h ++ [f] ++ [g; k]). rewrite app_assoc.
  replace (S (S (length h))) with (S (length (h ++ [f])))
    by (rewrite length_app; simpl; lia).
  apply lookup_second.
Qed.

Lemma lookup_fourth (h : list DataFrame) (f g k m : DataFrame) :
  (h ++ [f; g; k; m]) !! (length h + 3) = Some m.
Proof.
  change (h ++ [f; g; k; m]) with (h ++ [f] ++ [g; k; m]). rewrite app_assoc.
  replace (length h + 3) with (S (S (length (h ++ [f]))))
    by (rewrite length_app; simpl; lia).
  apply lookup_third.
Qed.

Lemma top_countries_run (l : loc) (w : World) (df : DataFrame) :
  heap w !! l = Some df ->
  top_countries_data l w =
    match pd.filter_eq "Series" largest_city df with
    | Err e => (w, Err e)
    | Ok filtered =>
        match pd.dropna ["2019"] filtered with
        | Err e => (set_heap (heap w ++ [filtered]) w, Err e)
        | Ok kept =>
            match astype to_float "2019" kept with
            | Err e => (set_heap (heap w ++ [filtered; kept]) w, Err e)
            | Ok coerced =>
                match pd.sort_values_desc "2019" coerced with
                | Err e => (set_heap (heap w ++ [filtered; coerced]) w, Err e)
                | Ok sorted =>
                    (set_heap (heap w ++ [filtered; coerced; sorted; pd.head 6 sorted]) w,
                     Ok (length (heap w) + 3))
                end
            end
        end
    end.
Proof.
  intros H. unfold top_countries_data.
  rewrite bind_run, (call_run _ _ _ df H).
  destruct (pd.filter_eq "Series" largest_city df) as [filtered|e]; [|reflexivity].
  rewrite bind_run.
  rewrite (call_run _ _ _ filtered) by (rewrite heap_set_heap; apply lookup_new).
  destruct (pd.dropna ["2019"] filtered) as [kept|e]; [|reflexivity].
  rewrite heap_set_heap, set_heap_set_heap, <- app_assoc. cbn [app].
  rewrite length_app. cbn [length]. rewrite Nat.add_1_r.
  rewrite bind_run.
  rewrite (astype_column_run _ _ _ _ kept) by (rewrite heap_set_heap; apply lookup_second).
  destruct (astype to_float "2019" kept) as [coerced|e]; [|reflexivity].
  rewrite heap_set_heap, set_heap_set_heap, insert_second.
  rewrite bind_run.
  rewrite (call_run _ _ _ coerced) by (rewrite heap_set_heap; apply lookup_second).
  destruct (pd.sort_values_desc "2019" coerced) as [sorted|e]; [|reflexivity].
  rewrite heap_set_heap, set_heap_set_heap, <- app_assoc. cbn [app].
  rewrite length_app. cbn [length].
  rewrite (call_run _ _ _ sorted)
    by (rewrite heap_set_heap; replace (length (heap w) + 2) with (S (S (length (heap w))))
          by lia; apply lookup_third).
  rewrite heap_set_heap, set_heap_set_heap, <- app_assoc. cbn [app].
  rewrite length_app. cbn [length]. reflexivity.
Qed.

(** The pie builder on the heap, outcome by outcome. *)
Lemma pie_run (ax : nat) (l : loc) (w : World) (df : DataFrame) :
  heap w !! l = Some df ->
  exists ext,
    let w1 := set_heap (heap w ++ ext) w in
    pie_chart_largest_city_population ax l w =
      match top_countries_table df with
      | Err e => (w1, Err e)
      | Ok top =>
          match pie_wedges top with
          | Err e => (w1, Err e)
          | Ok (x, pct) =>
              match pd.getitem "Country" top with
              | Err e =>
                  (set_canvas (canvas w ++ [(ax, Pie x pct); (ax, Decorate "axis")]) w1, Err e)
              | Ok labels =>
                  (set_canvas (canvas w ++ [(ax, Pie x pct); (ax, Decorate "axis");
                                            (ax, Legend "Country" (Some labels));
                                            (ax, Decorate "set_title")]) w1, Ok tt)
              end
          end
      end.
Proof.
  intros H. rewrite pie_split, bind_run, (top_countries_run _ _ _ H).
  unfold top_countries_table, largest_city_kept.
  destruct (pd.filter_eq "Series" largest_city df) as [filtered|e];
    [|exists []; rewrite app_nil_r; now destruct w].
  cbn [mbind result_bind].
  destruct (pd.dropna ["2019"] filtered) as [kept|e]; [|now exists [filtered]].
  cbn [mbind result_bind].
  destruct (astype to_float "2019" kept) as [coerced|e]; [|now exists [filtered; kept]].
  cbn [mbind result_bind].
  destruct (pd.sort_values_desc "2019" coerced) as [sorted|e];
    [|now exists [filtered; coerced]].
  cbn [mbind result_bind mret result_ret].
  exists [filtered; coerced; sorted; pd.head 6 sorted].
  set (top := pd.head 6 sorted).
  set (w1 := set_heap _ w).
  assert (Htop : heap w1 !! (length (heap w) + 3) = Some top) by apply lookup_fourth.
  unfold pie_draw, pie_wedges.
  rewrite bind_run, (column_run _ _ _ _ Htop).
  destruct (pd.getitem "2019" top) as [x|e]; [|reflexivity].
  cbn [mbind result_bind]. rewrite bind_run. unfold lift.
  destruct (pie_percentages x) as [pct|e]; [|reflexivity].
  cbn [mbind result_bind mret result_ret].
  rewrite bind_run, draw_run, bind_run, draw_run, bind_run.
  rewrite (column_run _ _ _ top) by exact Htop.
  destruct (pd.getitem "Country" top) as [labels|e];
    rewrite ?bind_run, ?draw_run; unfold set_canvas, set_heap in *; subst w1;
    cbn [canvas files heap saved]; now rewrite <- ?app_assoc.
Qed.

Lemma plotted_data_app (c d : list (nat * DrawCall)) :
  plotted_data (c ++ d) = plotted_data c ++ plotted_data d.
Proof. apply flat_map_app. Qed.

(** What the three builders that melt leave behind: the heap grows, the
    canvas receives the long table. *)
Lemma melted_builder_run (series value_name : string) (k : nat -> DataFrame -> M unit)
    (plot : DataFrame -> list (nat * DrawCall)) (ax : nat) (l : loc) (w : World)
    (df : DataFrame) :
  (forall data w1, k ax data w1 = (set_canvas (canvas w1 ++ plot data) w1, Ok tt)) ->
  heap w !! l = Some df ->
  exists ext,
    (melted_data series value_name l ≫= k ax) w =
      match long_table series value_name df with
      | Ok data => (set_canvas (canvas w ++ plot data) (set_heap (heap w ++ ext) w), Ok tt)
      | Err e => (set_heap (heap w ++ ext) w, Err e)
      end.
Proof.
  intros Hk H. destruct (melted_data_run series value_name l w df H) as [ext Hrun].
  exists ext. rewrite bind_run, Hrun.
  destruct (long_table series value_name df) as [data|e]; [|reflexivity].
  now rewrite Hk.
Qed.

Lemma barplot_draw_run (ax : nat) (data : DataFrame) (w : World) :
  barplot_draw ax data w = (set_canvas (canvas w ++ barplot_calls ax data) w, Ok tt).
Proof.
  unfold barplot_draw, barplot_calls. unfold draw, set_canvas, mbind, M_bind.
  cbn [canvas files heap saved]. now rewrite <- !app_assoc.
Qed.

Lemma lineplot_draw_run (ax : nat) (data : DataFrame) (w : World) :
  lineplot_draw ax data w = (set_canvas (canvas w ++ lineplot_calls ax data) w, Ok tt).
Proof.
  unfold lineplot_draw, lineplot_calls. unfold draw, set_canvas, mbind, M_bind.
  cbn [canvas files heap saved]. now rewrite <- !app_assoc.
Qed.

Lemma histogram_draw_run (ax : nat) (data : DataFrame) (w : World) :
  histogram_draw ax data w = (set_canvas (canvas w ++ histogram_calls ax data) w, Ok tt).
Proof.
  unfold histogram_draw, histogram_calls. unfold draw, set_canvas, mbind, M_bind.
  cbn [canvas files heap saved]. now rewrite <- !app_assoc.
Qed.

Lemma barplot_run (ax : nat) (l : loc) (w : World) (df : DataFrame) :
  heap w !! l = Some df ->
  exists ext,
    barplot_urban_growth_data ax l w =
      match long_table urban_growth "Urban Population Growth (Annual %)" df with
      | Ok data =>
          (set_canvas (canvas w ++ barplot_calls ax data) (set_heap (heap w ++ ext) w), Ok tt)
      | Err e => (set_heap (heap w ++ ext) w, Err e)
      end.
Proof.
  intros H. rewrite barplot_split.
  apply (melted_builder_run _ _ barplot_draw (barplot_calls ax) ax l w df);
    [intros; apply barplot_draw_run | exact H].
Qed.

Lemma lineplot_run (ax : nat) (l : loc) (w : World) (df : DataFrame) :
  heap w !! l = Some df ->
  exists ext,
    lineplot_urban_growth_data ax l w =
      match long_table urban_growth "Urban Population Growth (Annual %)" df with
      | Ok data =>
          (set_canvas (canvas w ++ lineplot_calls ax data) (set_heap (heap w ++ ext) w), Ok tt)
      | Err e => (set_heap (heap w ++ ext) w, Err e)
      end.
Proof.
  intros H. rewrite lineplot_split.
  apply (melted_builder_run _ _ lineplot_draw (lineplot_calls ax) ax l w df);
    [intros; apply lineplot_draw_run | exact H].
Qed.

Lemma histogram_run (ax : nat) (l : loc) (w : World) (df : DataFrame) :
  heap w !! l = Some df ->
  exists ext,
    histogram_rural_population ax l w =
      match long_table rural_population "Rural Population" df with
      | Ok data =>
          (set_canvas (canvas w ++ histogram_calls ax data) (set_heap (heap w ++ ext) w), Ok tt)
      | Err e => (set_heap (heap w ++ ext) w, Err e)
      end.
Proof.
  intros H. rewrite histogram_split.
  apply (melted_builder_run _ _ histogram_draw (histogram_calls ax) ax l w df);
    [intros; apply histogram_draw_run | exact H].
Qed.

(** C10: on every heap the bar-chart builder and the line-chart builder
    end alike (both return, or both raise the same error), leave the same
    frames behind and hand the same long table to seaborn. *)
Theorem bar_line_same_long_table (ax1 ax2 : nat) (l : loc) (w : World) :
  let bar := barplot_urban_growth_data ax1 l w in
  let line := lineplot_urban_growth_data ax2 l w in
  snd bar = snd line
  /\ heap (fst bar) = heap (fst line)
  /\ plotted_data (canvas (fst bar)) = plotted_data (canvas (fst line)).
Proof.
  cbv zeta. rewrite barplot_split, lineplot_split, !bind_run.
  destruct (melted_data urban_growth "Urban Population Growth (Annual %)" l w)
    as [w1 [data|e]]; [|now repeat split].
  rewrite barplot_draw_run, lineplot_draw_run. cbn [fst snd].
  split; [reflexivity|]. split; [reflexivity|].
  unfold set_canvas. cbn [canvas]. now rewrite !plotted_data_app.
Qed.

(** The long table the two builders plot is the one of [long_table]:
    the rows of the series, melted over 2015-2019, measure as float,
    year as integer. *)
Lemma bar_line_plot_long_table (ax : nat) (l : loc) (w : World) (df data : DataFrame) :
  heap w !! l = Some df ->
  long_table urban_growth "Urban Population Growth (Annual %)" df = Ok data ->
  plotted_data (canvas (fst (barplot_urban_growth_data ax l w)))
    = plotted_data (canvas w) ++ [data]
  /\ plotted_data (canvas (fst (lineplot_urban_growth_data ax l w)))
    = plotted_data (canvas w) ++ [data].
Proof.
  intros H Hdata.
  destruct (barplot_run ax l w df H) as [ext1 ->].
  destruct (lineplot_run ax l w df H) as [ext2 ->].
  rewrite Hdata. unfold set_canvas. cbn [fst canvas].
  now rewrite !plotted_data_app.
Qed.

(** C9: each of the four builders leaves the WideTable it is given as it
    was: the frame at its location is the same after the builder as
    before, whether the builder returns or raises. *)
Theorem builders_leave_wide_table (ax : nat) (l : loc) (w : World) (df : DataFrame) :
  heap w !! l = Some df ->
  heap (fst (barplot_urban_growth_data ax l w)) !! l = Some df
  /\ heap (fst (lineplot_urban_growth_data ax l w)) !! l = Some df
  /\ heap (fst (pie_chart_largest_city_population ax l w)) !! l = Some df
  /\ heap (fst (histogram_rural_population ax l w)) !! l = Some df.
Proof.
  intros H.
  assert (Hl : l < length (heap w)) by (eapply lookup_lt_Some; eassumption).
  assert (Hext : forall ext, (heap w ++ ext) !! l = Some df)
    by (intros ext; now rewrite lookup_app_l).
  destruct (barplot_run ax l w df H) as [ext1 ->].
  destruct (lineplot_run ax l w df H) as [ext2 ->].
  destruct (pie_run ax l w df H) as [ext3 Hpie]. cbv zeta in Hpie. rewrite Hpie.
  destruct (histogram_run ax l w df H) as [ext4 ->].
  repeat split.
  - destruct (long_table _ _ df); apply Hext.
  - destruct (long_table _ _ df); apply Hext.
  - destruct (top_countries_table df) as [top|e]; [|apply Hext].
    destruct (pie_wedges top) as [[x pct]|e]; [|apply Hext].
    destruct (pd.getitem "Country" top); apply Hext.
  - destruct (long_table _ _ df); apply Hext.
Qed.

(** C7: when the parsed table lacks one of the fourteen columns that are
    dropped, the script stops at [drop] with the KeyError that names the
    column; no chart has been drawn and no image file is written. *)
Theorem main_missing_column (w : World) (raw : DataFrame) (c : string) :
  lookup_file population_data_path (files w) = Some raw ->
  mem c dropped_columns = true ->
  mem c (columns raw) = false ->
  exists w' m,
    main w = (w', Err (KeyError m))
    /\ In c m
    /\ canvas w' = canvas w
    /\ saved w' = saved w.
Proof.
  intros Hfile Hc Hn. apply mem_In in Hc. apply mem_false in Hn.
  destruct (wide_table_missing raw c Hc Hn) as [m [Hm Hin]].
  exists (set_heap (heap w ++ [raw; pd.iloc_stop_neg 5 raw]) w), m.
  unfold main. rewrite bind_run, (process_run _ _ _ Hfile), Hm.
  repeat split. exact Hin.
Qed.

(** ** The filter on the series *)

Lemma filter_filter {A : Type} (p : A -> bool) (l : list A) :
  List.filter p (List.filter p l) = List.filter p l.
Proof.
  induction l as [|x l IH]; simpl; [reflexivity|].
  destruct (p x) eqn:Hp; simpl; [rewrite Hp, IH|]; auto.
Qed.

Lemma get_loc_mem (label : string) (cols : list string) :
  mem label cols = true ->
  exists j, get_loc label cols = Some j /\ nth_error cols j = Some label.
Proof.
  induction cols as [|c cols IH]; simpl; [discriminate|].
  rewrite String.eqb_sym. destruct (String.eqb_spec c label) as [->|Hne]; simpl.
  - intros _. now exists 0.
  - intros H. destruct (IH H) as [j [Hj Hn]]. exists (S j). now rewrite Hj.
Qed.

Lemma get_loc_not_mem (label : string) (cols : list string) :
  mem label cols = false -> get_loc label cols = None.
Proof.
  induction cols as [|c cols IH]; simpl; [reflexivity|].
  rewrite String.eqb_sym. destruct (String.eqb_spec c label) as [->|Hne]; simpl;
    [discriminate|].
  intros H. now rewrite (IH H).
Qed.

Lemma filter_eq_ok {I : Type} (col lit : string) (f : Frame I string) :
  mem col (columns f) = true ->
  pd.filter_eq col lit f = Ok (mkFrame (columns f) (rows_where col lit f)).
Proof.
  intros H. destruct (get_loc_mem col (columns f) H) as [j [Hj _]].
  unfold pd.filter_eq, pd.getitem, rows_where, pd.cell_of, pd.getitem_bool. rewrite Hj.
  cbn [mbind result_bind mret result_ret]. f_equal. f_equal.
  rewrite map_map. apply (select_map (fun r => pd.eq_scalar lit (cell j r))).
Qed.

Lemma filter_eq_missing {I : Type} (col lit : string) (f : Frame I string) :
  mem col (columns f) = false -> pd.filter_eq col lit f = Err (KeyError [col]).
Proof.
  intros H. unfold pd.filter_eq, pd.getitem. now rewrite (get_loc_not_mem _ _ H).
Qed.

(** C8: filtering a table on its "Series" column with a literal, and
    filtering the outcome again with the same literal, gives what the
    first filter gave (the same rows, or the same KeyError); this holds
    for every literal, so for the one of each builder. *)
Theorem series_filter_idempotent (lit : string) (df : DataFrame) :
  pd.filter_eq "Series" lit df ≫= pd.filter_eq "Series" lit
  = pd.filter_eq "Series" lit df.
Proof.
  destruct (mem "Series" (columns df)) eqn:Hm.
  - rewrite (filter_eq_ok _ _ _ Hm). cbn [mbind result_bind].
    rewrite filter_eq_ok by exact Hm. cbn [columns]. f_equal. f_equal.
    unfold rows_where, pd.cell_of. cbn [rows columns]. apply filter_filter.
  - now rewrite (filter_eq_missing _ _ _ Hm).
Qed.

(** The filter does keep rows: on the example table it keeps the row of
    the series, once and twice. *)
Example series_filter_example :
  option_map nrows
    (match wide_table example_csv with
     | Ok wide =>
         match pd.filter_eq "Series" urban_growth wide ≫= pd.filter_eq "Series" urban_growth with
         | Ok f => Some f
         | Err _ => None
         end
     | Err _ => None
     end) = Some 1.
Proof. reflexivity. Qed.

(** ** The pie chart *)

Lemma dropna_ok {I : Type} (label : string) (f : Frame I string) :
  mem label (columns f) = true ->
  pd.dropna [label] f
  = Ok (mkFrame (columns f)
          (List.filter (fun r => negb (pd.isna (pd.cell_of f label r))) (rows f))).
Proof.
  intros H. unfold pd.dropna. cbn [List.filter]. rewrite H. cbn [negb].
  f_equal. f_equal. apply filter_ext. intros r. cbn [existsb]. now rewrite orb_false_r.
Qed.

Lemma dropna_missing {I : Type} (label : string) (f : Frame I string) :
  mem label (columns f) = false -> pd.dropna [label] f = Err (KeyError [label]).
Proof.
  intros H. unfold pd.dropna. cbn [List.filter]. now rewrite H.
Qed.

Lemma largest_city_kept_ok (df : DataFrame) :
  has_columns ["Series"; "2019"] df = true ->
  largest_city_kept df = Ok (mkFrame (columns df) (non_missing_2019 df)).
Proof.
  unfold has_columns. cbn [forallb]. rewrite !andb_true_iff. intros [Hs [Hy _]].
  unfold largest_city_kept. rewrite (filter_eq_ok _ _ _ Hs). cbn [mbind result_bind].
  now rewrite dropna_ok by exact Hy.
Qed.

Lemma to_float_outcome (v : value) :
  to_float v = if not_a_number v then Err (ValueError could_not_convert) else Ok (coerce v).
Proof.
  unfold coerce. destruct v as [| s | z | q]; cbn; try reflexivity.
  now destruct (float_of_string s).
Qed.

Lemma mapM_to_float {A : Type} (g : A -> value) (l : list A) :
  mapM to_float (map g l)
  = if existsb (fun r => not_a_number (g r)) l then Err (ValueError could_not_convert)
    else Ok (map (fun r => coerce (g r)) l).
Proof.
  induction l as [|r l IH]; cbn [map mapM existsb]; [reflexivity|].
  rewrite to_float_outcome. destruct (not_a_number (g r)); cbn [orb]; [reflexivity|].
  rewrite IH. now destruct (existsb _ l).
Qed.

Lemma astype_float_outcome (label : string) (f : DataFrame) :
  mem label (columns f) = true ->
  astype to_float label f
  = if existsb (fun r => not_a_number (pd.cell_of f label r)) (rows f)
    then Err (ValueError could_not_convert)
    else Ok (mkFrame (columns f) (coerced_rows label f)).
Proof.
  intros H. destruct (get_loc_mem label (columns f) H) as [j [Hj _]].
  unfold astype, pd.getitem, pd.cell_of, coerced_rows, pd.cell_of. rewrite Hj.
  cbn [mbind result_bind]. rewrite mapM_to_float.
  destruct (existsb _ (rows f)); [reflexivity|]. cbn [mbind result_bind].
  unfold pd.setitem, nrows. rewrite length_map, Nat.eqb_refl.
  change (existsb (String.eqb label) (columns f)) with (mem label (columns f)). rewrite H.
  f_equal. f_equal. rewrite (combine_map_self (fun r => coerce (cell j r))), map_map.
  reflexivity.
Qed.

Lemma cell_of_columns {I : Type} (f g : Frame I string) (label : string) (r : I * list value) :
  columns f = columns g -> pd.cell_of f label r = pd.cell_of g label r.
Proof. intros H. unfold pd.cell_of. now rewrite H. Qed.

(** The outcome of lines 116-124 on a table that has the columns. *)
Lemma top_countries_table_outcome (df : DataFrame) :
  has_columns ["Series"; "2019"] df = true ->
  top_countries_table df
  = if existsb (fun r => not_a_number (pd.cell_of df "2019" r)) (non_missing_2019 df)
    then Err (ValueError could_not_convert)
    else
      match get_loc "2019" (columns df) with
      | Some j =>
          Ok (mkFrame (columns df)
                (firstn 6 (pd.sort_desc (fun r => pd.float_key (cell j r))
                             (coerced_rows "2019" (mkFrame (columns df) (non_missing_2019 df))))))
      | None => Err (KeyError ["2019"])
      end.
Proof.
  intros Hcols. unfold top_countries_table.
  rewrite (largest_city_kept_ok df Hcols). cbn [mbind result_bind].
  assert (Hy : mem "2019" (columns df) = true).
  { unfold has_columns in Hcols. cbn [forallb] in Hcols.
    rewrite !andb_true_iff in Hcols. tauto. }
  rewrite astype_float_outcome by exact Hy. cbn [rows columns].
  unfold pd.cell_of at 1 2. cbn [columns].
  destruct (existsb _ (non_missing_2019 df)); [reflexivity|].
  cbn [mbind result_bind]. unfold pd.sort_values_desc. cbn [columns rows].
  now destruct (get_loc "2019" (columns df)).
Qed.

Lemma pie_percentages_error (x : list value) (e : error) :
  pie_percentages x = Err e -> e <> ValueError could_not_convert.
Proof.
  unfold pie_percentages. destruct (existsb is_negative x); [intros [= <-]; discriminate|].
  destruct (all_floats x) as [qs|]; [|intros [= <-]; discriminate].
  destruct (Qeq_bool (Qsum qs) 0); [intros [= <-]; discriminate | discriminate].
Qed.

Lemma getitem_error {I : Type} (label : string) (f : Frame I string) (e : error) :
  pd.getitem label f = Err e -> e = KeyError [label].
Proof.
  unfold pd.getitem. destruct (get_loc label (columns f)); [discriminate | congruence].
Qed.

Lemma column_outcome (l : loc) (label : string) (w : World) :
  column l label w
  = (w, match heap w !! l with
        | Some f => pd.getitem label f
        | None => Err (ValueError "no such object")
        end).
Proof.
  unfold column, get. rewrite bind_run. now destruct (heap w !! l).
Qed.

(** The drawing part of the pie builder raises no conversion error. *)
Lemma pie_draw_no_conversion (ax : nat) (top : loc) (w : World) :
  snd (pie_draw ax top w) <> Err (ValueError could_not_convert).
Proof.
  unfold pie_draw. rewrite bind_run, column_outcome.
  destruct (heap w !! top) as [f|] eqn:Hf; [|discriminate].
  destruct (pd.getitem "2019" f) as [x|e] eqn:Hx;
    [|apply getitem_error in Hx; subst e; discriminate].
  rewrite bind_run. unfold lift.
  destruct (pie_percentages x) as [pct|e] eqn:Hp;
    [|apply pie_percentages_error in Hp; cbn; congruence].
  rewrite bind_run, draw_run, bind_run, draw_run, bind_run, column_outcome.
  cbn [heap set_canvas]. rewrite Hf.
  destruct (pd.getitem "Country" f) as [labels|e] eqn:Hlabels;
    [|apply getitem_error in Hlabels; subst e; discriminate].
  discriminate.
Qed.

Lemma dropna_largest_city (df : DataFrame) :
  mem "2019" (columns df) = true ->
  pd.dropna ["2019"] (mkFrame (columns df) (largest_city_rows df))
  = Ok (mkFrame (columns df) (non_missing_2019 df)).
Proof. intros H. now rewrite dropna_ok by exact H. Qed.

Lemma astype_kept (df : DataFrame) :
  mem "2019" (columns df) = true ->
  astype to_float "2019" (mkFrame (columns df) (non_missing_2019 df))
  = if offending df then Err (ValueError could_not_convert)
    else Ok (mkFrame (columns df)
               (coerced_rows "2019" (mkFrame (columns df) (non_missing_2019 df)))).
Proof. intros H. now rewrite astype_float_outcome by exact H. Qed.

(** The heap run of lines 116-124 on a table that has the columns. *)
Lemma top_countries_run_outcome (l : loc) (w : World) (df : DataFrame) :
  heap w !! l = Some df ->
  has_columns ["Series"; "2019"] df = true ->
  let filtered := mkFrame (columns df) (largest_city_rows df) in
  let kept := mkFrame (columns df) (non_missing_2019 df) in
  if offending df then
    top_countries_data l w
    = (set_heap (heap w ++ [filtered; kept]) w, Err (ValueError could_not_convert))
  else
    exists top sorted,
      top_countries_table df = Ok top
      /\ top_countries_data l w
         = (set_heap (heap w ++ [filtered; mkFrame (columns df) (coerced_rows "2019" kept);
                                 sorted; top]) w,
            Ok (length (heap w) + 3)).
Proof.
  intros H Hcols. cbv zeta.
  pose proof (top_countries_table_outcome df Hcols) as Htable.
  fold (offending df) in Htable.
  unfold has_columns in Hcols. cbn [forallb] in Hcols.
  rewrite !andb_true_iff in Hcols. destruct Hcols as [Hs [Hy _]].
  rewrite (top_countries_run _ _ _ H), (filter_eq_ok _ _ _ Hs).
  fold (largest_city_rows df).
  rewrite (dropna_largest_city df Hy), (astype_kept df Hy).
  destruct (offending df); [reflexivity|].
  unfold pd.sort_values_desc in *. cbn [columns rows] in *.
  destruct (get_loc_mem "2019" (columns df) Hy) as [j [Hj _]]. rewrite Hj in *.
  eexists. eexists. split; [exact Htable|]. reflexivity.
Qed.

(** The drawing part of the pie builder allocates nothing. *)
Lemma pie_draw_heap (ax : nat) (top : loc) (w : World) :
  heap (fst (pie_draw ax top w)) = heap w.
Proof.
  unfold pie_draw. rewrite bind_run, column_outcome.
  destruct (heap w !! top) as [f|] eqn:Hf; [|reflexivity].
  destruct (pd.getitem "2019" f) as [x|e]; [|reflexivity].
  rewrite bind_run. unfold lift.
  destruct (pie_percentages x) as [pct|e]; [|reflexivity].
  rewrite bind_run, draw_run, bind_run, draw_run, bind_run, column_outcome.
  cbn [heap set_canvas]. rewrite Hf.
  destruct (pd.getitem "Country" f) as [labels|e]; reflexivity.
Qed.

Lemma coerced_rows_index (label : string) (f : DataFrame) :
  map fst (coerced_rows label f) = map fst (rows f).
Proof. unfold coerced_rows. now rewrite map_map. Qed.

(** C2 (as amended): on a WideTable with distinct labels, [dropna]
    removes, before the coercion, exactly the largest-city rows whose 2019
    value is missing; a row whose 2019 value is text that spells no number
    stays, and the builder raises the conversion error exactly when there
    is such a row.  In every run, raising or not, the frame handed to the
    coercion holds the rows with a 2019 value and no other: when the
    coercion raises it is left as it was, and otherwise the 2019 cells of
    its rows are floats and the rows are the same. *)
Theorem pie_drops_missing_only (ax : nat) (l : loc) (w : World) (df : DataFrame) :
  heap w !! l = Some df ->
  has_columns ["Series"; "2019"] df = true ->
  distinct (columns df) = true ->
  let run := pie_chart_largest_city_population ax l w in
  let kept := mkFrame (columns df) (non_missing_2019 df) in
  (forall r, In r (non_missing_2019 df)
             <-> In r (largest_city_rows df) /\ pd.cell_of df "2019" r <> VNaN)
  /\ (snd run = Err (ValueError could_not_convert) <-> offending df = true)
  /\ heap (fst run) !! S (length (heap w))
     = Some (if offending df then kept
             else mkFrame (columns df) (coerced_rows "2019" kept))
  /\ map fst (coerced_rows "2019" kept) = map fst (non_missing_2019 df).
Proof.
  intros H Hcols _. cbv zeta. split; [|].
  { intros r. unfold non_missing_2019. rewrite filter_In, negb_true_iff.
    destruct (pd.cell_of df "2019" r); cbn; split; intros [? ?]; split;
      congruence. }
  split; [|split; [|apply coerced_rows_index]].
  - rewrite pie_split, bind_run.
    pose proof (top_countries_run_outcome l w df H Hcols) as Hrun. cbv zeta in Hrun.
    destruct (offending df).
    + rewrite Hrun. cbn [fst snd]. now split.
    + destruct Hrun as [top [sorted [_ ->]]].
      match goal with
      | |- context [pie_draw ax ?t ?w1] => pose proof (pie_draw_no_conversion ax t w1) as Hdraw
      end.
      split; [|discriminate]. intros Hx. now apply Hdraw in Hx.
  - rewrite pie_split, bind_run.
    pose proof (top_countries_run_outcome l w df H Hcols) as Hrun. cbv zeta in Hrun.
    destruct (offending df).
    + rewrite Hrun. cbn [fst heap set_heap]. apply lookup_second.
    + destruct Hrun as [top [sorted [_ ->]]]. rewrite pie_draw_heap.
      cbn [heap set_heap]. rewrite lookup_app_r by lia.
      now replace (S (length (heap w)) - length (heap w)) with 1 by lia.
Qed.



(** ** Sorting in descending order *)

Section SortDesc.

Context {A : Type} (key : A -> option Q).









End SortDesc.

(** ** Wedges *)

Lemma Qsum_positive (qs : list Q) :
  qs <> [] -> Forall (fun q => (0 < q)%Q) qs -> (0 < Qsum qs)%Q.
Proof.
  intros Hne H. induction H as [|q qs Hq Hqs IH]; [congruence|].
  cbn. destruct qs as [|q' qs'].
  - cbn. now rewrite Qplus_0_r.
  - assert (Hs : (0 < Qsum (q' :: qs'))%Q) by (apply IH; congruence).
    assert (Hle : (q + 0 <= q + Qsum (q' :: qs'))%Q)
      by (apply Qplus_le_compat; [apply Qle_refl | now apply Qlt_le_weak]).
    rewrite Qplus_0_r in Hle. now apply Qlt_le_trans with q.
Qed.









(** The label of a wedge is within a twentieth of its percentage. *)
Lemma one_decimal_near (q : Q) :
  (q - (1 # 20) <= one_decimal q <= q + (1 # 20))%Q.
Proof.
  unfold one_decimal. cbv zeta.
  pose proof (Qfloor_le (q * 10)) as Hlo.
  pose proof (Qlt_floor (q * 10)) as Hhi.
  rewrite inject_Z_plus in Hhi. change (inject_Z 1) with 1%Q in Hhi.
  set (n := inject_Z (Qfloor (q * 10))) in *.
  destruct (Qle_bool (q * 10 - n) (1 # 2)) eqn:Hle.
  - apply Qle_bool_iff in Hle.
    destruct (Qeq_bool (q * 10 - n) (1 # 2)) eqn:Heq.
    + apply Qeq_bool_iff in Heq.
      destruct (Z.even (Qfloor (q * 10))); clearbody n; split; lra.
    + clearbody n. split; lra.
  - assert (Hgt : (1 # 2 < q * 10 - n)%Q).
    { apply Qnot_le_lt. intros H. apply Qle_bool_iff in H. congruence. }
    clearbody n. split; lra.
Qed.

(** [autopct] prints labels that are near the percentages. *)
Lemma one_decimal_labels (pcts : list Q) : near (1 # 20) (map one_decimal pcts) pcts.
Proof.
  unfold near. induction pcts as [|q pcts IH]; cbn [map]; constructor;
    [apply one_decimal_near | exact IH].
Qed.



(** ** The six largest *)


Lemma combine_map_map {A B C : Type} (f : A -> B) (g : A -> C) (l : list A) :
  combine (map f l) (map g l) = map (fun x => (f x, g x)) l.
Proof. induction l as [|x l IH]; cbn; [reflexivity | now rewrite IH]. Qed.





Lemma has_columns_cons {I : Type} (c : string) (labels : list string) (f : Frame I string) :
  has_columns (c :: labels) f = true ->
  mem c (columns f) = true /\ has_columns labels f = true.
Proof. unfold has_columns. cbn [forallb]. now rewrite andb_true_iff. Qed.


Lemma getitem_get_loc {I : Type} (f : Frame I string) (label : string) (j : nat) :
  get_loc label (columns f) = Some j -> pd.getitem label f = Ok (map (cell j) (rows f)).
Proof. intros H. unfold pd.getitem. now rewrite H. Qed.





(** ** The script, chart after chart *)

Lemma set_canvas_same (h : list DataFrame) (w : World) :
  set_canvas (canvas w ++ []) (set_heap h w) = set_heap h w.
Proof. unfold set_canvas, set_heap. cbn. now rewrite app_nil_r. Qed.

Lemma traced_seq (b k : M unit) (w : World) (ca cb : chart) :
  traced w (b w) ca ->
  (forall w1, (exists ext, heap w1 = heap w ++ ext) -> traced w1 (k w1) cb) ->
  traced w ((b ≫= fun _ => k) w) (then_chart ca cb).
Proof.
  intros [ext Hb] Hk. rewrite bind_run, Hb. unfold then_chart.
  destruct (snd ca) as [[]|e] eqn:Hca.
  - destruct (Hk (set_canvas (canvas w ++ fst ca) (set_heap (heap w ++ ext) w)))
      as [ext' ->]; [now exists ext|].
    exists (ext ++ ext'). unfold set_canvas, set_heap. cbn.
    now rewrite <- !app_assoc.
  - exists ext. cbn. now rewrite Hca.
Qed.

Lemma melted_chart_traced (series value_name : string) (b : M unit)
    (plot : DataFrame -> list (nat * DrawCall)) (w : World) (df : DataFrame) :
  (exists ext,
     b w = match long_table series value_name df with
           | Ok data => (set_canvas (canvas w ++ plot data) (set_heap (heap w ++ ext) w), Ok tt)
           | Err e => (set_heap (heap w ++ ext) w, Err e)
           end) ->
  traced w (b w) (melted_chart series value_name plot df).
Proof.
  intros [ext ->]. exists ext. unfold melted_chart.
  destruct (long_table series value_name df); cbn [fst snd]; [reflexivity|].
  now rewrite set_canvas_same.
Qed.

Lemma barplot_traced (ax : nat) (l : loc) (w : World) (df : DataFrame) :
  heap w !! l = Some df ->
  traced w (barplot_urban_growth_data ax l w) (barplot_chart ax df).
Proof. intros H. apply melted_chart_traced, barplot_run, H. Qed.

Lemma lineplot_traced (ax : nat) (l : loc) (w : World) (df : DataFrame) :
  heap w !! l = Some df ->
  traced w (lineplot_urban_growth_data ax l w) (lineplot_chart ax df).
Proof. intros H. apply melted_chart_traced, lineplot_run, H. Qed.

Lemma histogram_traced (ax : nat) (l : loc) (w : World) (df : DataFrame) :
  heap w !! l = Some df ->
  traced w (histogram_rural_population ax l w) (histogram_chart ax df).
Proof. intros H. apply melted_chart_traced, histogram_run, H. Qed.

Lemma pie_traced (ax : nat) (l : loc) (w : World) (df : DataFrame) :
  heap w !! l = Some df ->
  traced w (pie_chart_largest_city_population ax l w) (pie_chart ax df).
Proof.
  intros H. destruct (pie_run ax l w df H) as [ext Hrun]. cbv zeta in Hrun.
  exists ext. rewrite Hrun. unfold pie_chart, pie_calls.
  destruct (top_countries_table df) as [top|e];
    [|cbn [fst snd]; now rewrite set_canvas_same].
  destruct (pie_wedges top) as [[x pct]|e];
    [|cbn [fst snd]; now rewrite set_canvas_same].
  now destruct (pd.getitem "Country" top).
Qed.

Lemma runs_as_seq (b k : M unit) (w : World) (ca cb : chart) :
  traced w (b w) ca ->
  (forall w1, (exists ext, heap w1 = heap w ++ ext) -> runs_as w1 (k w1) cb) ->
  runs_as w ((b ≫= fun _ => k) w) (then_chart ca cb).
Proof.
  intros [ext Hb] Hk. rewrite bind_run, Hb. unfold then_chart, written.
  destruct (snd ca) as [[]|e] eqn:Hca.
  - destruct (Hk (set_canvas (canvas w ++ fst ca) (set_heap (heap w ++ ext) w)))
      as [ext' ->]; [now exists ext|].
    exists (ext ++ ext'). unfold set_canvas, set_heap, written. cbn.
    now rewrite <- !app_assoc.
  - exists ext. unfold set_canvas, set_heap, written. cbn. now rewrite Hca, app_nil_r.
Qed.

Lemma figure_runs (w : World) :
  runs_as w ((draw 4 (Decorate "suptitle");;
              draw 4 (Decorate "figtext");;
              savefig "22077669.png";;
              draw 4 (Decorate "show")) w) (figure_calls, Ok tt).
Proof.
  exists []. unfold draw, savefig, mbind, M_bind, figure_calls, written, image_file. cbn.
  now rewrite app_nil_r, <- !app_assoc.
Qed.

Lemma lookup_extended (h ext : list DataFrame) (l : loc) (df : DataFrame) (w1 : World) :
  h !! l = Some df -> (exists ext, heap w1 = h ++ ext) -> heap w1 !! l = Some df.
Proof.
  intros H [ext' ->]. rewrite lookup_app_l; [exact H|].
  eapply lookup_lt_Some; eassumption.
Qed.

(** The four builders and the export, run on a heap that holds the
    WideTable. *)
Lemma panels_run (l : loc) (w : World) (wide : DataFrame) :
  heap w !! l = Some wide ->
  runs_as w
    ((barplot_urban_growth_data 0 l;;
      lineplot_urban_growth_data 1 l;;
      pie_chart_largest_city_population 2 l;;
      histogram_rural_population 3 l;;
      draw 4 (Decorate "suptitle");;
      draw 4 (Decorate "figtext");;
      savefig "22077669.png";;
      draw 4 (Decorate "show")) w)
    (then_chart (barplot_chart 0 wide)
       (then_chart (lineplot_chart 1 wide)
          (then_chart (pie_chart 2 wide)
             (then_chart (histogram_chart 3 wide) (figure_calls, Ok tt))))).
Proof.
  intros H.
  apply runs_as_seq; [now apply barplot_traced|]. intros w1 H1.
  pose proof (lookup_extended _ [] _ _ w1 H H1) as Hl1.
  apply runs_as_seq; [now apply lineplot_traced|]. intros w2 H2.
  pose proof (lookup_extended _ [] _ _ w2 Hl1 H2) as Hl2.
  apply runs_as_seq; [now apply pie_traced|]. intros w3 H3.
  pose proof (lookup_extended _ [] _ _ w3 Hl2 H3) as Hl3.
  apply runs_as_seq; [now apply histogram_traced|]. intros w4 _.
  apply figure_runs.
Qed.

(** The script on a world that holds the file. *)
Lemma main_run (w : World) (raw : DataFrame) :
  lookup_file population_data_path (files w) = Some raw ->
  runs_as w (main w) (infographic raw).
Proof.
  intros Hfile. unfold main, infographic.
  rewrite bind_run, (process_run _ _ _ Hfile).
  destruct (wide_table raw) as [wide|e].
  - destruct (transposed_companion wide) as [t|e].
    + cbn [fst].
      destruct (panels_run (S (length (heap w))) (set_heap (heap w ++ [raw; wide]) w) wide)
        as [ext Hrun]; [rewrite heap_set_heap; apply lookup_second|].
      rewrite Hrun. exists ([raw; wide] ++ ext). cbn [files heap canvas saved set_heap].
      now rewrite <- app_assoc.
    + exists [raw; wide]. unfold written. cbn. now rewrite !app_nil_r.
  - exists [raw; pd.iloc_stop_neg 5 raw]. unfold written. cbn. now rewrite !app_nil_r.
Qed.

(** X2: the image file is written exactly when the script raises nothing:
    after a run that ends well the file is the one thing added to the
    files written, after a run that raises nothing was written. *)
Theorem main_writes_image_iff_ok (w : World) :
  match snd (main w) with
  | Ok _ => saved (fst (main w)) = saved w ++ ["22077669.png"]
  | Err _ => saved (fst (main w)) = saved w
  end.
Proof.
  destruct (lookup_file population_data_path (files w)) as [raw|] eqn:Hfile.
  - destruct (main_run w raw Hfile) as [ext ->]. cbn [fst snd saved].
    unfold written. destruct (snd (infographic raw)); [reflexivity | apply app_nil_r].
  - unfold main, process_world_bank_data, read_csv. rewrite !bind_run, Hfile.
    now destruct (lookup_error population_data_path (unreadable w)).
Qed.

(** ** The long table *)

Lemma mapM_map_ok {A B C : Type} (conv : B -> result C) (h : A -> B) (g : A -> C)
    (l : list A) :
  (forall x, In x l -> conv (h x) = Ok (g x)) -> mapM conv (map h l) = Ok (map g l).
Proof.
  induction l as [|x l IH]; intros H; cbn [mapM map]; [reflexivity|].
  rewrite (H x (or_introl eq_refl)), IH; [reflexivity|].
  intros y Hy. apply H. now right.
Qed.

(** A column assignment whose conversion succeeds on every cell. *)
Lemma astype_with (conv : value -> result value) (label : string) (f : DataFrame)
    (g : Z * list value -> value) :
  mem label (columns f) = true ->
  (forall r, In r (rows f) -> conv (pd.cell_of f label r) = Ok (g r)) ->
  astype conv label f
  = Ok (mkFrame (columns f) (map (fun r => with_cell (columns f) label (g r) r) (rows f))).
Proof.
  intros H Hconv. destruct (get_loc_mem label (columns f) H) as [j [Hj _]].
  unfold astype, pd.getitem. rewrite Hj. cbn [mbind result_bind].
  rewrite (mapM_map_ok conv (cell j) g (rows f)).
  - cbn [mbind result_bind]. unfold pd.setitem, nrows. rewrite length_map, Nat.eqb_refl.
    change (existsb (String.eqb label) (columns f)) with (mem label (columns f)). rewrite H.
    f_equal. f_equal. now rewrite (combine_map_self g), map_map.
  - intros r Hr. rewrite <- (Hconv r Hr). unfold pd.cell_of. now rewrite Hj.
Qed.

Lemma map_lift_combine {A : Type} (G : list value -> list value) (idx : list A)
    (cells : list (list value)) :
  map (fun r => (fst r, G (snd r))) (combine idx cells) = combine idx (map G cells).
Proof.
  revert cells. induction idx as [|i idx IH]; intros [|c cells]; cbn; try reflexivity.
  now rewrite IH.
Qed.

Lemma range_index_map (G : list value -> list value) (cells : list (list value)) :
  map (fun r => (fst r, G (snd r))) (range_index cells) = range_index (map G cells).
Proof.
  unfold range_index. now rewrite length_map, map_lift_combine.
Qed.

Lemma existsb_combine_snd {A B : Type} (P : B -> bool) (idx : list A) (cells : list B) :
  length idx = length cells ->
  existsb (fun r => P (snd r)) (combine idx cells) = existsb P cells.
Proof.
  revert cells. induction idx as [|i idx IH]; intros [|c cells] H; cbn in *;
    try reflexivity; try discriminate.
  rewrite IH; [reflexivity | lia].
Qed.

Lemma existsb_range_index (P : list value -> bool) (cells : list (list value)) :
  existsb (fun r => P (snd r)) (range_index cells) = existsb P cells.
Proof.
  unfold range_index. apply existsb_combine_snd. now rewrite length_map, length_seq.
Qed.

Lemma in_range_index (r : Z * list value) (cells : list (list value)) :
  In r (range_index cells) -> In (snd r) cells.
Proof.
  unfold range_index. destruct r as [i c]. intros H. now apply in_combine_r in H.
Qed.

Lemma existsb_same {A : Type} (f g : A -> bool) (l : list A) :
  (forall x, f x = g x) -> existsb f l = existsb g l.
Proof.
  intros H. induction l as [|x l IH]; cbn; [reflexivity | now rewrite H, IH].
Qed.

Lemma existsb_flat_map {A B : Type} (P : B -> bool) (f : A -> list B) (l : list A) :
  existsb P (flat_map f l) = existsb (fun x => existsb P (f x)) l.
Proof.
  induction l as [|x l IH]; cbn; [reflexivity | now rewrite existsb_app, IH].
Qed.

Lemma existsb_map {A B : Type} (P : B -> bool) (f : A -> B) (l : list A) :
  existsb P (map f l) = existsb (fun x => P (f x)) l.
Proof.
  induction l as [|x l IH]; cbn; [reflexivity | now rewrite IH].
Qed.

Lemma map_flat_map_map {A B C D : Type} (G : C -> D) (h : A -> B -> C) (k : A -> B -> D)
    (l : list A) (rows : list B) :
  (forall x r, G (h x r) = k x r) ->
  map G (flat_map (fun x => map (h x) rows) l) = flat_map (fun x => map (k x) rows) l.
Proof.
  intros H. induction l as [|x l IH]; cbn; [reflexivity|].
  rewrite map_app, IH, map_map. f_equal. apply map_ext. intros r. apply H.
Qed.

Lemma year_value_ok (y : string) : In y years -> pd.to_int (VStr y) = Ok (year_value y).
Proof.
  intros H. cbn in H.
  destruct H as [<-|[<-|[<-|[<-|[<-|[]]]]]]; reflexivity.
Qed.

(** The rows of the melted frame after the measure is coerced. *)
Lemma melted_float_rows (V : string) (cells : list (list value)) (val : list value -> value) :
  String.eqb V "Country" = false -> String.eqb V "Year" = false ->
  (forall c, In c cells -> exists a b m, c = [a; b; m]) ->
  map (fun r => with_cell ["Country"; "Year"; V] V (val (snd r)) r) (range_index cells)
  = range_index (map (fun c => [nth 0 c VNaN; nth 1 c VNaN; val c]) cells).
Proof.
  intros HC HY Hshape.
  rewrite <- (range_index_map (fun c => [nth 0 c VNaN; nth 1 c VNaN; val c])).
  apply map_ext_in. intros r Hr. apply in_range_index in Hr.
  destruct (Hshape _ Hr) as [a [b [m Hc]]].
  unfold with_cell. rewrite Hc. cbn. now rewrite HC, HY, String.eqb_refl.
Qed.

Lemma melted_year_rows (V : string) (cells : list (list value)) (val : list value -> value) :
  String.eqb V "Year" = false ->
  (forall c, In c cells -> exists a b m, c = [a; b; m]) ->
  map (fun r => with_cell ["Country"; "Year"; V] "Year" (val (snd r)) r) (range_index cells)
  = range_index (map (fun c => [nth 0 c VNaN; val c; nth 2 c VNaN]) cells).
Proof.
  intros HY Hshape.
  rewrite <- (range_index_map (fun c => [nth 0 c VNaN; val c; nth 2 c VNaN])).
  apply map_ext_in. intros r Hr. apply in_range_index in Hr.
  destruct (Hshape _ Hr) as [a [b [m Hc]]].
  unfold with_cell. rewrite Hc. cbn [length pad seq map nth combine fst snd].
  rewrite String.eqb_sym in HY. now rewrite HY.
Qed.

Lemma get_loc_value_name (V : string) :
  String.eqb V "Country" = false -> String.eqb V "Year" = false ->
  get_loc V ["Country"; "Year"; V] = Some 2
  /\ get_loc "Year" ["Country"; "Year"; V] = Some 1
  /\ mem V ["Country"; "Year"; V] = true
  /\ mem "Year" ["Country"; "Year"; V] = true.
Proof.
  intros HC HY. unfold mem. cbn [get_loc existsb].
  rewrite (String.eqb_sym "Country" V), (String.eqb_sym "Year" V), HC, HY, String.eqb_refl.
  repeat split.
Qed.

(** The data preparation of the bar chart, the line chart and the
    histogram in closed form. *)
Lemma long_table_closed_form (series V : string) (df : DataFrame) :
  String.eqb V "Country" = false -> String.eqb V "Year" = false ->
  long_table series V df
  = if mem "Series" (columns df) then
      match missing ("Country" :: years) (columns df) with
      | [] =>
          if text_measure series df then Err (ValueError could_not_convert)
          else Ok (mkFrame ["Country"; "Year"; V] (range_index (long_cells series df)))
      | m => Err (KeyError m)
      end
    else Err (KeyError ["Series"]).
Proof.
  intros HC HY. destruct (get_loc_value_name V HC HY) as [HjV [HjY [HmV HmY]]].
  unfold long_table.
  destruct (mem "Series" (columns df)) eqn:Hs;
    [|now rewrite (filter_eq_missing _ _ _ Hs)].
  rewrite (filter_eq_ok _ _ _ Hs). cbn [mbind result_bind].
  unfold pd.melt. cbn [columns rows app].
  change (List.filter (fun l => negb (mem l (columns df))) ("Country" :: years))
    with (missing ("Country" :: years) (columns df)).
  destruct (missing ("Country" :: years) (columns df)) as [|m0 m]; [|reflexivity].
  cbn [mbind result_bind].
  set (srows := rows_where "Series" series df).
  set (cells0 := flat_map _ years).
  set (cols3 := ["Country"; "Year"; V]) in *.
  set (M := mkFrame cols3 (range_index cells0)).
  assert (Hshape0 : forall c, In c cells0 ->
            exists y r, In y years
                        /\ c = [pd.cell_of df "Country" r; VStr y; pd.cell_of df y r]).
  { intros c Hc. apply in_flat_map in Hc. destruct Hc as [y [Hy Hc]].
    apply in_map_iff in Hc. destruct Hc as [r [<- _]]. now exists y, r. }
  assert (HcellV : forall r, pd.cell_of M V r = nth 2 (snd r) VNaN).
  { intros r. unfold pd.cell_of. cbn [columns M]. now rewrite HjV. }
  assert (Htext : existsb (fun r => not_a_number (pd.cell_of M V r)) (rows M)
                  = text_measure series df).
  { rewrite (existsb_same _ (fun r => not_a_number (nth 2 (snd r) VNaN)))
      by (intros r; now rewrite HcellV).
    cbn [rows M].
    rewrite (existsb_range_index (fun c => not_a_number (nth 2 c VNaN))).
    unfold cells0. rewrite existsb_flat_map. unfold text_measure.
    apply existsb_same. intros y. now rewrite existsb_map. }
  rewrite (astype_float_outcome V M HmV), Htext.
  destruct (text_measure series df); [reflexivity|].
  cbn [mbind result_bind].
  set (G1 := fun c : list value => [nth 0 c VNaN; nth 1 c VNaN; coerce (nth 2 c VNaN)]).
  assert (Hrows1 : coerced_rows V M = range_index (map G1 cells0)).
  { unfold coerced_rows, G1. cbn [rows columns M].
    rewrite <- (melted_float_rows V cells0 (fun c => coerce (nth 2 c VNaN)) HC HY).
    - apply map_ext. intros r. now rewrite HcellV.
    - intros c Hc. destruct (Hshape0 c Hc) as [y [r [_ ->]]]. now eexists _, _, _. }
  rewrite Hrows1. cbn [columns M].
  set (M1 := mkFrame cols3 (range_index (map G1 cells0))).
  set (val2 := fun c : list value => match pd.to_int (nth 1 c VNaN) with
                                     | Ok v => v
                                     | Err _ => VNaN
                                     end).
  rewrite (astype_with pd.to_int "Year" M1 (fun r => val2 (snd r)) HmY).
  - f_equal. f_equal. cbn [rows columns M1]. unfold cols3.
    rewrite (melted_year_rows V (map G1 cells0) val2 HY).
    + f_equal. rewrite map_map. unfold cells0, long_cells.
      apply map_flat_map_map. intros y r. reflexivity.
    + intros c Hc. apply in_map_iff in Hc. destruct Hc as [c0 [<- _]].
      now eexists _, _, _.
  - intros r Hr. cbn [rows M1] in Hr. apply in_range_index in Hr.
    apply in_map_iff in Hr. destruct Hr as [c0 [Hc0 Hin]].
    destruct (Hshape0 c0 Hin) as [y [r0 [Hy ->]]].
    unfold pd.cell_of. cbn [columns M1]. rewrite HjY. unfold cell, val2.
    rewrite <- Hc0. cbn [G1 nth]. rewrite (year_value_ok y Hy). reflexivity.
Qed.


Lemma traced_out (w : World) (out : World * result unit) (c : chart) :
  traced w out c ->
  snd out = snd c /\ canvas (fst out) = canvas w ++ fst c
  /\ saved (fst out) = saved w /\ files (fst out) = files w.
Proof. intros [ext ->]. now repeat split. Qed.

Lemma coerce_float_or_missing (v : value) :
  coerce v = VNaN \/ exists q, coerce v = VFloat q.
Proof.
  unfold coerce, to_float. destruct v as [|s|z|q]; cbn; eauto.
  destruct (float_of_string s); eauto.
Qed.

Lemma year_value_range (y : string) :
  In y years -> exists z, year_value y = VInt z /\ (2015 <= z <= 2019)%Z.
Proof.
  intros H. cbn in H.
  destruct H as [<-|[<-|[<-|[<-|[<-|[]]]]]]; eexists;
    (split; [reflexivity | split; apply Z.leb_le; reflexivity]).
Qed.

Lemma length_flat_map_const {A B : Type} (f : A -> list B) (l : list A) (n : nat) :
  (forall x, length (f x) = n) -> length (flat_map f l) = length l * n.
Proof.
  intros H. induction l as [|x l IH]; cbn; [reflexivity|].
  rewrite length_app, IH, H. reflexivity.
Qed.

Lemma length_range_index (cells : list (list value)) :
  length (range_index cells) = length cells.
Proof.
  unfold range_index. rewrite length_combine, length_map, length_seq. lia.
Qed.

(** X10: on a WideTable with distinct labels, none of them the name of
    the measure, the long table a builder plots has the columns Country,
    Year and the measure, and five rows for every row of the series in the
    WideTable: rows whose measure is missing are kept.  In every row the
    year is an integer from 2015 to 2019 and the measure is a float or
    missing. *)
Theorem long_table_shape (series V : string) (df data : DataFrame) :
  String.eqb V "Country" = false -> String.eqb V "Year" = false ->
  distinct (columns df) = true ->
  mem V (columns df) = false ->
  long_table series V df = Ok data ->
  columns data = ["Country"; "Year"; V]
  /\ nrows data = 5 * length (rows_where "Series" series df)
  /\ Forall (fun r => exists a z m,
                        snd r = [a; VInt z; m] /\ (2015 <= z <= 2019)%Z
                        /\ (m = VNaN \/ exists q, m = VFloat q))
            (rows data).
Proof.
  intros HC HY _ _. rewrite (long_table_closed_form series V df HC HY).
  destruct (mem "Series" (columns df)); [|discriminate].
  destruct (missing ("Country" :: years) (columns df)); [|discriminate].
  destruct (text_measure series df); [discriminate|].
  intros [= <-]. cbn [columns rows nrows]. split; [reflexivity|]. split.
  - unfold nrows. cbn [rows]. rewrite length_range_index. unfold long_cells.
    rewrite (length_flat_map_const _ years (length (rows_where "Series" series df)))
      by (intros y; now rewrite length_map).
    cbn [length years]. lia.
  - apply List.Forall_forall. intros r Hr. apply in_range_index in Hr.
    unfold long_cells in Hr. apply in_flat_map in Hr. destruct Hr as [y [Hy Hr]].
    apply in_map_iff in Hr. destruct Hr as [r0 [<- _]].
    destruct (year_value_range y Hy) as [z [Hz Hrange]].
    exists (pd.cell_of df "Country" r0), z, (coerce (pd.cell_of df y r0)).
    rewrite Hz. split; [reflexivity|]. split; [exact Hrange|].
    apply coerce_float_or_missing.
Qed.

Lemma melted_chart_outcome (series V : string) (plot : DataFrame -> list (nat * DrawCall))
    (df : DataFrame) :
  String.eqb V "Country" = false -> String.eqb V "Year" = false ->
  snd (melted_chart series V plot df) = melted_outcome series df
  /\ (melted_outcome series df <> Ok tt -> fst (melted_chart series V plot df) = []).
Proof.
  intros HC HY. unfold melted_chart, melted_outcome.
  rewrite (long_table_closed_form series V df HC HY).
  destruct (mem "Series" (columns df)); [|split; [reflexivity | reflexivity]].
  destruct (missing ("Country" :: years) (columns df)); [|split; reflexivity].
  destruct (text_measure series df); split; try reflexivity. congruence.
Qed.

(** X8: how the bar chart, the line chart and the histogram builder end
    on a WideTable whose labels are distinct and hold no space.
    Without a "Series" column they raise its KeyError; without one of
    "Country", "2015", ..., "2019" they raise the KeyError that lists the
    missing ones, whether or not the series has rows; with the columns
    they raise the conversion error when a measure of the series is text
    that spells no number, and return otherwise: a missing measure stops
    none of them.  A builder that raises has drawn nothing. *)
Theorem melting_builders_outcome (ax : nat) (l : loc) (w : World) (df : DataFrame) :
  heap w !! l = Some df ->
  wide_labels df = true ->
  let bar := barplot_urban_growth_data ax l w in
  let line := lineplot_urban_growth_data ax l w in
  let hist := histogram_rural_population ax l w in
  (snd bar = melted_outcome urban_growth df
   /\ (snd bar <> Ok tt -> canvas (fst bar) = canvas w))
  /\ (snd line = melted_outcome urban_growth df
      /\ (snd line <> Ok tt -> canvas (fst line) = canvas w))
  /\ (snd hist = melted_outcome rural_population df
      /\ (snd hist <> Ok tt -> canvas (fst hist) = canvas w)).
Proof.
  intros H _. cbv zeta.
  destruct (traced_out _ _ _ (barplot_traced ax l w df H)) as [Hb [Hbc _]].
  destruct (traced_out _ _ _ (lineplot_traced ax l w df H)) as [Hl [Hlc _]].
  destruct (traced_out _ _ _ (histogram_traced ax l w df H)) as [Hh [Hhc _]].
  rewrite Hb, Hl, Hh, Hbc, Hlc, Hhc.
  unfold barplot_chart, lineplot_chart, histogram_chart.
  destruct (melted_chart_outcome urban_growth "Urban Population Growth (Annual %)"
              (barplot_calls ax) df eq_refl eq_refl) as [-> Hb'].
  destruct (melted_chart_outcome urban_growth "Urban Population Growth (Annual %)"
              (lineplot_calls ax) df eq_refl eq_refl) as [-> Hl'].
  destruct (melted_chart_outcome rural_population "Rural Population"
              (histogram_calls ax) df eq_refl eq_refl) as [-> Hh'].
  repeat split; intros Hne;
    [rewrite (Hb' Hne) | rewrite (Hl' Hne) | rewrite (Hh' Hne)]; apply app_nil_r.
Qed.

Lemma long_table_empty (series V : string) (df : DataFrame) :
  String.eqb V "Country" = false -> String.eqb V "Year" = false ->
  has_columns ("Series" :: "Country" :: years) df = true ->
  rows_where "Series" series df = [] ->
  long_table series V df = Ok (empty_long_table V).
Proof.
  intros HC HY Hcols Hempty. rewrite (long_table_closed_form series V df HC HY).
  destruct (has_columns_cons _ _ _ Hcols) as [-> Hrest].
  pose proof (proj1 (has_columns_In _ _) Hrest) as Hin.
  rewrite (proj2 (missing_nil _ _) Hin).
  unfold text_measure, long_cells. rewrite Hempty. reflexivity.
Qed.

Lemma top_countries_empty (df : DataFrame) :
  has_columns ["Series"; "2019"] df = true ->
  non_missing_2019 df = [] ->
  top_countries_table df = Ok (mkFrame (columns df) []).
Proof.
  intros Hcols Hempty. rewrite (top_countries_table_outcome df Hcols).
  destruct (has_columns_cons _ _ _ Hcols) as [_ Hrest].
  destruct (has_columns_cons _ _ _ Hrest) as [Hy _].
  destruct (get_loc_mem "2019" _ Hy) as [j [-> _]].
  unfold coerced_rows. rewrite Hempty. reflexivity.
Qed.

(** X11: a series without rows, on a WideTable whose labels are distinct
    and hold no space and that has the columns the builders read.  The bar chart, the line chart and
    the histogram builder reach their plotting call and hand it the long
    table without rows.  The pie builder, when no largest-city row has a
    2019 value, hands the pie no size: the pie refuses ("All wedge sizes
    are zero"), the builder raises and nothing is drawn. *)
Theorem builders_on_empty_series (ax : nat) (l : loc) (w : World) (df : DataFrame) :
  heap w !! l = Some df ->
  has_columns ("Series" :: "Country" :: years) df = true ->
  wide_labels df = true ->
  (rows_where "Series" urban_growth df = [] ->
   snd (barplot_urban_growth_data ax l w) = Ok tt
   /\ canvas (fst (barplot_urban_growth_data ax l w))
      = canvas w ++ barplot_calls ax (empty_long_table "Urban Population Growth (Annual %)")
   /\ snd (lineplot_urban_growth_data ax l w) = Ok tt
   /\ canvas (fst (lineplot_urban_growth_data ax l w))
      = canvas w ++ lineplot_calls ax (empty_long_table "Urban Population Growth (Annual %)"))
  /\ (non_missing_2019 df = [] ->
      snd (pie_chart_largest_city_population ax l w) = Err (ValueError all_zero)
      /\ canvas (fst (pie_chart_largest_city_population ax l w)) = canvas w)
  /\ (rows_where "Series" rural_population df = [] ->
      snd (histogram_rural_population ax l w) = Ok tt
      /\ canvas (fst (histogram_rural_population ax l w))
         = canvas w ++ histogram_calls ax (empty_long_table "Rural Population")).
Proof.
  intros H Hcols _.
  destruct (traced_out _ _ _ (barplot_traced ax l w df H)) as [Hb [Hbc _]].
  destruct (traced_out _ _ _ (lineplot_traced ax l w df H)) as [Hl [Hlc _]].
  destruct (traced_out _ _ _ (pie_traced ax l w df H)) as [Hp [Hpc _]].
  destruct (traced_out _ _ _ (histogram_traced ax l w df H)) as [Hh [Hhc _]].
  rewrite Hb, Hl, Hp, Hh, Hbc, Hlc, Hpc, Hhc.
  unfold barplot_chart, lineplot_chart, histogram_chart, melted_chart, pie_chart.
  split; [|split].
  - intros He.
    rewrite (long_table_empty urban_growth "Urban Population Growth (Annual %)" df
               eq_refl eq_refl Hcols He).
    now repeat split.
  - intros He.
    assert (Hcols' : has_columns ["Series"; "2019"] df = true).
    { pose proof (proj1 (has_columns_In _ _) Hcols) as Hin.
      apply has_columns_In. intros c Hc. apply Hin. cbn in *. intuition. }
    rewrite (top_countries_empty df Hcols' He). unfold pie_wedges.
    assert (Hy : mem "2019" (columns df) = true).
    { apply mem_In. apply (proj1 (has_columns_In _ _) Hcols). cbn. tauto. }
    destruct (get_loc_mem "2019" _ Hy) as [jy [Hjy _]].
    rewrite (getitem_get_loc (mkFrame (columns df) []) "2019" jy Hjy).
    cbn [rows map mbind result_bind fst snd]. split; [reflexivity | apply app_nil_r].
  - intros He.
    rewrite (long_table_empty rural_population "Rural Population" df
               eq_refl eq_refl Hcols He).
    now split.
Qed.

(** X9: the table the bar chart, the line chart and the histogram builder
    hand to seaborn when their data preparation, on a WideTable whose
    labels are distinct and hold no space, ends well: the columns
    Country, Year and the measure; one block of rows per year from 2015 to
    2019, each with the rows of the series in the order of the WideTable;
    the year as an integer, the measure as a float, a missing measure
    kept as missing; a fresh index from 0. *)
Theorem melting_builders_plot (ax : nat) (l : loc) (w : World) (df : DataFrame) :
  heap w !! l = Some df ->
  wide_labels df = true ->
  (melted_outcome urban_growth df = Ok tt ->
   canvas (fst (barplot_urban_growth_data ax l w))
   = canvas w ++ barplot_calls ax
                   (long_form urban_growth "Urban Population Growth (Annual %)" df)
   /\ canvas (fst (lineplot_urban_growth_data ax l w))
      = canvas w ++ lineplot_calls ax
                      (long_form urban_growth "Urban Population Growth (Annual %)" df))
  /\ (melted_outcome rural_population df = Ok tt ->
      canvas (fst (histogram_rural_population ax l w))
      = canvas w ++ histogram_calls ax (long_form rural_population "Rural Population" df)).
Proof.
  intros H _.
  destruct (traced_out _ _ _ (barplot_traced ax l w df H)) as [_ [Hbc _]].
  destruct (traced_out _ _ _ (lineplot_traced ax l w df H)) as [_ [Hlc _]].
  destruct (traced_out _ _ _ (histogram_traced ax l w df H)) as [_ [Hhc _]].
  rewrite Hbc, Hlc, Hhc.
  unfold barplot_chart, lineplot_chart, histogram_chart, melted_chart, melted_outcome.
  rewrite (long_table_closed_form urban_growth "Urban Population Growth (Annual %)" df
             eq_refl eq_refl),
    (long_table_closed_form rural_population "Rural Population" df eq_refl eq_refl).
  destruct (mem "Series" (columns df)); [|split; discriminate].
  destruct (missing ("Country" :: years) (columns df)); [|split; discriminate].
  split.
  - destruct (text_measure urban_growth df); [discriminate|]. now split.
  - destruct (text_measure rural_population df); [discriminate | reflexivity].
Qed.

Lemma top_countries_table_columns (df top : DataFrame) :
  top_countries_table df = Ok top -> columns top = columns df.
Proof.
  destruct (mem "Series" (columns df)) eqn:Hs.
  - destruct (mem "2019" (columns df)) eqn:Hy.
    + assert (Hcols : has_columns ["Series"; "2019"] df = true)
        by (unfold has_columns; cbn [forallb]; now rewrite Hs, Hy).
      rewrite (top_countries_table_outcome df Hcols).
      destruct (existsb _ (non_missing_2019 df)); [discriminate|].
      destruct (get_loc "2019" (columns df)); [|discriminate].
      now intros [= <-].
    + unfold top_countries_table, largest_city_kept.
      rewrite (filter_eq_ok _ _ _ Hs). cbn [mbind result_bind].
      rewrite dropna_missing by exact Hy. discriminate.
  - unfold top_countries_table, largest_city_kept.
    rewrite (filter_eq_missing _ _ _ Hs). discriminate.
Qed.

Lemma top_countries_table_error (df : DataFrame) (e : error) :
  top_countries_table df = Err e -> e <> KeyError ["Country"].
Proof.
  destruct (mem "Series" (columns df)) eqn:Hs.
  - destruct (mem "2019" (columns df)) eqn:Hy.
    + assert (Hcols : has_columns ["Series"; "2019"] df = true)
        by (unfold has_columns; cbn [forallb]; now rewrite Hs, Hy).
      rewrite (top_countries_table_outcome df Hcols).
      destruct (existsb _ (non_missing_2019 df)); [intros [= <-]; discriminate|].
      destruct (get_loc "2019" (columns df)); [discriminate | intros [= <-]; discriminate].
    + unfold top_countries_table, largest_city_kept.
      rewrite (filter_eq_ok _ _ _ Hs). cbn [mbind result_bind].
      rewrite dropna_missing by exact Hy. intros [= <-]. discriminate.
  - unfold top_countries_table, largest_city_kept.
    rewrite (filter_eq_missing _ _ _ Hs). intros [= <-]. discriminate.
Qed.

Lemma pie_wedges_error (top : DataFrame) (e : error) :
  pie_wedges top = Err e -> e <> KeyError ["Country"].
Proof.
  unfold pie_wedges.
  destruct (pd.getitem "2019" top) as [x|e0] eqn:Hx; cbn [mbind result_bind].
  - unfold pie_percentages. destruct (existsb is_negative x); [intros [= <-]; discriminate|].
    destruct (all_floats x) as [qs|]; [|intros [= <-]; discriminate].
    destruct (Qeq_bool (Qsum qs) 0); [intros [= <-]; discriminate | discriminate].
  - apply getitem_error in Hx. subst e0. intros [= <-]. discriminate.
Qed.

(** X13: the pie builder draws the pie before it asks for the countries.
    When it raises the KeyError of "Country", the WideTable has no such
    column and the pie and its axis setting are on the canvas, without
    legend and title; every other error of the builder leaves the canvas
    as it was. *)
Theorem pie_drawn_before_legend (ax : nat) (l : loc) (w : World) (df : DataFrame) :
  heap w !! l = Some df ->
  let run := pie_chart_largest_city_population ax l w in
  (snd run = Err (KeyError ["Country"]) ->
   mem "Country" (columns df) = false
   /\ exists x pct,
        canvas (fst run) = canvas w ++ [(ax, Pie x pct); (ax, Decorate "axis")])
  /\ (forall e, snd run = Err e -> e <> KeyError ["Country"] ->
                canvas (fst run) = canvas w).
Proof.
  intros H. cbv zeta.
  destruct (traced_out _ _ _ (pie_traced ax l w df H)) as [Hp [Hpc _]].
  rewrite Hp, Hpc. unfold pie_chart.
  destruct (top_countries_table df) as [top|e0] eqn:Htop; cbn [fst snd].
  - pose proof (top_countries_table_columns df top Htop) as Hcols.
    destruct (pie_wedges top) as [[x pct]|e1] eqn:Hw; cbn [fst snd].
    + destruct (pd.getitem "Country" top) as [labels|e2] eqn:Hc; cbn [fst snd].
      * split; [discriminate|]. intros e He. discriminate.
      * pose proof (getitem_error _ _ _ Hc) as ->. split.
        -- intros _. split; [|now exists x, pct].
           unfold pd.getitem in Hc. rewrite Hcols in Hc.
           destruct (mem "Country" (columns df)) eqn:Hm; [|reflexivity].
           destruct (get_loc_mem _ _ Hm) as [j [Hj _]]. rewrite Hj in Hc. discriminate.
        -- intros e [= <-] Hne. congruence.
    + split.
      * intros [= ->]. now apply pie_wedges_error in Hw.
      * intros e _ _. apply app_nil_r.
  - split.
    + intros [= ->]. now apply top_countries_table_error in Htop.
    + intros e _ _. apply app_nil_r.
Qed.

Lemma melted_chart_on_axes (series V : string) (plot : DataFrame -> list (nat * DrawCall))
    (ax : nat) (df : DataFrame) :
  (forall data, Forall (fun c => fst c = ax) (plot data)) ->
  Forall (fun c => fst c = ax) (fst (melted_chart series V plot df)).
Proof.
  intros Hplot. unfold melted_chart. destruct (long_table series V df); cbn [fst]; auto.
Qed.

Lemma pie_chart_on_axes (ax : nat) (df : DataFrame) :
  Forall (fun c => fst c = ax) (fst (pie_chart ax df)).
Proof.
  unfold pie_chart, pie_calls. destruct (top_countries_table df) as [top|]; cbn [fst]; auto.
  destruct (pie_wedges top) as [[x pct]|]; cbn [fst]; auto.
  destruct (pd.getitem "Country" top); cbn [fst]; repeat constructor.
Qed.

Lemma traced_confined (ax : nat) (w : World) (out : World * result unit) (c : chart) :
  traced w out c -> Forall (fun d => fst d = ax) (fst c) -> confined ax w (fst out).
Proof.
  intros [ext ->] Hax. unfold confined, draws_on. cbn.
  repeat split; [now exists ext | now exists (fst c)].
Qed.

(** X14: a builder is confined to its chart: whether it returns or raises,
    it writes no image, leaves the files and every frame that was on the
    heap as they were (its own frames are new ones), and every call it
    adds to the canvas is on the Axes it was given. *)
Theorem builders_are_confined (ax : nat) (l : loc) (w : World) (df : DataFrame) :
  heap w !! l = Some df ->
  confined ax w (fst (barplot_urban_growth_data ax l w))
  /\ confined ax w (fst (lineplot_urban_growth_data ax l w))
  /\ confined ax w (fst (pie_chart_largest_city_population ax l w))
  /\ confined ax w (fst (histogram_rural_population ax l w)).
Proof.
  intros H. split; [|split; [|split]].
  - apply (traced_confined ax w _ _ (barplot_traced ax l w df H)).
    apply melted_chart_on_axes. intros data. repeat constructor.
  - apply (traced_confined ax w _ _ (lineplot_traced ax l w df H)).
    apply melted_chart_on_axes. intros data. repeat constructor.
  - apply (traced_confined ax w _ _ (pie_traced ax l w df H)).
    apply pie_chart_on_axes.
  - apply (traced_confined ax w _ _ (histogram_traced ax l w df H)).
    apply melted_chart_on_axes. intros data. repeat constructor.
Qed.


(** ** The reshaping routine, outcome by outcome *)

Lemma wide_table_raises (raw : DataFrame) (m0 : string) (m : list string) :
  missing dropped_columns (columns raw) = m0 :: m ->
  wide_table raw = Err (KeyError (m0 :: m)).
Proof.
  intros Hm. unfold wide_table, pd.drop.
  change (List.filter (fun l => negb (mem l (columns (pd.iloc_stop_neg 5 raw)))) dropped_columns)
    with (missing dropped_columns (columns raw)).
  now rewrite Hm.
Qed.

Lemma keeps_no_column_retained (f : DataFrame) :
  keeps_a_column f = false -> retained dropped_columns (columns f) = [].
Proof.
  intros Hk. destruct (retained dropped_columns (columns f)) as [|c0 cs] eqn:Hret;
    [reflexivity|].
  assert (Hin : In c0 (retained dropped_columns (columns f))) by (rewrite Hret; now left).
  apply filter_In in Hin. destruct Hin as [Hin Hkeep].
  assert (Hex : keeps_a_column f = true) by (apply existsb_exists; now exists c0).
  congruence.
Qed.

(** X4: how [process_world_bank_data] ends on a file that parses.  It
    raises the KeyError of [drop], which lists the columns to drop that the
    table lacks, in the order of the list; with those columns and no other
    it raises the IndexError of [iloc[0]]; when a kept header after the
    first gives a label that passes [str.isnumeric] and that
    [pd.to_numeric] does not read (a superscript, a fraction, digits that
    spell a number of 2^64 or more) it raises a ValueError; in every other
    case it returns, whatever the rows hold and however many they are. *)
Theorem process_world_bank_data_raises (path : string) (w : World) (raw : DataFrame) :
  lookup_file path (files w) = Some raw ->
  let outcome := raised (snd (process_world_bank_data path w)) in
  match missing dropped_columns (columns raw) with
  | [] =>
      if keeps_a_column raw then
        if headers_parse raw then outcome = None
        else exists msg, outcome = Some (ValueError msg)
      else outcome = Some IndexError
  | m => outcome = Some (KeyError m)
  end.
Proof.
  intros Hfile. cbv zeta. rewrite (process_run _ _ _ Hfile).
  destruct (missing dropped_columns (columns raw)) as [|m0 m] eqn:Hm.
  - assert (Hcols : has_columns dropped_columns raw = true)
      by (apply has_columns_In, missing_nil, Hm).
    destruct (wide_table_ok raw Hcols) as [wide Hwide]. rewrite Hwide.
    destruct (wide_table_inv raw wide Hwide) as [Hc _]. cbn [snd].
    destruct (keeps_a_column raw) eqn:Hkeep.
    + destruct (keeps_a_column_retained raw Hkeep) as [c0 [cs Hret]].
      rewrite Hret in Hc. cbn [map] in Hc.
      rewrite <- (headers_parse_labels raw wide _ _ Hwide Hc).
      destruct (forallb parses (map split_first cs)) eqn:Hparse.
      * destruct (transposed_companion_ok wide _ _ Hc Hparse) as [t [-> _]]. reflexivity.
      * destruct (transposed_companion_fails wide _ _ Hc Hparse) as [msg ->].
        now exists msg.
    + rewrite (keeps_no_column_retained raw Hkeep) in Hc. cbn [map] in Hc.
      now rewrite (transposed_companion_empty wide Hc).
  - now rewrite (wide_table_raises raw m0 m Hm).
Qed.

Lemma iloc_footer {I C : Type} (cols : list C) (body footer : list (I * list value)) (k : nat) :
  length footer = k -> pd.iloc_stop_neg k (mkFrame cols (body ++ footer)) = mkFrame cols body.
Proof.
  intros Hk. unfold pd.iloc_stop_neg. cbn [rows columns]. f_equal.
  rewrite length_app, Hk, Nat.add_sub, firstn_app, firstn_all, Nat.sub_diag.
  cbn [firstn]. apply app_nil_r.
Qed.

Lemma infographic_footer (cols : list string) (body footer footer' : list (Z * list value)) :
  length footer = 5 -> length footer' = 5 ->
  infographic (mkFrame cols (body ++ footer)) = infographic (mkFrame cols (body ++ footer')).
Proof.
  intros H H'. unfold infographic, wide_table.
  now rewrite (iloc_footer cols body footer 5 H), (iloc_footer cols body footer' 5 H').
Qed.

(** X3: the last five rows of the table that [read_csv] returns never
    reach the charts: when two files are read as tables with the same
    header and the same rows up to the last five (the same cells, of the
    same types), the script ends alike on them and adds the same calls to
    the canvas. *)
Theorem last_five_rows_ignored (w w' : World) (cols : list string)
    (body footer footer' : list (Z * list value)) :
  lookup_file population_data_path (files w) = Some (mkFrame cols (body ++ footer)) ->
  lookup_file population_data_path (files w') = Some (mkFrame cols (body ++ footer')) ->
  length footer = 5 -> length footer' = 5 ->
  snd (main w) = snd (main w')
  /\ exists calls,
       canvas (fst (main w)) = canvas w ++ calls
       /\ canvas (fst (main w')) = canvas w' ++ calls.
Proof.
  intros Hfile Hfile' H H'.
  destruct (main_run w _ Hfile) as [ext ->].
  destruct (main_run w' _ Hfile') as [ext' ->].
  rewrite (infographic_footer cols body footer footer' H H'). cbn [fst snd canvas].
  split; [reflexivity|]. now eexists.
Qed.

Lemma split_first_spec (s : string) :
  has_space (split_first s) = false
  /\ (if has_space s then exists rest, s = (split_first s ++ String " " rest)%string
      else s = split_first s).
Proof.
  induction s as [|c s [IHn IHs]]; cbn [split_first has_space]; [now split|].
  destruct (Ascii.eqb_spec c " ") as [->|Hne]; cbn [orb has_space].
  - split; [reflexivity|]. now exists s.
  - apply Ascii.eqb_neq in Hne. rewrite Hne, IHn. cbn [orb]. split; [reflexivity|].
    destruct (has_space s).
    + destruct IHs as [rest Hrest]. exists rest. cbn [append]. now rewrite <- Hrest.
    + now rewrite <- IHs.
Qed.

(** X5: every column label of the WideTable is the text of its header in
    the file up to the first space: the label holds no space, and the
    header is the label, or the label, a space and more. *)
Theorem wide_table_labels (path : string) (w w' : World) (raw wide : DataFrame)
    (l : loc) (t : TransposedTable) :
  lookup_file path (files w) = Some raw ->
  process_world_bank_data path w = (w', Ok (l, t)) ->
  heap w' !! l = Some wide ->
  Forall2 (fun raw_header label =>
             has_space label = false
             /\ (if has_space raw_header
                 then exists rest, raw_header = (label ++ String " " rest)%string
                 else raw_header = label))
          (retained dropped_columns (columns raw)) (columns wide).
Proof.
  intros Hfile Hrun Hl.
  destruct (process_inv _ _ _ _ _ _ _ Hfile Hrun Hl) as [Hwide _].
  destruct (wide_table_inv raw wide Hwide) as [Hc _]. rewrite Hc. clear.
  induction (retained dropped_columns (columns raw)) as [|h hs IH]; cbn [map]; constructor.
  - apply split_first_spec.
  - exact IH.
Qed.

Lemma then_chart_ok (a b : chart) :
  snd (then_chart a b) = Ok tt ->
  snd a = Ok tt /\ snd b = Ok tt /\ fst (then_chart a b) = fst a ++ fst b.
Proof.
  unfold then_chart. destruct (snd a) as [[]|e] eqn:Ha; cbn [fst snd].
  - intros Hb. now repeat split.
  - rewrite Ha. discriminate.
Qed.

Lemma melted_chart_ok (series V : string) (plot : DataFrame -> list (nat * DrawCall))
    (df : DataFrame) :
  snd (melted_chart series V plot df) = Ok tt ->
  exists data, fst (melted_chart series V plot df) = plot data.
Proof.
  unfold melted_chart. destruct (long_table series V df) as [data|e]; [|discriminate].
  intros _. now exists data.
Qed.

Lemma pie_chart_ok (ax : nat) (df : DataFrame) :
  snd (pie_chart ax df) = Ok tt ->
  exists x pct labels, fst (pie_chart ax df) = pie_calls ax x pct labels.
Proof.
  unfold pie_chart. destruct (top_countries_table df) as [top|]; [|discriminate].
  destruct (pie_wedges top) as [[x pct]|]; [|discriminate].
  destruct (pd.getitem "Country" top) as [labels|]; [|discriminate].
  intros _. now exists x, pct, labels.
Qed.

(** X15: a run of the script that ends well has made twenty-three calls
    on the canvas, chart after chart: six on the first Axes, six on the
    second, four on the third, four on the fourth and three on the figure,
    and nothing else. *)
Theorem main_draws_panels_in_order (w : World) :
  snd (main w) = Ok tt ->
  exists calls, canvas (fst (main w)) = canvas w ++ calls /\ map fst calls = panels.
Proof.
  destruct (lookup_file population_data_path (files w)) as [raw|] eqn:Hfile.
  - destruct (main_run w raw Hfile) as [ext ->]. cbn [fst snd canvas].
    intros Hok. exists (fst (infographic raw)). split; [reflexivity|].
    unfold infographic in *.
    destruct (wide_table raw) as [wide|]; [|discriminate].
    destruct (transposed_companion wide) as [t|]; [|discriminate].
    destruct (then_chart_ok _ _ Hok) as [Hbar [Hok1 ->]].
    destruct (then_chart_ok _ _ Hok1) as [Hline [Hok2 ->]].
    destruct (then_chart_ok _ _ Hok2) as [Hpie [Hok3 ->]].
    destruct (then_chart_ok _ _ Hok3) as [Hhist [_ ->]].
    destruct (melted_chart_ok _ _ _ _ Hbar) as [d1 Hd1].
    destruct (melted_chart_ok _ _ _ _ Hline) as [d2 Hd2].
    destruct (pie_chart_ok _ _ Hpie) as [x [pct [labels Hd3]]].
    destruct (melted_chart_ok _ _ _ _ Hhist) as [d4 Hd4].
    unfold barplot_chart, lineplot_chart, histogram_chart.
    rewrite Hd1, Hd2, Hd3, Hd4. reflexivity.
  - unfold main, process_world_bank_data, read_csv. rewrite !bind_run, Hfile.
    destruct (lookup_error population_data_path (unreadable w)); discriminate.
Qed.

(** ** The reshaped tables, cell by cell *)

Lemma select_positions {A : Type} (p : string -> bool) (g : nat -> A) (cols : list string)
    (s : nat) :
  select (map p cols) (map g (seq s (length cols)))
  = map (fun jc => g (fst jc))
        (List.filter (fun jc => p (snd jc)) (combine (seq s (length cols)) cols)).
Proof.
  revert s. induction cols as [|c cols IH]; intros s; [reflexivity|].
  cbn [length seq map select combine List.filter snd].
  destruct (p c); cbn [map fst]; now rewrite IH.
Qed.

Lemma filter_positions (p : string -> bool) (cols : list string) (s : nat) :
  List.filter p cols
  = map snd (List.filter (fun jc => p (snd jc)) (combine (seq s (length cols)) cols)).
Proof.
  revert s. induction cols as [|c cols IH]; intros s; [reflexivity|].
  cbn [length seq combine List.filter snd].
  destruct (p c); cbn [map snd]; now rewrite <- IH.
Qed.

(** X6: the WideTable is the parsed table without its last five rows and
    without the columns to drop: every remaining row keeps its index label
    and, under every kept column, in the order of the file, the cell it had
    there; the label of the column is the header up to its first space. *)
Theorem wide_table_cells (path : string) (w w' : World) (raw wide : DataFrame)
    (l : loc) (t : TransposedTable) :
  lookup_file path (files w) = Some raw ->
  process_world_bank_data path w = (w', Ok (l, t)) ->
  heap w' !! l = Some wide ->
  columns wide = map (fun jc => split_first (snd jc)) (kept_columns raw)
  /\ rows wide = map (fun r => (fst r, map (fun jc => cell (fst jc) r) (kept_columns raw)))
                     (firstn (nrows raw - 5) (rows raw)).
Proof.
  intros Hfile Hrun Hl.
  destruct (process_inv _ _ _ _ _ _ _ Hfile Hrun Hl) as [Hwide _].
  destruct (wide_table_inv raw wide Hwide) as [Hc _]. split.
  - rewrite Hc. unfold retained, kept_columns, ncols.
    rewrite (filter_positions (fun c => negb (mem c dropped_columns)) (columns raw) 0).
    now rewrite map_map.
  - unfold wide_table, pd.drop in Hwide.
    destruct (List.filter _ dropped_columns); [|discriminate].
    cbn [mbind result_bind mret result_ret columns rows] in Hwide. injection Hwide as <-.
    cbn [rows]. unfold pd.iloc_stop_neg, nrows, ncols, kept_columns, ncols, pad.
    cbn [rows columns]. apply map_ext. intros r. f_equal.
    apply (select_positions (fun c => negb (mem c dropped_columns))
             (fun j => nth j (snd r) VNaN)).
Qed.

Lemma pad_id (cells : list value) : pad (length cells) cells = cells.
Proof.
  apply (nth_ext _ _ VNaN VNaN); [apply pad_length|].
  intros j Hj. rewrite pad_length in Hj. now apply pad_nth.
Qed.

Lemma nth_map_combine_cells {K B : Type} (F : K * value -> B) (cols : list K)
    (cells : list value) (j : nat) (c : K) (d : B) :
  nth_error cols j = Some c -> length cells = length cols ->
  nth j (map F (combine cols cells)) d = F (c, nth j cells VNaN).
Proof.
  revert cells j. induction cols as [|c0 cols IH]; intros cells j Hj Hlen.
  - destruct j; discriminate.
  - destruct cells as [|x cells]; [discriminate|].
    destruct j as [|j]; cbn in *.
    + now injection Hj as ->.
    + apply IH; [assumption | lia].
Qed.

Lemma Forall2_map_self {A B : Type} (P : A -> B -> Prop) (G : A -> B) (l : list A) :
  (forall x, P x (G x)) -> Forall2 P l (map G l).
Proof.
  intros H. induction l as [|x l IH]; cbn [map]; constructor; auto.
Qed.

Lemma filter_map_swap {A B : Type} (p : B -> bool) (f : A -> B) (l : list A) :
  List.filter p (map f l) = map f (List.filter (fun x => p (f x)) l).
Proof.
  induction l as [|x l IH]; cbn [map List.filter]; [reflexivity|].
  destruct (p (f x)); cbn [map]; now rewrite IH.
Qed.

(** Writing the index into the column [key], row by row: the cells under
    the other labels stay. *)
Lemma setitem_index_rows {I : Type} (is_key : value -> bool) (key : value) (g : I -> value)
    (f : Frame I value) :
  exists G : I * list value -> I * list value,
    pd.setitem is_key key (map g (index f)) f
    = Ok (mkFrame (columns f ++ (if existsb is_key (columns f) then [] else [key]))
            (map G (rows f)))
    /\ forall r, fst (G r) = fst r
                 /\ forall j c, nth_error (columns f) j = Some c -> is_key c = false ->
                                cell j (G r) = cell j r.
Proof.
  unfold pd.setitem, index, nrows.
  rewrite !length_map, Nat.eqb_refl.
  rewrite map_map, (combine_map_self (fun r => g (fst r))).
  destruct (existsb is_key (columns f)) eqn:Hex.
  - exists (fun r => (fst r,
                      map (fun co : value * value => if is_key (fst co) then g (fst r) else snd co)
                          (combine (columns f) (pad (ncols f) (snd r))))).
    split; [now rewrite map_map, app_nil_r|].
    intros r. split; [reflexivity|]. intros j c Hj Hc. unfold cell. cbn [snd].
    rewrite (nth_map_combine_cells _ (columns f) _ j c VNaN Hj (pad_length _ _)).
    cbn [fst snd]. rewrite Hc. apply pad_nth. apply nth_error_Some. congruence.
  - exists (fun r => (fst r, pad (ncols f) (snd r) ++ [g (fst r)])).
    split; [now rewrite map_map|].
    intros r. split; [reflexivity|]. intros j c Hj Hc. unfold cell. cbn [snd].
    assert (Hlt : j < ncols f) by (apply nth_error_Some; congruence).
    rewrite app_nth1 by now rewrite pad_length. now apply pad_nth.
Qed.

Lemma year_columns_cons (wide : DataFrame) (c0 : string) (cs : list string) :
  columns wide = c0 :: cs ->
  year_columns wide
  = List.filter (fun jc => isnumeric (snd jc)) (combine (seq 1 (length cs)) cs).
Proof. intros H. unfold year_columns, ncols. now rewrite H. Qed.

(** The transposed companion before its "Years" column is written. *)
Lemma transposed_companion_years (wide : DataFrame) (c0 : string) (cs : list string) :
  columns wide = c0 :: cs ->
  forallb parses cs = true ->
  let f := mkFrame (map (cell 0) (rows wide))
             (map (fun jc : nat * string =>
                     (digits_value 0 (snd jc), map (cell (fst jc)) (rows wide)))
                  (year_columns wide)) in
  transposed_companion wide
  = pd.setitem (pd.is_label "Years") (VStr "Years") (map VInt (index f)) f.
Proof.
  intros Hcols Hparse. rewrite (year_columns_cons wide c0 cs Hcols).
  set (L := combine (seq 1 (length cs)) cs).
  set (Y := List.filter (fun jc : nat * string => isnumeric (snd jc)) L).
  assert (HY : map (fun jc : nat * string => snd jc) Y = List.filter isnumeric cs).
  { unfold Y. change (fun jc : nat * string => snd jc) with (@snd nat string).
    rewrite <- (filter_map_swap isnumeric snd L). unfold L.
    now rewrite map_snd_combine by now rewrite length_seq. }
  intros f. unfold transposed_companion.
  pose proof (T_rows wide c0 cs Hcols) as Hrows. fold L in Hrows.
  assert (Hhead : pad (ncols (pd.T wide)) (map (cell 0) (rows wide))
                  = map (cell 0) (rows wide)).
  { unfold ncols, pd.T, index. cbn [columns].
    rewrite length_map, <- (length_map (cell 0) (rows wide)). apply pad_id. }
  unfold pd.iloc_row0. rewrite Hrows. cbn [mbind result_bind snd]. rewrite Hhead.
  unfold pd.set_columns.
  replace (ncols (pd.T wide)) with (length (map (cell 0) (rows wide)))
    by (unfold ncols, pd.T, index; cbn [columns]; now rewrite !length_map).
  rewrite Nat.eqb_refl. cbn [mbind result_bind].
  unfold pd.iloc_start. cbn [rows columns]. rewrite Hrows. cbn [skipn].
  match goal with |- context [skipn 0 ?b] => change (skipn 0 b) with b end.
  unfold pd.getitem_bool, index. cbn [rows columns].
  rewrite !select_map_fst, !filter_map_swap. cbn [fst]. fold Y.
  rewrite !map_map. cbn [fst].
  rewrite (mapM_to_numeric (map (fun jc : nat * string => snd jc) Y))
    by (rewrite HY; now rewrite forallb_filter_parses).
  cbn [mbind result_bind]. unfold pd.set_index, nrows. cbn [rows columns].
  rewrite !length_map, Nat.eqb_refl. cbn [mbind result_bind].
  rewrite !map_map. cbn [snd]. rewrite combine_map_map. reflexivity.
Qed.

(** X7: the TransposedTable is the transpose of the year columns of the
    WideTable.  Its columns are headed by the cells of the first column of
    the WideTable, row after row, followed by "Years" unless one of those
    cells is "Years"; it has one row for every column of the WideTable
    after the first whose label consists of digits, in their order, indexed
    by the number the label spells; and in that row the cell under the
    i-th heading is the cell of the i-th row of the WideTable in that
    column, unless the heading is "Years". *)
Theorem transposed_table_cells (path : string) (w w' : World) (raw wide : DataFrame)
    (l : loc) (t : TransposedTable) :
  lookup_file path (files w) = Some raw ->
  process_world_bank_data path w = (w', Ok (l, t)) ->
  heap w' !! l = Some wide ->
  columns t = map (cell 0) (rows wide)
              ++ (if existsb (pd.is_label "Years") (map (cell 0) (rows wide)) then []
                  else [VStr "Years"])
  /\ Forall2 (fun jc r =>
                fst r = digits_value 0 (snd jc)
                /\ forall i row, nth_error (rows wide) i = Some row ->
                                 pd.is_label "Years" (cell 0 row) = false ->
                                 cell i r = cell (fst jc) row)
             (year_columns wide) (rows t).
Proof.
  intros Hfile Hrun Hl.
  destruct (process_inv _ _ _ _ _ _ _ Hfile Hrun Hl) as [_ Ht].
  destruct (columns wide) as [|c0 cs] eqn:Hc.
  { rewrite (transposed_companion_empty wide Hc) in Ht. discriminate. }
  destruct (forallb parses cs) eqn:Hparse;
    [|destruct (transposed_companion_fails wide c0 cs Hc Hparse) as [msg Hmsg];
      rewrite Hmsg in Ht; discriminate].
  pose proof (transposed_companion_years wide c0 cs Hc Hparse) as Hyears.
  cbv zeta in Hyears. rewrite Hyears in Ht. clear Hyears.
  match type of Ht with
  | pd.setitem _ _ (map _ (index ?f)) _ = _ =>
      destruct (setitem_index_rows (pd.is_label "Years") (VStr "Years") VInt f)
        as [G [HG Hcells]]
  end.
  rewrite HG in Ht. injection Ht as <-. cbn [columns rows]. split; [reflexivity|].
  rewrite map_map. apply Forall2_map_self. intros jc.
  destruct (Hcells (digits_value 0 (snd jc), map (cell (fst jc)) (rows wide)))
    as [Hfst Hcell].
  split; [exact Hfst|]. intros i row Hi Hno.
  rewrite (Hcell i (cell 0 row)); [|now apply map_nth_error | exact Hno].
  unfold cell at 1. cbn [snd].
  apply nth_error_nth. now apply map_nth_error.
Qed.

(** X16: when the WideTable is built with distinct labels and the
    transposed companion too, a measure of the urban-growth series that is
    text and spells no number (the ".." of the World Bank export), or a
    column the bar chart needs and the WideTable lacks, ends the script at
    the first chart: the script raises what the data preparation of the
    bar chart raises, nothing is drawn and no image is written. *)
Theorem main_stops_at_bar_chart (w : World) (raw wide : DataFrame) :
  lookup_file population_data_path (files w) = Some raw ->
  wide_table raw = Ok wide ->
  keeps_a_column raw = true ->
  headers_parse raw = true ->
  distinct (columns wide) = true ->
  melted_outcome urban_growth wide <> Ok tt ->
  snd (main w) = melted_outcome urban_growth wide
  /\ canvas (fst (main w)) = canvas w
  /\ saved (fst (main w)) = saved w.
Proof.
  intros Hfile Hwide Hkeep Hparse _ Hne.
  destruct (main_run w raw Hfile) as [ext ->]. cbn [fst snd canvas saved].
  unfold infographic, written. rewrite Hwide.
  destruct (wide_table_inv raw wide Hwide) as [Hc _].
  destruct (keeps_a_column_retained raw Hkeep) as [c0 [cs Hret]].
  rewrite Hret in Hc. cbn [map] in Hc.
  rewrite <- (headers_parse_labels raw wide _ _ Hwide Hc) in Hparse.
  destruct (transposed_companion_ok wide _ _ Hc Hparse) as [t [-> _]].
  destruct (melted_chart_outcome urban_growth "Urban Population Growth (Annual %)"
              (barplot_calls 0) wide eq_refl eq_refl) as [Hsnd Hfst].
  specialize (Hfst Hne). unfold barplot_chart.
  set (A := melted_chart urban_growth "Urban Population Growth (Annual %)"
              (barplot_calls 0) wide) in *.
  match goal with
  | |- context [then_chart A ?B] =>
      assert (HA : then_chart A B = A)
        by (unfold then_chart; rewrite Hsnd;
            destruct (melted_outcome urban_growth wide) as [[]|e]; [congruence | reflexivity]);
      rewrite HA
  end.
  rewrite Hsnd, Hfst.
  destruct (melted_outcome urban_growth wide) as [[]|e]; [congruence|].
  split; [reflexivity|]. split; apply app_nil_r.
Qed.

End Script.

(** * Worked runs *)

Lemma main_missing_column_witness :
  exists w' m,
    main decimal_literal (world_with no_series_code_csv) = (w', Err (KeyError m))
    /\ In "Series Code" m
    /\ canvas w' = []
    /\ saved w' = [].
Proof.
  apply (main_missing_column decimal_literal (world_with no_series_code_csv)
           no_series_code_csv "Series Code"); reflexivity.
Defined.

Lemma builders_leave_wide_table_witness :
  let df := three_series_table in
  let w := heap_with df in
  let bar := barplot_urban_growth_data decimal_literal 0 0 w in
  let line := lineplot_urban_growth_data decimal_literal 1 0 w in
  let pie := pie_chart_largest_city_population decimal_literal 2 0 w in
  let hist := histogram_rural_population decimal_literal 3 0 w in
  (snd bar = Ok tt /\ snd line = Ok tt /\ snd pie = Ok tt /\ snd hist = Ok tt)
  /\ (length (heap (fst bar)) = 3 /\ length (heap (fst line)) = 3
      /\ length (heap (fst pie)) = 5 /\ length (heap (fst hist)) = 3)
  /\ (heap (fst (barplot_urban_growth_data decimal_literal 0 0 w)) !! 0 = Some df
      /\ heap (fst (lineplot_urban_growth_data decimal_literal 0 0 w)) !! 0 = Some df
      /\ heap (fst (pie_chart_largest_city_population decimal_literal 0 0 w)) !! 0 = Some df
      /\ heap (fst (histogram_rural_population decimal_literal 0 0 w)) !! 0 = Some df).
Proof.
  cbv zeta. split; [repeat split; vm_compute; reflexivity|].
  split; [repeat split; vm_compute; reflexivity|].
  apply (builders_leave_wide_table decimal_literal 0 0 (heap_with three_series_table)
           three_series_table). reflexivity.
Defined.

Lemma pie_drops_missing_only_witness :
  let df := dots_table in
  let run := pie_chart_largest_city_population decimal_literal 2 0 (heap_with df) in
  let kept := mkFrame (columns df) (non_missing_2019 df) in
  (forall r, In r (non_missing_2019 df)
             <-> In r (largest_city_rows df) /\ pd.cell_of df "2019" r <> VNaN)
  /\ (snd run = Err (ValueError could_not_convert) <-> offending decimal_literal df = true)
  /\ heap (fst run) !! S (length (heap (heap_with df)))
     = Some (if offending decimal_literal df then kept
             else mkFrame (columns df) (coerced_rows decimal_literal "2019" kept))
  /\ map fst (coerced_rows decimal_literal "2019" kept) = map fst (non_missing_2019 df).
Proof.
  apply (pie_drops_missing_only decimal_literal 2 0 (heap_with dots_table) dots_table);
    reflexivity.
Defined.

(** A run of the builder that returns: the frame that was coerced holds
    the rows with a 2019 value, their 2019 cells now floats. *)
Example pie_coerces_kept_rows :
  let run := pie_chart_largest_city_population decimal_literal 2 0
               (heap_with four_countries_table) in
  snd run = Ok tt
  /\ option_map (fun f => map (pd.cell_of f "2019") (rows f)) (heap (fst run) !! 2)
     = Some [VFloat (305 # 10); VFloat 21; VFloat 44].
Proof. cbv zeta. split; vm_compute; reflexivity. Qed.

(** C2, as stated, fails: the row of country B, whose 2019 value is the
    text "..", is not dropped; it is in the frame that is coerced, and the
    coercion raises on it.  Only the row of country C, whose value is
    missing, has gone. *)
Lemma pie_keeps_text_row :
  let run := pie_chart_largest_city_population decimal_literal 2 0 (heap_with dots_table) in
  decimal_literal ".." = None
  /\ snd run = Err (ValueError could_not_convert)
  /\ option_map rows (heap (fst run) !! 2)
     = Some [ wide_row 0 "A" largest_city (VStr "30.5");
              wide_row 1 "B" largest_city (VStr "..") ]
  /\ canvas (fst run) = [].
Proof. cbv zeta. repeat split. Qed.


(** The wedges of that pie: C, A, F, H, B, G. *)
Example pie_of_eight_countries :
  nth_error
    (canvas (fst (pie_chart_largest_city_population decimal_literal 2 0
                    (heap_with eight_countries_table)))) 2
  = Some (2, Legend "Country"
               (Some [VStr "C"; VStr "A"; VStr "F"; VStr "H"; VStr "B"; VStr "G"])).
Proof. reflexivity. Qed.


(** * Worked runs of the script and of the builders *)

Lemma last_five_rows_ignored_witness :
  let w := world_with (mkFrame example_header (float_body ++ blank_footer)) in
  let w' := world_with (mkFrame example_header (float_body ++ notes_footer)) in
  snd (main decimal_literal w) = snd (main decimal_literal w')
  /\ exists calls,
       canvas (fst (main decimal_literal w)) = canvas w ++ calls
       /\ canvas (fst (main decimal_literal w')) = canvas w' ++ calls.
Proof.
  apply (last_five_rows_ignored decimal_literal
           (world_with (mkFrame example_header (float_body ++ blank_footer)))
           (world_with (mkFrame example_header (float_body ++ notes_footer)))
           example_header float_body blank_footer notes_footer); reflexivity.
Defined.

(** Both runs return and draw the four charts. *)
Example last_five_rows_runs :
  snd (main decimal_literal
         (world_with (mkFrame example_header (float_body ++ notes_footer)))) = Ok tt.
Proof. vm_compute. reflexivity. Qed.

Lemma process_world_bank_data_raises_witness :
  raised (snd (process_world_bank_data population_data_path (world_with example_csv))) = None
  /\ raised (snd (process_world_bank_data population_data_path
                    (world_with no_series_code_csv)))
     = Some (KeyError ["Series Code"])
  /\ raised (snd (process_world_bank_data population_data_path
                    (world_with fourteen_columns_csv)))
     = Some IndexError
  /\ exists msg,
       raised (snd (process_world_bank_data population_data_path
                      (world_with superscript_header_csv)))
       = Some (ValueError msg).
Proof.
  pose proof (process_world_bank_data_raises population_data_path (world_with example_csv)
                example_csv eq_refl) as H1.
  pose proof (process_world_bank_data_raises population_data_path
                (world_with no_series_code_csv) no_series_code_csv eq_refl) as H2.
  pose proof (process_world_bank_data_raises population_data_path
                (world_with fourteen_columns_csv) fourteen_columns_csv eq_refl) as H3.
  pose proof (process_world_bank_data_raises population_data_path
                (world_with superscript_header_csv) superscript_header_csv eq_refl) as H4.
  vm_compute in H1, H2, H3, H4.
  split; [|split; [|split]]; vm_compute; assumption.
Defined.

(** The ValueError of line 31, on a superscript and on digits that spell
    2^64. *)
Example process_world_bank_data_value_errors :
  snd (process_world_bank_data population_data_path (world_with superscript_header_csv))
  = Err (ValueError unable_to_parse)
  /\ to_numeric "18446744073709551615" = Ok 18446744073709551615%Z
  /\ to_numeric "18446744073709551616" = Err (ValueError out_of_range).
Proof. repeat split. Qed.

Lemma wide_table_labels_witness :
  exists wide : DataFrame,
    columns wide = ["Country"; "Series"; "2015"; "2016"; "2017"; "2018"; "2019"]
    /\ Forall2 (fun raw_header label =>
                  has_space label = false
                  /\ (if has_space raw_header
                      then exists rest, raw_header = (label ++ String " " rest)%string
                      else raw_header = label))
               (retained dropped_columns (columns example_csv)) (columns wide).
Proof.
  eexists. split; [|eapply (wide_table_labels population_data_path
                             (world_with example_csv) _ example_csv _ _ _ eq_refl)].
  2: vm_compute; reflexivity.
  2: vm_compute; reflexivity.
  reflexivity.
Defined.

Lemma wide_table_cells_witness :
  exists wide : DataFrame,
    nrows wide = 5
    /\ columns wide = map (fun jc => split_first (snd jc)) (kept_columns example_csv)
    /\ rows wide = map (fun r => (fst r, map (fun jc => cell (fst jc) r)
                                             (kept_columns example_csv)))
                       (firstn (nrows example_csv - 5) (rows example_csv)).
Proof.
  eexists. split; [|eapply (wide_table_cells population_data_path
                             (world_with example_csv) _ example_csv _ _ _ eq_refl)].
  2: vm_compute; reflexivity.
  2: vm_compute; reflexivity.
  reflexivity.
Defined.

Lemma transposed_table_cells_witness :
  exists (wide : DataFrame) (t : TransposedTable),
    (nrows wide = 5 /\ index t = [2015; 2016; 2017; 2018; 2019]%Z)
    /\ columns t = map (cell 0) (rows wide)
                   ++ (if existsb (pd.is_label "Years") (map (cell 0) (rows wide)) then []
                       else [VStr "Years"])
    /\ Forall2 (fun jc r =>
                  fst r = digits_value 0 (snd jc)
                  /\ forall i row, nth_error (rows wide) i = Some row ->
                                   pd.is_label "Years" (cell 0 row) = false ->
                                   cell i r = cell (fst jc) row)
               (year_columns wide) (rows t).
Proof.
  eexists. eexists.
  split; [|eapply (transposed_table_cells population_data_path
                     (world_with example_csv) _ example_csv _ _ _ eq_refl)].
  2: vm_compute; reflexivity.
  2: vm_compute; reflexivity.
  split; reflexivity.
Defined.

Lemma long_table_shape_witness :
  exists data,
    long_table decimal_literal rural_population "Rural Population" three_series_table
    = Ok data
    /\ length (rows_where "Series" rural_population three_series_table) = 2
    /\ columns data = ["Country"; "Year"; "Rural Population"]
    /\ nrows data = 5 * length (rows_where "Series" rural_population three_series_table)
    /\ Forall (fun r => exists a z m,
                          snd r = [a; VInt z; m] /\ (2015 <= z <= 2019)%Z
                          /\ (m = VNaN \/ exists q, m = VFloat q))
              (rows data).
Proof.
  eexists. split; [vm_compute; reflexivity|]. split; [reflexivity|].
  apply (long_table_shape decimal_literal rural_population "Rural Population"
           three_series_table);
    [reflexivity | reflexivity | reflexivity | reflexivity | vm_compute; reflexivity].
Defined.

Lemma melting_builders_outcome_witness :
  let df := three_series_table in
  let w := heap_with df in
  let bar := barplot_urban_growth_data decimal_literal 0 0 w in
  let line := lineplot_urban_growth_data decimal_literal 0 0 w in
  let hist := histogram_rural_population decimal_literal 0 0 w in
  (length (rows_where "Series" urban_growth df) = 2
   /\ length (rows_where "Series" rural_population df) = 2)
  /\ (snd bar = melted_outcome decimal_literal urban_growth df
      /\ (snd bar <> Ok tt -> canvas (fst bar) = canvas w))
  /\ (snd line = melted_outcome decimal_literal urban_growth df
      /\ (snd line <> Ok tt -> canvas (fst line) = canvas w))
  /\ (snd hist = melted_outcome decimal_literal rural_population df
      /\ (snd hist <> Ok tt -> canvas (fst hist) = canvas w)).
Proof.
  cbv zeta. split; [split; reflexivity|].
  exact (melting_builders_outcome decimal_literal 0 0 (heap_with three_series_table)
           three_series_table eq_refl eq_refl).
Defined.

(** A builder that raises: the text ".." among the measures of the
    urban-growth series stops the bar chart and the line chart, and the
    histogram of the other series is drawn. *)
Example melting_builders_on_text :
  let df := mkFrame wide_header
              [ (0%Z, [VStr "A"; VStr urban_growth; VStr "1"; VStr ".."; VStr "1"; VStr "1";
                       VStr "1"]);
                wide_row 1 "A" rural_population (VStr "1000") ] in
  let w := heap_with df in
  snd (barplot_urban_growth_data decimal_literal 0 0 w) = Err (ValueError could_not_convert)
  /\ canvas (fst (barplot_urban_growth_data decimal_literal 0 0 w)) = []
  /\ snd (lineplot_urban_growth_data decimal_literal 0 0 w)
     = Err (ValueError could_not_convert)
  /\ snd (histogram_rural_population decimal_literal 0 0 w) = Ok tt.
Proof. cbv zeta. repeat split. Qed.

Lemma melting_builders_plot_witness :
  let df := three_series_table in
  let w := heap_with df in
  (melted_outcome decimal_literal urban_growth df = Ok tt
   /\ melted_outcome decimal_literal rural_population df = Ok tt
   /\ nrows (long_form decimal_literal urban_growth
               "Urban Population Growth (Annual %)" df) = 10)
  /\ (melted_outcome decimal_literal urban_growth df = Ok tt ->
      canvas (fst (barplot_urban_growth_data decimal_literal 0 0 w))
      = canvas w ++ barplot_calls 0
                      (long_form decimal_literal urban_growth
                         "Urban Population Growth (Annual %)" df)
      /\ canvas (fst (lineplot_urban_growth_data decimal_literal 0 0 w))
         = canvas w ++ lineplot_calls 0
                         (long_form decimal_literal urban_growth
                            "Urban Population Growth (Annual %)" df))
  /\ (melted_outcome decimal_literal rural_population df = Ok tt ->
      canvas (fst (histogram_rural_population decimal_literal 0 0 w))
      = canvas w ++ histogram_calls 0
                      (long_form decimal_literal rural_population "Rural Population" df)).
Proof.
  cbv zeta. split; [repeat split; reflexivity|].
  exact (melting_builders_plot decimal_literal 0 0 (heap_with three_series_table)
           three_series_table eq_refl eq_refl).
Defined.

Lemma builders_on_empty_series_witness :
  let df := empty_wide_table in
  let w := heap_with df in
  (snd (barplot_urban_growth_data decimal_literal 0 0 w) = Ok tt
   /\ canvas (fst (barplot_urban_growth_data decimal_literal 0 0 w))
      = canvas w ++ barplot_calls 0 (empty_long_table "Urban Population Growth (Annual %)")
   /\ snd (lineplot_urban_growth_data decimal_literal 0 0 w) = Ok tt
   /\ canvas (fst (lineplot_urban_growth_data decimal_literal 0 0 w))
      = canvas w ++ lineplot_calls 0 (empty_long_table "Urban Population Growth (Annual %)"))
  /\ (snd (pie_chart_largest_city_population decimal_literal 0 0 w)
      = Err (ValueError all_zero)
      /\ canvas (fst (pie_chart_largest_city_population decimal_literal 0 0 w)) = canvas w)
  /\ (snd (histogram_rural_population decimal_literal 0 0 w) = Ok tt
      /\ canvas (fst (histogram_rural_population decimal_literal 0 0 w))
         = canvas w ++ histogram_calls 0 (empty_long_table "Rural Population")).
Proof.
  destruct (builders_on_empty_series decimal_literal 0 0 (heap_with empty_wide_table)
              empty_wide_table eq_refl eq_refl eq_refl) as [Hbar [Hpie Hhist]].
  split; [exact (Hbar eq_refl)|]. split; [exact (Hpie eq_refl) | exact (Hhist eq_refl)].
Defined.


(** The wedges of that pie: D, A, B; country C has no value. *)
Example pie_of_four_countries :
  nth_error
    (canvas (fst (pie_chart_largest_city_population decimal_literal 2 0
                    (heap_with four_countries_table)))) 2
  = Some (2, Legend "Country" (Some [VStr "D"; VStr "A"; VStr "B"])).
Proof. reflexivity. Qed.

Lemma pie_drawn_before_legend_witness :
  let df := no_country_table in
  let w := heap_with df in
  let run := pie_chart_largest_city_population decimal_literal 2 0 w in
  snd run = Err (KeyError ["Country"])
  /\ (snd run = Err (KeyError ["Country"]) ->
      mem "Country" (columns df) = false
      /\ exists x pct,
           canvas (fst run) = canvas w ++ [(2, Pie x pct); (2, Decorate "axis")])
  /\ (forall e, snd run = Err e -> e <> KeyError ["Country"] ->
                canvas (fst run) = canvas w).
Proof.
  cbv zeta. split; [reflexivity|].
  exact (pie_drawn_before_legend decimal_literal 2 0 (heap_with no_country_table)
           no_country_table eq_refl).
Defined.

Lemma builders_are_confined_witness :
  let w := heap_with eight_countries_table in
  confined 1 w (fst (barplot_urban_growth_data decimal_literal 1 0 w))
  /\ confined 1 w (fst (lineplot_urban_growth_data decimal_literal 1 0 w))
  /\ confined 1 w (fst (pie_chart_largest_city_population decimal_literal 1 0 w))
  /\ confined 1 w (fst (histogram_rural_population decimal_literal 1 0 w)).
Proof.
  exact (builders_are_confined decimal_literal 1 0 (heap_with eight_countries_table)
           eight_countries_table eq_refl).
Defined.

Lemma main_draws_panels_in_order_witness :
  exists calls,
    canvas (fst (main decimal_literal (world_with example_csv)))
    = canvas (world_with example_csv) ++ calls
    /\ map fst calls = panels.
Proof.
  apply (main_draws_panels_in_order decimal_literal (world_with example_csv)).
  vm_compute. reflexivity.
Defined.

Lemma main_stops_at_bar_chart_witness :
  exists wide,
    wide_table dots_csv = Ok wide
    /\ melted_outcome decimal_literal urban_growth wide = Err (ValueError could_not_convert)
    /\ snd (main decimal_literal (world_with dots_csv))
       = melted_outcome decimal_literal urban_growth wide
    /\ canvas (fst (main decimal_literal (world_with dots_csv))) = canvas (world_with dots_csv)
    /\ saved (fst (main decimal_literal (world_with dots_csv))) = saved (world_with dots_csv).
Proof.
  eexists. split; [vm_compute; reflexivity|]. split; [vm_compute; reflexivity|].
  apply (main_stops_at_bar_chart decimal_literal (world_with dots_csv) dots_csv);
    [reflexivity | vm_compute; reflexivity | reflexivity | reflexivity
     | vm_compute; reflexivity | vm_compute; discriminate].
Defined.
